(** * ogmigo: chain-sync points, response decoding and the v5/v6 shim

    A shallow embedding of the parts of ogmigo that its specification makes
    claims about:

    - [ouroboros/chainsync/types.go] (both generations of the file): the
      [Point] sum type, its ordering [Points.Less], its three serializers
      (JSON, CBOR, DynamoDB attribute values) and [ResponsePraos.UnmarshalJSON];
    - [ouroboros/chainsync/compatibility/types.go]: the decoders that accept
      either wire generation;
    - the declarations of [ExUnitsBudget] and of the v5 [TxBody];
    - [getInit], which is only known through its test.

    Go values are modelled as the code has them: a [string] and a [[]byte]
    are byte sequences (Rocq [string]), a [uint64] is an [N] below [2^64],
    a nilable pointer is an [option], an [error] is an [option error]
    ([None] is Go's [nil]), and a call that can panic returns an [outcome].

    The Go libraries the code calls (encoding/json, fxamacker/cbor,
    dynamodbattribute) are modelled in the modules [Json], [Cbor] and
    [Dynamo].  Each model is executable.  What a model leaves out is said
    where it is defined. *)

From Stdlib Require Import String Ascii List ZArith NArith Lia Bool.
From Stdlib Require Import DecimalString DecimalN DecimalPos DecimalFacts.
Import ListNotations.
Open Scope string_scope.
Set Warnings "-register-all".

(** ** Go basics *)

(** [[]byte] and [string]: sequences of bytes. *)
Definition bytes := string.

(** Go errors.  The library errors keep what identifies them; [New] is an
    error that is only a message ([errors.New], [fmt.Errorf] with no [%w]);
    [Errorf] is [fmt.Errorf(msg + ": %w", err)], whose operand may be [nil]. *)
Inductive error : Type :=
| New (msg : string)
| SyntaxError (msg : string)
| UnmarshalTypeError (value : string) (gotype : string)
| Errorf (msg : string) (wrapped : option error).

(** The result of a call that may panic. *)
Inductive outcome (A : Type) : Type :=
| Returns (a : A)
| Panics (msg : string).
Arguments Returns {A} a.
Arguments Panics {A} msg.

Definition uint64_bound : N := 2 ^ 64.
Definition uint32_bound : N := 2 ^ 32.

(** [errors.Unwrap] chain: does [e] carry [inner]? *)
Fixpoint error_eqb (a b : error) : bool :=
  match a, b with
  | New m, New m' => String.eqb m m'
  | SyntaxError m, SyntaxError m' => String.eqb m m'
  | UnmarshalTypeError v t, UnmarshalTypeError v' t' => String.eqb v v' && String.eqb t t'
  | Errorf m w, Errorf m' w' =>
      String.eqb m m' &&
      match w, w' with
      | None, None => true
      | Some x, Some y => error_eqb x y
      | _, _ => false
      end
  | _, _ => false
  end.

Fixpoint carries (e inner : error) : bool :=
  error_eqb e inner ||
  match e with
  | Errorf _ (Some w) => carries w inner
  | _ => false
  end.

(** Characters used below. *)
Definition dquote : ascii := "034"%char.
Definition backslash : ascii := "092"%char.

(** Writes a text with ['] where the Go source has a double quote. *)
Fixpoint q (s : string) : string :=
  match s with
  | EmptyString => EmptyString
  | String c r => String (if Ascii.eqb c "'" then dquote else c) (q r)
  end.

Definition is_ascii (c : ascii) : bool := (N_of_ascii c <? 128)%N.

Fixpoint ascii_text (s : string) : bool :=
  match s with
  | EmptyString => true
  | String c r => is_ascii c && ascii_text r
  end.

Definition is_digit (c : ascii) : bool :=
  ((48 <=? N_of_ascii c) && (N_of_ascii c <=? 57))%N.

Fixpoint all_digits (s : string) : bool :=
  match s with
  | EmptyString => true
  | String c r => is_digit c && all_digits r
  end.

(** [strconv.FormatUint(n, 10)]. *)
Definition FormatUint (n : N) : string := NilZero.string_of_uint (N.to_uint n).

(** [strconv.ParseUint(s, 10, 64)] on a text of decimal digits. *)
Definition ParseUint (bound : N) (s : string) : option N :=
  match NilZero.uint_of_string s with
  | Some d => let n := N.of_uint d in if (n <? bound)%N then Some n else None
  | None => None
  end.

(** [strconv.FormatInt(z, 10)] and [strconv.ParseInt(s, 10, 64)]. *)
Definition FormatInt (z : Z) : string := NilZero.string_of_int (Z.to_int z).

Definition ParseInt (s : string) : option Z :=
  match NilZero.int_of_string s with
  | Some d =>
      let z := Z.of_int d in
      if ((- 2 ^ 63 <=? z) && (z <? 2 ^ 63))%Z then Some z else None
  | None => None
  end.

(** Names compared with the case of ASCII letters ignored. *)
Definition lower (c : ascii) : ascii :=
  let n := N_of_ascii c in
  if ((65 <=? n) && (n <=? 90))%N then ascii_of_N (n + 32) else c.

Fixpoint fold_eqb (a b : string) : bool :=
  match a, b with
  | EmptyString, EmptyString => true
  | String x a', String y b' => Ascii.eqb (lower x) (lower y) && fold_eqb a' b'
  | _, _ => false
  end.

(** *** Package strings and slicing *)

(** [strings.HasPrefix(s, prefix)]. *)
Fixpoint HasPrefix (s prefix : string) {struct prefix} : bool :=
  match prefix with
  | EmptyString => true
  | String a p' =>
      match s with
      | String b s' => Ascii.eqb a b && HasPrefix s' p'
      | EmptyString => false
      end
  end.

(** [strings.Index(s, substr)]: where [substr] first occurs in [s], or -1. *)
Fixpoint Index (s substr : string) : Z :=
  if HasPrefix s substr then 0%Z
  else
    match s with
    | EmptyString => (-1)%Z
    | String _ s' => let i := Index s' substr in if (i <? 0)%Z then (-1)%Z else (i + 1)%Z
    end.

(** [s[:n]] and [s[n:]], for [0 <= n <= len(s)]. *)
Fixpoint slice_to (s : string) (n : nat) : string :=
  match n, s with
  | S n', String c s' => String c (slice_to s' n')
  | _, _ => EmptyString
  end.

Fixpoint slice_from (s : string) (n : nat) : string :=
  match n, s with
  | S n', String _ s' => slice_from s' n'
  | _, _ => s
  end.

(** *** Package strconv, for [int] (64 bits)

    [strconv.Itoa(i)], and [strconv.Atoi(s)]: an optional sign and decimal
    digits, within the range of [int]; [None] is its error. *)
Definition Itoa (i : Z) : string := FormatInt i.

Definition Atoi (s : string) : option Z :=
  match s with
  | String c r =>
      if Ascii.eqb c "+" then
        match NilZero.uint_of_string r with
        | Some d => let z := Z.of_N (N.of_uint d) in if (z <? 2 ^ 63)%Z then Some z else None
        | None => None
        end
      else ParseInt s
  | EmptyString => None
  end.

(** *** Arithmetic of [uint64]: results wrap around at [2^64].  The
    operands are values of the type, below [2^64]. *)
Definition add64 (a b : N) : N := ((a + b) mod uint64_bound)%N.
Definition sub64 (a b : N) : N := ((a + uint64_bound - b) mod uint64_bound)%N.
Definition mul64 (a b : N) : N := ((a * b) mod uint64_bound)%N.


(** *** Maps with string keys

    A map is the list of its entries, one per key.  [range] visits the
    entries in an order the language leaves open: the model visits them in
    the order of the list, and a statement about a loop is made for every
    list. *)
Fixpoint map_get {V : Type} (zero : V) (m : list (string * V)) (k : string) : V :=
  match m with
  | [] => zero
  | (k', v) :: m' => if String.eqb k' k then v else map_get zero m' k
  end.

Fixpoint map_set {V : Type} (m : list (string * V)) (k : string) (v : V) : list (string * V) :=
  match m with
  | [] => [(k, v)]
  | (k', v') :: m' => if String.eqb k' k then (k, v) :: m' else (k', v') :: map_set m' k v
  end.

(** *** Package encoding/hex *)

(** [fromHexChar]: the value of a hexadecimal digit of either case. *)
Definition fromHexChar (c : ascii) : option N :=
  let n := N_of_ascii c in
  if ((48 <=? n) && (n <=? 57))%N then Some (n - 48)%N
  else if ((97 <=? n) && (n <=? 102))%N then Some (n - 97 + 10)%N
  else if ((65 <=? n) && (n <=? 70))%N then Some (n - 65 + 10)%N
  else None.

(** [hex.DecodeString(s)]: the bytes, or nothing where the call returns an
    error (a character that is no digit, or an odd length). *)
Fixpoint hex_DecodeString (s : string) : option bytes :=
  match s with
  | EmptyString => Some EmptyString
  | String _ EmptyString => None
  | String a (String b r) =>
      match fromHexChar a, fromHexChar b with
      | Some x, Some y =>
          match hex_DecodeString r with
          | Some t => Some (String (ascii_of_N (N.lor (N.shiftl x 4) y)) t)
          | None => None
          end
      | _, _ => None
      end
  end.

Definition hextable (n : N) : ascii :=
  match get (N.to_nat n) "0123456789abcdef" with
  | Some c => c
  | None => "0"%char
  end.

(** [hex.EncodeToString(src)]: two digits of the lower case per byte. *)
Fixpoint hex_EncodeToString (src : bytes) : string :=
  match src with
  | EmptyString => EmptyString
  | String v r =>
      String (hextable (N.shiftr (N_of_ascii v) 4))
        (String (hextable (N.land (N_of_ascii v) 15)) (hex_EncodeToString r))
  end.

(** ** encoding/json

    A JSON document is parsed into a tree ([Json.value]) and a struct is
    decoded from the tree field by field, as encoding/json does by
    reflection.  Encoding goes the other way and renders the tree compactly.

    Left out: bytes above 127 are copied as they are in both directions
    (the library checks that they are UTF-8 and replaces what is not by
    U+FFFD), so the results below about texts are stated for 7-bit ASCII
    texts.  A [json.RawMessage] holds the compact rendering of the value
    (the library keeps the input's own blanks). *)
Module Json.

Inductive value : Type :=
| Null
| Bool (b : bool)
| Number (lit : string)
| Str (s : string)
| Array (elems : list value)
| Object (members : list (string * value)).

(** *** Encoding *)

Definition hexdigit (n : N) : ascii :=
  match n with
  | 0 => "0" | 1 => "1" | 2 => "2" | 3 => "3" | 4 => "4" | 5 => "5"
  | 6 => "6" | 7 => "7" | 8 => "8" | 9 => "9" | 10 => "a" | 11 => "b"
  | 12 => "c" | 13 => "d" | 14 => "e" | _ => "f"
  end%N%char.

(** One byte of a string, as [json.Marshal] writes it (HTML escaping on). *)
Definition escape_char (c : ascii) : string :=
  let n := N_of_ascii c in
  if Ascii.eqb c dquote || Ascii.eqb c backslash then String backslash (String c "")
  else if (n =? 10)%N then String backslash "n"
  else if (n =? 13)%N then String backslash "r"
  else if (n =? 9)%N then String backslash "t"
  else if (n <? 32)%N || Ascii.eqb c "<" || Ascii.eqb c ">" || Ascii.eqb c "&"
  then String backslash
         (String "u" (String "0" (String "0"
            (String (hexdigit (n / 16)) (String (hexdigit (n mod 16)) "")))))
  else String c "".

Fixpoint escape (s : string) : string :=
  match s with
  | EmptyString => ""
  | String c r => escape_char c ++ escape r
  end.

Definition quote (s : string) : string :=
  String dquote (escape s ++ String dquote "").

Fixpoint render (v : value) : string :=
  match v with
  | Null => "null"
  | Bool true => "true"
  | Bool false => "false"
  | Number lit => lit
  | Str s => quote s
  | Array elems =>
      "[" ++
      match elems with
      | [] => "]"
      | x :: rest =>
          render x ++
          (fix more (l : list value) : string :=
             match l with
             | [] => "]"
             | y :: l' => "," ++ render y ++ more l'
             end) rest
      end
  | Object members =>
      "{" ++
      match members with
      | [] => "}"
      | (k, x) :: rest =>
          quote k ++ ":" ++ render x ++
          (fix more (l : list (string * value)) : string :=
             match l with
             | [] => "}"
             | (k', y) :: l' => "," ++ quote k' ++ ":" ++ render y ++ more l'
             end) rest
      end
  end.

(** *** Parsing *)

Definition is_ws (c : ascii) : bool :=
  let n := N_of_ascii c in
  ((n =? 32) || (n =? 9) || (n =? 10) || (n =? 13))%N.

Fixpoint skip_ws (s : string) : string :=
  match s with
  | String c r => if is_ws c then skip_ws r else s
  | EmptyString => s
  end.

Definition hexval (c : ascii) : option N :=
  let n := N_of_ascii c in
  if is_digit c then Some (n - 48)%N
  else if ((97 <=? n) && (n <=? 102))%N then Some (n - 87)%N
  else if ((65 <=? n) && (n <=? 70))%N then Some (n - 55)%N
  else None.

Definition hex4 (a b c d : ascii) : option N :=
  match hexval a, hexval b, hexval c, hexval d with
  | Some x, Some y, Some z, Some w => Some (((x * 16 + y) * 16 + z) * 16 + w)%N
  | _, _, _, _ => None
  end.

(** UTF-8 of a code point. *)
Definition utf8 (cp : N) : string :=
  let b (n : N) := ascii_of_N n in
  (if cp <? 128 then String (b cp) ""
   else if cp <? 2048 then String (b (192 + cp / 64)) (String (b (128 + cp mod 64)) "")
   else if cp <? 65536 then
     String (b (224 + cp / 4096))
       (String (b (128 + (cp / 64) mod 64)) (String (b (128 + cp mod 64)) ""))
   else
     String (b (240 + cp / 262144))
       (String (b (128 + (cp / 4096) mod 64))
          (String (b (128 + (cp / 64) mod 64)) (String (b (128 + cp mod 64)) ""))))%N.

Definition replacement : string := utf8 65533.

Definition simple_escape (e : ascii) : option ascii :=
  if Ascii.eqb e dquote then Some dquote
  else if Ascii.eqb e backslash then Some backslash
  else if Ascii.eqb e "/" then Some "/"%char
  else if Ascii.eqb e "b" then Some "008"%char
  else if Ascii.eqb e "f" then Some "012"%char
  else if Ascii.eqb e "n" then Some "010"%char
  else if Ascii.eqb e "r" then Some "013"%char
  else if Ascii.eqb e "t" then Some "009"%char
  else None.

Definition prepend {A : Type} (p : string) (o : option (string * A)) : option (string * A) :=
  match o with
  | Some (x, rest) => Some (p ++ x, rest)
  | None => None
  end.

(** The inside of a string literal, after its opening quote: the text it
    denotes and what follows the closing quote.  [hi] is a high surrogate
    read from a [\u] escape that still waits for its low half. *)
Fixpoint parse_chars (hi : option N) (s : string) : option (string * string) :=
  let flush := match hi with Some _ => replacement | None => "" end in
  match s with
  | EmptyString => None
  | String c r =>
      if Ascii.eqb c dquote then Some (flush, r)
      else if Ascii.eqb c backslash then
        match r with
        | String e r1 =>
            if Ascii.eqb e "u" then
              match r1 with
              | String a (String b (String c' (String d r2))) =>
                  match hex4 a b c' d with
                  | Some cp =>
                      if ((55296 <=? cp) && (cp <? 56320))%N
                      then prepend flush (parse_chars (Some cp) r2)
                      else if ((56320 <=? cp) && (cp <? 57344))%N
                      then
                        match hi with
                        | Some h =>
                            prepend (utf8 (65536 + (h - 55296) * 1024 + (cp - 56320))%N)
                              (parse_chars None r2)
                        | None => prepend replacement (parse_chars None r2)
                        end
                      else prepend (flush ++ utf8 cp) (parse_chars None r2)
                  | None => None
                  end
              | _ => None
              end
            else
              match simple_escape e with
              | Some ch => prepend (flush ++ String ch "") (parse_chars None r1)
              | None => None
              end
        | EmptyString => None
        end
      else if (N_of_ascii c <? 32)%N then None
      else prepend (flush ++ String c "") (parse_chars None r)
  end.

Fixpoint span_digits (s : string) : string * string :=
  match s with
  | String c r =>
      if is_digit c then let (ds, rest) := span_digits r in (String c ds, rest)
      else ("", s)
  | EmptyString => ("", "")
  end.

(** A non-empty run of digits. *)
Definition digits1 (s : string) : option (string * string) :=
  match span_digits s with
  | (EmptyString, _) => None
  | (ds, rest) => Some (ds, rest)
  end.

(** A number literal of the JSON grammar: an optional minus sign, an integer
    part (a lone zero, or digits that do not start with zero), an optional
    fraction and an optional exponent.  The literal is kept as written. *)
Definition scan_int (s : string) : option (string * string) :=
  match s with
  | String c r =>
      if Ascii.eqb c "0" then Some ("0", r)
      else if is_digit c then let (ds, rest) := span_digits r in Some (String c ds, rest)
      else None
  | EmptyString => None
  end.

Definition scan_frac (s : string) : option (string * string) :=
  match s with
  | String c r => if Ascii.eqb c "." then prepend "." (digits1 r) else Some ("", s)
  | EmptyString => Some ("", s)
  end.

Definition scan_exp (s : string) : option (string * string) :=
  match s with
  | String e r =>
      if Ascii.eqb e "e" || Ascii.eqb e "E" then
        match r with
        | String sg r' =>
            if Ascii.eqb sg "+" || Ascii.eqb sg "-"
            then prepend (String e (String sg "")) (digits1 r')
            else prepend (String e "") (digits1 r)
        | EmptyString => None
        end
      else Some ("", s)
  | EmptyString => Some ("", s)
  end.

Definition scan_unsigned (s : string) : option (string * string) :=
  match scan_int s with
  | None => None
  | Some (int, s2) =>
      match scan_frac s2 with
      | None => None
      | Some (frac, s3) =>
          match scan_exp s3 with
          | None => None
          | Some (ex, s4) => Some (int ++ frac ++ ex, s4)
          end
      end
  end.

Definition scan_number (s : string) : option (string * string) :=
  match s with
  | String c r => if Ascii.eqb c "-" then prepend "-" (scan_unsigned r) else scan_unsigned s
  | EmptyString => None
  end.

Fixpoint strip_prefix (p s : string) : option string :=
  match p with
  | EmptyString => Some s
  | String a p' =>
      match s with
      | String b s' => if Ascii.eqb a b then strip_prefix p' s' else None
      | EmptyString => None
      end
  end.

(** The elements of an array after its opening bracket, the array not empty. *)
Fixpoint parse_elems (pv : string -> option (value * string)) (n : nat) (s : string)
  : option (list value * string) :=
  match n with
  | O => None
  | S n' =>
      match pv s with
      | None => None
      | Some (v, r) =>
          match skip_ws r with
          | String c r' =>
              if Ascii.eqb c "," then
                match parse_elems pv n' r' with
                | Some (vs, r'') => Some (v :: vs, r'')
                | None => None
                end
              else if Ascii.eqb c "]" then Some ([v], r')
              else None
          | EmptyString => None
          end
      end
  end.

(** The members of an object after its opening brace, the object not empty. *)
Fixpoint parse_members (pv : string -> option (value * string)) (n : nat) (s : string)
  : option (list (string * value) * string) :=
  match n with
  | O => None
  | S n' =>
      match skip_ws s with
      | String c r =>
          if Ascii.eqb c dquote then
            match parse_chars None r with
            | None => None
            | Some (k, r1) =>
                match skip_ws r1 with
                | String c1 r2 =>
                    if Ascii.eqb c1 ":" then
                      match pv r2 with
                      | None => None
                      | Some (v, r3) =>
                          match skip_ws r3 with
                          | String c3 r4 =>
                              if Ascii.eqb c3 "," then
                                match parse_members pv n' r4 with
                                | Some (ms, r5) => Some ((k, v) :: ms, r5)
                                | None => None
                                end
                              else if Ascii.eqb c3 "}" then Some ([(k, v)], r4)
                              else None
                          | EmptyString => None
                          end
                      end
                    else None
                | EmptyString => None
                end
            end
          else None
      | EmptyString => None
      end
  end.

Fixpoint parse_value (fuel : nat) (s : string) : option (value * string) :=
  match fuel with
  | O => None
  | S fuel' =>
      match skip_ws s with
      | EmptyString => None
      | String c r as s' =>
          if Ascii.eqb c dquote then
            match parse_chars None r with
            | Some (x, rest) => Some (Str x, rest)
            | None => None
            end
          else if Ascii.eqb c "[" then
            match skip_ws r with
            | String c' r' =>
                if Ascii.eqb c' "]" then Some (Array [], r')
                else
                  match parse_elems (parse_value fuel') fuel' r with
                  | Some (vs, rest) => Some (Array vs, rest)
                  | None => None
                  end
            | EmptyString => None
            end
          else if Ascii.eqb c "{" then
            match skip_ws r with
            | String c' r' =>
                if Ascii.eqb c' "}" then Some (Object [], r')
                else
                  match parse_members (parse_value fuel') fuel' r with
                  | Some (ms, rest) => Some (Object ms, rest)
                  | None => None
                  end
            | EmptyString => None
            end
          else if Ascii.eqb c "n" then
            match strip_prefix "null" s' with
            | Some rest => Some (Null, rest)
            | None => None
            end
          else if Ascii.eqb c "t" then
            match strip_prefix "true" s' with
            | Some rest => Some (Bool true, rest)
            | None => None
            end
          else if Ascii.eqb c "f" then
            match strip_prefix "false" s' with
            | Some rest => Some (Bool false, rest)
            | None => None
            end
          else
            match scan_number s' with
            | Some (lit, rest) => Some (Number lit, rest)
            | None => None
            end
      end
  end.

(** A whole document: one value, blanks around it, nothing else. *)
Definition parse (data : bytes) : option value :=
  match parse_value (S (String.length data)) data with
  | Some (v, rest) =>
      match skip_ws rest with
      | EmptyString => Some v
      | _ => None
      end
  | None => None
  end.

(** *** Decoding into Go values

    A decoder of a Go type reads one JSON value into a variable of the
    type.  It carries the library's decode state: the first type error met
    is saved and decoding goes on ([Go]); the error of an [Unmarshaler]
    stops the decoding ([Stop]).  Either way the variable holds what was
    stored so far. *)

Inductive dstep (T : Type) : Type :=
| Go (v : T) (saved : option error)
| Stop (v : T) (e : error).
Arguments Go {T} v saved.
Arguments Stop {T} v e.

Definition decoder (T : Type) : Type := value -> T -> option error -> dstep T.

Definition save (saved : option error) (e : error) : option error :=
  match saved with
  | None => Some e
  | Some _ => saved
  end.

Definition kind (x : value) : string :=
  match x with
  | Null => "null"
  | Bool _ => "bool"
  | Number _ => "number"
  | Str _ => "string"
  | Array _ => "array"
  | Object _ => "object"
  end.

Definition mismatch {T : Type} (gotype : string) (x : value) (v : T) (saved : option error)
  : dstep T :=
  Go v (save saved (UnmarshalTypeError (kind x) gotype)).

Definition dec_string : decoder string :=
  fun x v saved =>
    match x with
    | Str s => Go s saved
    | Null => Go v saved
    | _ => mismatch "string" x v saved
    end.

(** [uint64] and [uint32] fields: a literal of digits below the bound. *)
Definition dec_uint (bound : N) (gotype : string) : decoder N :=
  fun x v saved =>
    match x with
    | Number lit =>
        match ParseUint bound lit with
        | Some n => Go n saved
        | None => Go v (save saved (UnmarshalTypeError ("number " ++ lit) gotype))
        end
    | Null => Go v saved
    | _ => mismatch gotype x v saved
    end.

Definition dec_uint64 : decoder N := dec_uint uint64_bound "uint64".
Definition dec_uint32 : decoder N := dec_uint uint32_bound "uint32".

Definition dec_int64 : decoder Z :=
  fun x v saved =>
    match x with
    | Number lit =>
        match ParseInt lit with
        | Some z => Go z saved
        | None => Go v (save saved (UnmarshalTypeError ("number " ++ lit) "int64"))
        end
    | Null => Go v saved
    | _ => mismatch "int64" x v saved
    end.

(** [json.RawMessage]: the bytes of the value, [null] included. *)
Definition dec_raw : decoder (option bytes) :=
  fun x _ saved => Go (Some (render x)) saved.

(** A pointer field: [null] stores [nil], anything else is decoded into the
    pointee (a new zero value when the pointer was [nil]). *)
Definition dec_ptr {T : Type} (zero : T) (d : decoder T) : decoder (option T) :=
  fun x v saved =>
    match x with
    | Null => Go None saved
    | _ =>
        match d x (match v with Some t => t | None => zero end) saved with
        | Go t s => Go (Some t) s
        | Stop t e => Stop (Some t) e
        end
    end.

(** A slice: a fresh element per array item. *)
Fixpoint dec_items {T : Type} (zero : T) (d : decoder T) (xs : list value)
  (saved : option error) : dstep (list T) :=
  match xs with
  | [] => Go [] saved
  | x :: xs' =>
      match d x zero saved with
      | Stop t e => Stop [t] e
      | Go t s =>
          match dec_items zero d xs' s with
          | Go ts s' => Go (t :: ts) s'
          | Stop ts e => Stop (t :: ts) e
          end
      end
  end.

Definition dec_slice {T : Type} (gotype : string) (zero : T) (d : decoder T)
  : decoder (list T) :=
  fun x v saved =>
    match x with
    | Array xs => dec_items zero d xs saved
    | Null => Go [] saved
    | _ => mismatch gotype x v saved
    end.

(** A [map[string]T].  The entries of the receiver's map stay (a [nil] map
    is made first); each member is decoded into a fresh element, which is
    then stored under its key, in place of what the key held.  A decoder
    that stops leaves its entry unwritten.  [null] makes the map [nil]. *)
Fixpoint dec_entries {T : Type} (zero : T) (d : decoder T) (ms : list (string * value))
  (m : list (string * T)) (saved : option error) : dstep (list (string * T)) :=
  match ms with
  | [] => Go m saved
  | (k, x) :: ms' =>
      match d x zero saved with
      | Stop _ e => Stop m e
      | Go t s => dec_entries zero d ms' (map_set m k t) s
      end
  end.

Definition dec_map {T : Type} (gotype : string) (zero : T) (d : decoder T)
  : decoder (list (string * T)) :=
  fun x v saved =>
    match x with
    | Object ms => dec_entries zero d ms v saved
    | Null => Go [] saved
    | _ => mismatch gotype x v saved
    end.

(** Struct fields.  A key names the field whose name it equals, or else the
    first field whose name it equals when the case of ASCII letters is
    ignored; other keys are skipped. *)
Record field (T : Type) : Type := Field {
  field_name : string;
  field_set : value -> T -> option error -> dstep T
}.
Arguments Field {T} field_name field_set.
Arguments field_name {T} f.
Arguments field_set {T} f.

Definition field_of {T F : Type} (name : string) (get : T -> F) (put : F -> T -> T)
  (d : decoder F) : field T :=
  Field name (fun x v saved =>
    match d x (get v) saved with
    | Go f s => Go (put f v) s
    | Stop f e => Stop (put f v) e
    end).

Definition find_field {T : Type} (fields : list (field T)) (key : string) : option (field T) :=
  match find (fun f => String.eqb (field_name f) key) fields with
  | Some f => Some f
  | None => find (fun f => fold_eqb (field_name f) key) fields
  end.

Fixpoint dec_members {T : Type} (fields : list (field T)) (ms : list (string * value))
  (v : T) (saved : option error) : dstep T :=
  match ms with
  | [] => Go v saved
  | (k, x) :: ms' =>
      match find_field fields k with
      | None => dec_members fields ms' v saved
      | Some f =>
          match field_set f x v saved with
          | Go v' s => dec_members fields ms' v' s
          | Stop v' e => Stop v' e
          end
      end
  end.

Definition dec_struct {T : Type} (gotype : string) (fields : list (field T)) : decoder T :=
  fun x v saved =>
    match x with
    | Object ms => dec_members fields ms v saved
    | Null => Go v saved
    | _ => mismatch gotype x v saved
    end.

(** A type with an [UnmarshalJSON] method gets the bytes of the value.
    The library never hands it an empty slice, so for a parsed document
    the method's panic on no input is not reached. *)
Definition dec_unmarshaler {T : Type} (um : T -> bytes -> outcome (T * option error))
  : decoder T :=
  fun x v saved =>
    match um v (render x) with
    | Returns (v', None) => Go v' saved
    | Returns (v', Some e) => Stop v' e
    | Panics msg => Stop v (New msg)
    end.

(** [json.Unmarshal(data, &v)]: the input must be one valid document, or
    nothing is stored. *)
Definition Unmarshal {T : Type} (d : decoder T) (data : bytes) (v : T) : T * option error :=
  match parse data with
  | None => (v, Some (SyntaxError "invalid JSON"))
  | Some x =>
      match d x v None with
      | Go v' saved => (v', saved)
      | Stop v' e => (v', Some e)
      end
  end.

(** Struct fields on the way out: [omitempty] drops a zero value. *)
Definition omit_string (k : string) (s : string) : list (string * value) :=
  if String.eqb s "" then [] else [(k, Str s)].

Definition omit_uint (k : string) (n : N) : list (string * value) :=
  if (n =? 0)%N then [] else [(k, Number (FormatUint n))].

Definition omit_ptr_uint (k : string) (o : option N) : list (string * value) :=
  match o with
  | None => []
  | Some n => [(k, Number (FormatUint n))]
  end.

(** *** Well-formed documents *)

(** What may follow a value inside a compact document. *)
Definition delimited (rest : string) : bool :=
  match rest with
  | EmptyString => true
  | String c _ => Ascii.eqb c "," || Ascii.eqb c "]" || Ascii.eqb c "}"
  end.

(** A literal that the parser reads back whole, whatever delimiter follows. *)
Definition number_literal (lit : string) : Prop :=
  (exists c r, lit = String c r /\ (is_digit c = true \/ c = "-"%char)) /\
  forall rest, delimited rest = true -> scan_number (lit ++ rest) = Some (lit, rest).

(** The documents the encoders of this development produce: texts and keys
    in 7-bit ASCII, numbers that are literals. *)
Inductive wf : value -> Prop :=
| wf_Null : wf Null
| wf_Bool b : wf (Bool b)
| wf_Number lit : number_literal lit -> wf (Number lit)
| wf_Str s : ascii_text s = true -> wf (Str s)
| wf_Array l : Forall wf l -> wf (Array l)
| wf_Object m : Forall (fun kx => ascii_text (fst kx) = true /\ wf (snd kx)) m -> wf (Object m).

(** The size of a value, a bound on the fuel its parse needs. *)
Fixpoint weight (v : value) : nat :=
  match v with
  | Array l => S (fold_right (fun x acc => S (weight x + acc)) 0 l)
  | Object m => S (fold_right (fun kx acc => S (weight (snd kx) + acc)) 0 m)
  | _ => 1
  end.

(** The first byte of a rendered value starts no blank and closes nothing. *)
Definition opens (s : string) : Prop :=
  exists c r, s = String c r /\ is_ws c = false /\
              Ascii.eqb c "]" = false /\ Ascii.eqb c "}" = false.

(** What [render] writes after the first element of an array, and after
    the first member of an object. *)
Fixpoint more_elems (l : list value) : string :=
  match l with
  | [] => "]"
  | y :: l' => "," ++ render y ++ more_elems l'
  end.

Fixpoint more_members (l : list (string * value)) : string :=
  match l with
  | [] => "}"
  | (k, y) :: l' => "," ++ quote k ++ ":" ++ render y ++ more_members l'
  end.

Definition sum_weight (l : list value) : nat :=
  fold_right (fun x acc => S (weight x + acc)) 0 l.

Definition sum_weight_members (m : list (string * value)) : nat :=
  fold_right (fun kx acc => S (weight (snd kx) + acc)) 0 m.

Definition wf_member (kx : string * value) : Prop :=
  ascii_text (fst kx) = true /\ wf (snd kx).

(** A [map[string]interface{}]: one entry per key, a key written twice
    keeping its last value.  A value of the map is kept as the document it
    was read from; [null] makes the map [nil]. *)
Definition dec_generic_map : decoder (list (string * value)) :=
  fun x v saved =>
    match x with
    | Object ms => Go (fold_left (fun m kx => map_set m (fst kx) (snd kx)) ms v) saved
    | Null => Go [] saved
    | _ => mismatch "map[string]interface {}" x v saved
    end.

End Json.

(** ** fxamacker/cbor

    A CBOR data item is a tree ([Cbor.item]); [encode] writes it with the
    shortest heads, as the library's encoder does, and [decode_item] reads
    definite-length items back.

    Left out: negative integers, byte strings, arrays, tags, floats,
    indefinite lengths (the decoder model reports them as errors), and the
    check that a text is UTF-8. *)
Module Cbor.

Inductive item : Type :=
| UInt (n : N)
| Text (s : string)
| Map (entries : list (item * item))
| Nil.

(** [k] bytes, most significant first. *)
Fixpoint be (k : nat) (n : N) : string :=
  match k with
  | O => ""
  | S k' => be k' (n / 256) ++ String (ascii_of_N (n mod 256)) ""
  end.

(** The head of an item: major type and argument. *)
Definition head (major n : N) : string :=
  let b (info : N) := String (ascii_of_N (major * 32 + info)) in
  (if n <? 24 then b n ""
   else if n <? 256 then b 24 (be 1 n)
   else if n <? 65536 then b 25 (be 2 n)
   else if n <? 4294967296 then b 26 (be 4 n)
   else b 27 (be 8 n))%N.

Fixpoint encode (x : item) : string :=
  match x with
  | UInt n => head 0 n
  | Text s => head 3 (N.of_nat (String.length s)) ++ s
  | Map entries =>
      head 5 (N.of_nat (List.length entries)) ++
      (fix all (l : list (item * item)) : string :=
         match l with
         | [] => ""
         | (k, v) :: l' => encode k ++ encode v ++ all l'
         end) entries
  | Nil => String (ascii_of_N 246) ""
  end.

Fixpoint be_read (k : nat) (acc : N) (s : string) : option (N * string) :=
  match k with
  | O => Some (acc, s)
  | S k' =>
      match s with
      | String c r => be_read k' (acc * 256 + N_of_ascii c) r
      | EmptyString => None
      end
  end.

Definition read_head (s : string) : option (N * N * string) :=
  match s with
  | EmptyString => None
  | String c r =>
      let b := N_of_ascii c in
      let major := (b / 32)%N in
      let info := (b mod 32)%N in
      if (info <? 24)%N then Some (major, info, r)
      else
        match
          (if info =? 24 then Some 1%nat else if info =? 25 then Some 2%nat
           else if info =? 26 then Some 4%nat else if info =? 27 then Some 8%nat
           else None)%N
        with
        | Some k =>
            match be_read k 0 r with
            | Some (n, r') => Some (major, n, r')
            | None => None
            end
        | None => None
        end
  end.

Fixpoint take (n : N) (s : string) : option (string * string) :=
  if (n =? 0)%N then Some ("", s)
  else
    match s with
    | String c r =>
        match take (n - 1) r with
        | Some (t, rest) => Some (String c t, rest)
        | None => None
        end
    | EmptyString => None
    end.

Fixpoint decode_pairs (pv : string -> option (item * string)) (fuel : nat) (count : N)
  (s : string) : option (list (item * item) * string) :=
  if (count =? 0)%N then Some ([], s)
  else
    match fuel with
    | O => None
    | S fuel' =>
        match pv s with
        | None => None
        | Some (k, r) =>
            match pv r with
            | None => None
            | Some (v, r') =>
                match decode_pairs pv fuel' (count - 1) r' with
                | Some (es, rest) => Some ((k, v) :: es, rest)
                | None => None
                end
            end
        end
    end.

Fixpoint decode_item (fuel : nat) (s : string) : option (item * string) :=
  match fuel with
  | O => None
  | S fuel' =>
      match read_head s with
      | None => None
      | Some (major, n, r) =>
          if (major =? 0)%N then Some (UInt n, r)
          else if (major =? 3)%N then
            match take n r with
            | Some (t, rest) => Some (Text t, rest)
            | None => None
            end
          else if (major =? 5)%N then
            match decode_pairs (decode_item fuel') fuel' n r with
            | Some (es, rest) => Some (Map es, rest)
            | None => None
            end
          else if ((major =? 7) && (n =? 22))%N then Some (Nil, r)
          else None
      end
  end.

(** The first item of the input; the library (v2.4.0) does not look at the
    bytes after it. *)
Definition decode (data : bytes) : option item :=
  match decode_item (S (String.length data)) data with
  | Some (x, _) => Some x
  | None => None
  end.

(** *** Decoding into Go values: the first error is kept, decoding goes on. *)

Definition decoder (T : Type) : Type := item -> T -> option error -> T * option error.

Definition save (saved : option error) (e : error) : option error :=
  match saved with
  | None => Some e
  | Some _ => saved
  end.

Definition kind (x : item) : string :=
  match x with
  | UInt _ => "positive integer"
  | Text _ => "UTF-8 text string"
  | Map _ => "map"
  | Nil => "primitives"
  end.

Definition dec_string : decoder string :=
  fun x v saved =>
    match x with
    | Text s => (s, saved)
    | Nil => (v, saved)
    | _ => (v, save saved (UnmarshalTypeError (kind x) "string"))
    end.

Definition dec_uint64 : decoder N :=
  fun x v saved =>
    match x with
    | UInt n => (n, saved)
    | Nil => (v, saved)
    | _ => (v, save saved (UnmarshalTypeError (kind x) "uint64"))
    end.

Definition dec_ptr {T : Type} (zero : T) (d : decoder T) : decoder (option T) :=
  fun x v saved =>
    match x with
    | Nil => (None, saved)
    | _ =>
        let (t, s) := d x (match v with Some t => t | None => zero end) saved in
        (Some t, s)
    end.

Record field (T : Type) : Type := Field {
  field_key : item;
  field_set : item -> T -> option error -> T * option error
}.
Arguments Field {T} field_key field_set.
Arguments field_key {T} f.
Arguments field_set {T} f.

Definition field_of {T F : Type} (key : item) (get : T -> F) (put : F -> T -> T)
  (d : decoder F) : field T :=
  Field key (fun x v saved => let (f, s) := d x (get v) saved in (put f v, s)).

Definition key_eqb (a b : item) : bool :=
  match a, b with
  | UInt n, UInt m => (n =? m)%N
  | Text s, Text t => String.eqb s t
  | _, _ => false
  end.

Definition key_fold_eqb (a b : item) : bool :=
  match a, b with
  | Text s, Text t => fold_eqb s t
  | _, _ => false
  end.

(** The first field that passes a test, and the other fields in their
    order. *)
Fixpoint take_field {T : Type} (test : field T -> bool) (fields : list (field T))
  : option (field T * list (field T)) :=
  match fields with
  | [] => None
  | f :: fields' =>
      if test f then Some (f, fields')
      else
        match take_field test fields' with
        | Some (g, others) => Some (g, f :: others)
        | None => None
        end
  end.

(** A key is matched against the fields that no earlier key of the map has
    matched: by the exact name first, then with the case ignored. *)
Definition find_field {T : Type} (fields : list (field T)) (key : item)
  : option (field T * list (field T)) :=
  match take_field (fun f => key_eqb (field_key f) key) fields with
  | Some r => Some r
  | None => take_field (fun f => key_fold_eqb (field_key f) key) fields
  end.

(** The entries of a map read into a struct; [fields] are the fields not
    matched so far, so that of a key written twice the first value stays
    (unless the second matches another field with the case ignored). *)
Fixpoint dec_entries {T : Type} (fields : list (field T)) (es : list (item * item))
  (v : T) (saved : option error) : T * option error :=
  match es with
  | [] => (v, saved)
  | (k, x) :: es' =>
      match find_field fields k with
      | None => dec_entries fields es' v saved
      | Some (f, others) =>
          let (v', s) := field_set f x v saved in dec_entries others es' v' s
      end
  end.

Definition dec_struct {T : Type} (gotype : string) (fields : list (field T)) : decoder T :=
  fun x v saved =>
    match x with
    | Map es => dec_entries fields es v saved
    | Nil => (v, saved)
    | _ => (v, save saved (UnmarshalTypeError (kind x) gotype))
    end.

(** [cbor.Unmarshal(data, &v)]. *)
Definition Unmarshal {T : Type} (d : decoder T) (data : bytes) (v : T) : T * option error :=
  match decode data with
  | None => (v, Some (SyntaxError "invalid CBOR"))
  | Some x => d x v None
  end.

Definition omit_string (k : item) (s : string) : list (item * item) :=
  if String.eqb s "" then [] else [(k, Text s)].

Definition omit_uint (k : item) (n : N) : list (item * item) :=
  if (n =? 0)%N then [] else [(k, UInt n)].

Definition omit_ptr {T : Type} (k : item) (enc : T -> item) (o : option T) : list (item * item) :=
  match o with
  | None => []
  | Some t => [(k, enc t)]
  end.

(** *** Well-formed items *)

(** The items whose head the encoder can write: every argument below [2^64]. *)
Inductive wf : item -> Prop :=
| wf_UInt n : (n < 2 ^ 64)%N -> wf (UInt n)
| wf_Text s : (N.of_nat (String.length s) < 2 ^ 64)%N -> wf (Text s)
| wf_Map es :
    (N.of_nat (List.length es) < 2 ^ 64)%N ->
    Forall (fun kv => wf (fst kv) /\ wf (snd kv)) es -> wf (Map es)
| wf_Nil : wf Nil.

(** The size of an item, a bound on the fuel its decoding needs. *)
Fixpoint weight (x : item) : nat :=
  match x with
  | Map es => S (fold_right (fun kv acc => weight (fst kv) + weight (snd kv) + acc) 0 es)
  | _ => 1
  end.

Definition sum_weight (es : list (item * item)) : nat :=
  fold_right (fun kv acc => weight (fst kv) + weight (snd kv) + acc) 0 es.

(** The encodings of a map's entries, one after the other. *)
Fixpoint all_pairs (l : list (item * item)) : string :=
  match l with
  | [] => ""
  | (k, v) :: l' => encode k ++ encode v ++ all_pairs l'
  end.

Definition wf_entry (kv : item * item) : Prop :=
  wf (fst kv) /\ wf (snd kv).

End Cbor.

(** ** dynamodbattribute

    A DynamoDB attribute value is the SDK's struct; of its fields the model
    keeps [S], [N], [M] and [NULL] (here [av_S], [av_N], [av_M],
    [av_NULL]).  A Go map is an association list: the encoders never repeat
    a key, and a decoder visits the entries in the list's order, where Go
    visits them in no fixed order. *)
Module Dynamo.

Inductive AttributeValue : Type :=
  AV {
    av_S : option string;
    av_N : option string;
    av_M : option (list (string * AttributeValue));
    av_NULL : option bool
  }.

Definition empty : AttributeValue := AV None None None None.
Definition of_S (s : string) : AttributeValue := AV (Some s) None None None.
Definition of_N (n : string) : AttributeValue := AV None (Some n) None None.
Definition of_M (m : list (string * AttributeValue)) : AttributeValue :=
  AV None None (Some m) None.

(** [len(m)] of a map that may be [nil]. *)
Definition len (m : option (list (string * AttributeValue))) : nat :=
  match m with
  | Some l => List.length l
  | None => 0
  end.

(** A decoder stops at the first error. *)
Definition decoder (T : Type) : Type := AttributeValue -> T -> T * option error.

Definition is_null (a : AttributeValue) : bool :=
  match av_NULL a with
  | Some _ => true
  | None => false
  end.

(** The decoder looks at the members of an attribute value in a fixed
    order: a map that is not empty, then a number, then a string; a value
    with none of them set stores nothing.  A number read into a Go [string]
    is stored as its text. *)
Definition dec_string : decoder string :=
  fun a v =>
    if is_null a then ("", None)
    else if (0 <? len (av_M a))%nat then (v, Some (UnmarshalTypeError "map" "string"))
    else
      match av_N a, av_S a with
      | Some n, _ => (n, None)
      | None, Some s => (s, None)
      | None, None => (v, None)
      end.

(** The error of [strconv.ParseUint(n, 10, 64)]. *)
Definition ParseUint_error (n : string) : error :=
  New ("strconv.ParseUint: parsing " ++ String dquote n ++ String dquote
         (if all_digits n && negb (String.eqb n "") then ": value out of range"
          else ": invalid syntax")).

Definition dec_uint64 : decoder N :=
  fun a v =>
    if is_null a then (0%N, None)
    else if (0 <? len (av_M a))%nat then (v, Some (UnmarshalTypeError "map" "uint64"))
    else
      match av_N a, av_S a with
      | Some n, _ =>
          match ParseUint uint64_bound n with
          | Some x => (x, None)
          | None => (v, Some (ParseUint_error n))
          end
      | None, Some _ => (v, Some (UnmarshalTypeError "string" "uint64"))
      | None, None => (v, None)
      end.

Definition dec_ptr {T : Type} (zero : T) (d : decoder T) : decoder (option T) :=
  fun a v =>
    if is_null a then (None, None)
    else
      let (t, e) := d a (match v with Some t => t | None => zero end) in
      (Some t, e).

Record field (T : Type) : Type := Field {
  field_name : string;
  field_set : AttributeValue -> T -> T * option error
}.
Arguments Field {T} field_name field_set.
Arguments field_name {T} f.
Arguments field_set {T} f.

Definition field_of {T F : Type} (name : string) (get : T -> F) (put : F -> T -> T)
  (d : decoder F) : field T :=
  Field name (fun a v => let (f, e) := d a (get v) in (put f v, e)).

Definition find_field {T : Type} (fields : list (field T)) (key : string) : option (field T) :=
  match find (fun f => String.eqb (field_name f) key) fields with
  | Some f => Some f
  | None => find (fun f => fold_eqb (field_name f) key) fields
  end.

(** [dynamodbattribute.UnmarshalMap(m, &v)] for a struct [v]. *)
Fixpoint UnmarshalMap {T : Type} (fields : list (field T))
  (m : list (string * AttributeValue)) (v : T) : T * option error :=
  match m with
  | [] => (v, None)
  | (k, a) :: m' =>
      match find_field fields k with
      | None => UnmarshalMap fields m' v
      | Some f =>
          match field_set f a v with
          | (v', None) => UnmarshalMap fields m' v'
          | (v', Some e) => (v', Some e)
          end
      end
  end.

Definition omit_string (k : string) (s : string) : list (string * AttributeValue) :=
  if String.eqb s "" then [] else [(k, of_S s)].

Definition omit_uint (k : string) (n : N) : list (string * AttributeValue) :=
  if (n =? 0)%N then [] else [(k, of_N (FormatUint n))].

Definition omit_ptr_uint (k : string) (o : option N) : list (string * AttributeValue) :=
  match o with
  | None => []
  | Some n => [(k, of_N (FormatUint n))]
  end.

(** A struct read from a map; [gotype] names the struct in errors. *)
Definition dec_struct {T : Type} (gotype : string) (zero : T) (fields : list (field T))
  : decoder T :=
  fun a v =>
    if is_null a then (zero, None)
    else
      match av_M a with
      | Some (e :: m) => UnmarshalMap fields (e :: m) v
      | _ =>
          match av_N a, av_S a with
          | Some _, _ => (v, Some (UnmarshalTypeError "number" gotype))
          | None, Some _ => (v, Some (UnmarshalTypeError "string" gotype))
          | None, None => (v, None)
          end
      end.

End Dynamo.

(** ** ouroboros/chainsync: points

    The two generations of [types.go] declare [PointStruct] with different
    fields and share the text of everything else about points, so the
    point code is written once, over what it needs of a [PointStruct]:
    its zero value, its slot, and how the three libraries encode and decode
    it (which follows from the struct's tags). *)

Definition PointTypeString : Z := 1.
Definition PointTypeStruct : Z := 2.

Record PointStructOps (PS : Type) : Type := {
  ps_zero : PS;
  ps_Slot : PS -> N;
  ps_json : PS -> Json.value;
  ps_json_dec : Json.decoder PS;
  ps_cbor : PS -> Cbor.item;
  ps_cbor_dec : Cbor.decoder PS;
  ps_av : PS -> list (string * Dynamo.AttributeValue);
  ps_av_fields : list (Dynamo.field PS)
}.
Arguments ps_zero {PS} _.
Arguments ps_Slot {PS} _ _.
Arguments ps_json {PS} _ _.
Arguments ps_json_dec {PS} _.
Arguments ps_cbor {PS} _ _.
Arguments ps_cbor_dec {PS} _.
Arguments ps_av {PS} _ _.
Arguments ps_av_fields {PS} _.

Record Point (PS : Type) : Type := mkPoint {
  pointType : Z;
  pointString : string;
  pointStruct : option PS
}.
Arguments mkPoint {PS} pointType pointString pointStruct.
Arguments pointType {PS} p.
Arguments pointString {PS} p.
Arguments pointStruct {PS} p.

(** [pointCBOR]: keys 1 and 2, both [omitempty]. *)
Record pointCBOR (PS : Type) : Type := mkPointCBOR {
  cbor_String : string;
  cbor_Struct : option PS
}.
Arguments mkPointCBOR {PS} cbor_String cbor_Struct.
Arguments cbor_String {PS} p.
Arguments cbor_Struct {PS} p.

Definition bNil : bytes := "nil".

Definition is_some {A : Type} (o : option A) : bool :=
  match o with
  | Some _ => true
  | None => false
  end.

Definition is_nil {A : Type} (o : option A) : bool := negb (is_some o).

Section PointCode.
Context {PS : Type} (O : PointStructOps PS).

(** The zero value [Point{}]. *)
Definition zero_Point : Point PS := mkPoint 0 "" None.

Definition PointString_Point (p : string) : Point PS :=
  mkPoint PointTypeString p None.

Definition PointStruct_Point (p : PS) : Point PS :=
  mkPoint PointTypeStruct "" (Some p).

Definition Origin : Point PS := PointString_Point "origin".

Definition Point_PointType (p : Point PS) : Z := pointType p.

Definition Point_PointString (p : Point PS) : string * bool :=
  (pointString p, negb (String.eqb (pointString p) "")).

Definition Point_PointStruct (p : Point PS) : option PS * bool :=
  (pointStruct p, is_some (pointStruct p)).

(** [pp[i]]: out of range panics. *)
Definition index (pp : list (Point PS)) (i : Z) : option (Point PS) :=
  if (i <? 0)%Z then None else nth_error pp (Z.to_nat i).

Definition Points_Len (pp : list (Point PS)) : Z := Z.of_nat (List.length pp).

Definition Points_Less (pp : list (Point PS)) (i j : Z) : outcome bool :=
  match index pp i, index pp j with
  | Some pi, Some pj =>
      if ((pointType pi =? PointTypeStruct) && (pointType pj =? PointTypeStruct))%Z then
        match pointStruct pi, pointStruct pj with
        | Some si, Some sj => Returns (ps_Slot O sj <? ps_Slot O si)%N
        | _, _ => Panics "invalid memory address or nil pointer dereference"
        end
      else if (pointType pi =? PointTypeStruct)%Z then Returns true
      else if (pointType pj =? PointTypeStruct)%Z then Returns false
      else Returns (String.ltb (pointString pj) (pointString pi))
  | _, _ => Panics "index out of range"
  end.

(** [dynamodbattribute.MarshalMap(p.pointStruct)]: a nil pointer gives the
    empty map. *)
Definition MarshalMap (o : option PS) : list (string * Dynamo.AttributeValue) :=
  match o with
  | Some ps => ps_av O ps
  | None => []
  end.

Definition Point_MarshalDynamoDBAttributeValue (p : Point PS) (item : Dynamo.AttributeValue)
  : Dynamo.AttributeValue * option error :=
  if (pointType p =? PointTypeString)%Z then
    (Dynamo.AV (Some (pointString p)) (Dynamo.av_N item) (Dynamo.av_M item)
       (Dynamo.av_NULL item), None)
  else if (pointType p =? PointTypeStruct)%Z then
    (Dynamo.AV (Dynamo.av_S item) (Dynamo.av_N item) (Some (MarshalMap (pointStruct p)))
       (Dynamo.av_NULL item), None)
  else (item, Some (New "unable to unmarshal Point: unknown type")).

Definition enc_pointCBOR (v : pointCBOR PS) : Cbor.item :=
  Cbor.Map (Cbor.omit_string (Cbor.UInt 1) (cbor_String v) ++
            Cbor.omit_ptr (Cbor.UInt 2) (ps_cbor O) (cbor_Struct v)).

Definition dec_pointCBOR : Cbor.decoder (pointCBOR PS) :=
  Cbor.dec_struct "chainsync.pointCBOR"
    [ Cbor.field_of (Cbor.UInt 1) cbor_String
        (fun s v => mkPointCBOR s (cbor_Struct v)) Cbor.dec_string;
      Cbor.field_of (Cbor.UInt 2) cbor_Struct
        (fun o v => mkPointCBOR (cbor_String v) o)
        (Cbor.dec_ptr (ps_zero O) (ps_cbor_dec O)) ].

Definition Point_MarshalCBOR (p : Point PS) : bytes * option error :=
  if ((pointType p =? PointTypeString) || (pointType p =? PointTypeStruct))%Z then
    let v := mkPointCBOR (pointString p) (pointStruct p) in
    (Cbor.encode (enc_pointCBOR v), None)
  else ("", Some (New "unable to unmarshal Point: unknown type")).

(** [json.Marshal] of a [*PointStruct]. *)
Definition json_of_ptr (o : option PS) : Json.value :=
  match o with
  | Some ps => ps_json O ps
  | None => Json.Null
  end.

(** The document [Point.MarshalJSON] writes. *)
Definition Point_json (p : Point PS) : Json.value * option error :=
  if (pointType p =? PointTypeString)%Z then (Json.Str (pointString p), None)
  else if (pointType p =? PointTypeStruct)%Z then (json_of_ptr (pointStruct p), None)
  else (Json.Null, Some (New "unable to unmarshal Point: unknown type")).

Definition Point_MarshalJSON (p : Point PS) : bytes * option error :=
  match Point_json p with
  | (x, None) => (Json.render x, None)
  | (_, Some e) => ("", Some e)
  end.

Definition Point_UnmarshalCBOR (p : Point PS) (data : bytes) : Point PS * option error :=
  if (String.length data =? 0)%nat || String.eqb data bNil then (p, None)
  else
    match Cbor.Unmarshal dec_pointCBOR data (mkPointCBOR "" None) with
    | (_, Some e) => (p, Some (Errorf "failed to unmarshal Point" (Some e)))
    | (v, None) =>
        let point := mkPoint PointTypeString (cbor_String v) (cbor_Struct v) in
        let point :=
          if is_some (pointStruct point)
          then mkPoint PointTypeStruct (pointString point) (pointStruct point)
          else point in
        (point, None)
    end.

Definition Point_UnmarshalDynamoDBAttributeValue (p : Point PS)
  (item : option Dynamo.AttributeValue) : Point PS * option error :=
  match item with
  | None => (p, None)
  | Some it =>
      match Dynamo.av_S it with
      | Some s => (mkPoint PointTypeString s None, None)
      | None =>
          if (0 <? Dynamo.len (Dynamo.av_M it))%nat then
            match
              Dynamo.UnmarshalMap (ps_av_fields O)
                (match Dynamo.av_M it with Some m => m | None => [] end) (ps_zero O)
            with
            | (_, Some e) => (p, Some (Errorf "failed to unmarshal point struct" (Some e)))
            | (point, None) => (mkPoint PointTypeStruct "" (Some point), None)
            end
          else (p, None)
      end
  end.

Definition Point_UnmarshalJSON (p : Point PS) (data : bytes)
  : outcome (Point PS * option error) :=
  match data with
  | EmptyString => Panics "index out of range [0] with length 0"
  | String c _ =>
      if Ascii.eqb c dquote then
        match Json.Unmarshal Json.dec_string data "" with
        | (_, Some e) =>
            Returns (p, Some (Errorf ("failed to unmarshal Point, " ++ data) (Some e)))
        | (s, None) => Returns (mkPoint PointTypeString s None, None)
        end
      else
        match Json.Unmarshal (ps_json_dec O) data (ps_zero O) with
        | (_, Some e) =>
            Returns (p, Some (Errorf ("failed to unmarshal Point, " ++ data) (Some e)))
        | (ps, None) => Returns (mkPoint PointTypeStruct "" (Some ps), None)
        end
  end.

(** [*Point] as a field of a struct that encoding/json decodes. *)
Definition dec_Point : Json.decoder (Point PS) := Json.dec_unmarshaler Point_UnmarshalJSON.

End PointCode.

(** ** ouroboros/chainsync: transaction ids

    [TxID] and its methods have the same text in both generations. *)

Definition TxID := string.

Definition NewTxID (txHash : string) (index : Z) : TxID :=
  txHash ++ "#" ++ Itoa index.

Definition TxID_String (t : TxID) : string := t.

Definition TxID_Index (t : TxID) : Z :=
  let index := Index t "#" in
  if (0 <? index)%Z then
    match Atoi (slice_from t (Z.to_nat (index + 1))) with
    | Some v => v
    | None => (-1)%Z
    end
  else (-1)%Z.

Definition TxID_TxHash (t : TxID) : string :=
  let index := Index t "#" in
  if (0 <? index)%Z then slice_to t (Z.to_nat index) else "".

(** ** ouroboros/chainsync: [Points.Swap], the same in both generations

    [pp[i], pp[j] = pp[j], pp[i]]: both elements are read, then both are
    written; an index out of range panics before anything is written. *)
Fixpoint set_index {A : Type} (l : list A) (n : nat) (x : A) : list A :=
  match l, n with
  | [], _ => []
  | _ :: l', O => x :: l'
  | y :: l', S n' => y :: set_index l' n' x
  end.

Definition Points_Swap {PS : Type} (pp : list (Point PS)) (i j : Z)
  : outcome (list (Point PS)) :=
  match index pp j, index pp i with
  | Some pj, Some pi => Returns (set_index (set_index pp (Z.to_nat i) pj) (Z.to_nat j) pi)
  | _, _ => Panics "index out of range"
  end.


(** ** ouroboros/chainsync: datums

    [Datums.UnmarshalJSON] has the same text in both generations.  The
    argument is [None] for a [nil] slice.  [base64.StdEncoding.DecodeString]
    and the [%v] form of a value that is no string are parameters. *)
Definition Datums := list (string * string).

Section DatumsJSON.
Variable base64_DecodeString : string -> bytes * option error.
Variable Sprint : Json.value -> string.

(** The loop over [raw], with the entries stored so far. *)
Fixpoint datums_loop (raw : list (string * Json.value)) (results : Datums)
  : Datums * option error :=
  match raw with
  | [] => (results, None)
  | (k, v) :: raw' =>
      match v with
      | Json.Str s =>
          match hex_DecodeString s with
          | Some _ => datums_loop raw' (map_set results k s)
          | None =>
              match base64_DecodeString s with
              | (_, Some err) =>
                  (results, Some (Errorf ("unable to decode string " ++ s) (Some err)))
              | (rawDatum, None) =>
                  datums_loop raw' (map_set results k (hex_EncodeToString rawDatum))
              end
          end
      | _ => (results, Some (New ("expecting string, got " ++ Sprint v)))
      end
  end.

Definition Datums_UnmarshalJSON (d : Datums) (i : option bytes) : Datums * option error :=
  match i with
  | None => (d, None)
  | Some data =>
      match Json.Unmarshal Json.dec_generic_map data [] with
      | (_, Some err) => (d, Some (Errorf "unable to unmarshal as raw map" (Some err)))
      | (raw, None) =>
          match datums_loop raw [] with
          | (_, Some err) => (d, Some err)
          | (results, None) => (results, None)
          end
      end
  end.

End DatumsJSON.

(** ** The legacy generation (v5) of [types.go] *)
Module V5.

Record PointStruct : Type := mkPointStruct {
  BlockNo : N;
  Hash : string;
  Slot : N
}.

Definition zero : PointStruct := mkPointStruct 0 "" 0.

Definition set_BlockNo (n : N) (p : PointStruct) := mkPointStruct n (Hash p) (Slot p).
Definition set_Hash (h : string) (p : PointStruct) := mkPointStruct (BlockNo p) h (Slot p).
Definition set_Slot (n : N) (p : PointStruct) := mkPointStruct (BlockNo p) (Hash p) n.

(** Tags [blockNo,omitempty], [hash,omitempty], [slot,omitempty] for
    [json] (which fxamacker/cbor also reads) and [dynamodbav]. *)
Definition ops : PointStructOps PointStruct := {|
  ps_zero := zero;
  ps_Slot := Slot;
  ps_json := fun p =>
    Json.Object (Json.omit_uint "blockNo" (BlockNo p) ++ Json.omit_string "hash" (Hash p) ++
                 Json.omit_uint "slot" (Slot p));
  ps_json_dec :=
    Json.dec_struct "chainsync.PointStruct"
      [ Json.field_of "blockNo" BlockNo set_BlockNo Json.dec_uint64;
        Json.field_of "hash" Hash set_Hash Json.dec_string;
        Json.field_of "slot" Slot set_Slot Json.dec_uint64 ];
  ps_cbor := fun p =>
    Cbor.Map (Cbor.omit_uint (Cbor.Text "blockNo") (BlockNo p) ++
              Cbor.omit_string (Cbor.Text "hash") (Hash p) ++
              Cbor.omit_uint (Cbor.Text "slot") (Slot p));
  ps_cbor_dec :=
    Cbor.dec_struct "chainsync.PointStruct"
      [ Cbor.field_of (Cbor.Text "blockNo") BlockNo set_BlockNo Cbor.dec_uint64;
        Cbor.field_of (Cbor.Text "hash") Hash set_Hash Cbor.dec_string;
        Cbor.field_of (Cbor.Text "slot") Slot set_Slot Cbor.dec_uint64 ];
  ps_av := fun p =>
    (Dynamo.omit_uint "blockNo" (BlockNo p) ++ Dynamo.omit_string "hash" (Hash p) ++
     Dynamo.omit_uint "slot" (Slot p))%list;
  ps_av_fields :=
    [ Dynamo.field_of "blockNo" BlockNo set_BlockNo Dynamo.dec_uint64;
      Dynamo.field_of "hash" Hash set_Hash Dynamo.dec_string;
      Dynamo.field_of "slot" Slot set_Slot Dynamo.dec_uint64 ]
|}.

(** The numbers of a [TxBody] (lines 407-424).  [Fee] is a [num.Int]; the
    package [num] is not among the sources, so its type and its decoder are
    parameters.  The fields of [TxBody] that hold no number are left out of
    the record, and the decoder skips their keys. *)
Record ValidityInterval : Type := mkValidityInterval {
  InvalidBefore : N;
  InvalidHereafter : N
}.

Record TxBody (num_Int : Type) : Type := mkTxBody {
  Fee : num_Int;
  TimeToLive : Z;
  Validity : ValidityInterval;
  Withdrawals : list (string * Z);
  TotalCollateral : option Z
}.
Arguments mkTxBody {num_Int} Fee TimeToLive Validity Withdrawals TotalCollateral.
Arguments Fee {num_Int} t.
Arguments TimeToLive {num_Int} t.
Arguments Validity {num_Int} t.
Arguments Withdrawals {num_Int} t.
Arguments TotalCollateral {num_Int} t.

Definition dec_ValidityInterval : Json.decoder ValidityInterval :=
  Json.dec_struct "chainsync.ValidityInterval"
    [ Json.field_of "invalidBefore" InvalidBefore
        (fun n v => mkValidityInterval n (InvalidHereafter v)) Json.dec_uint64;
      Json.field_of "invalidHereafter" InvalidHereafter
        (fun n v => mkValidityInterval (InvalidBefore v) n) Json.dec_uint64 ].

Definition dec_TxBody {num_Int : Type} (dec_num_Int : Json.decoder num_Int)
  : Json.decoder (TxBody num_Int) :=
  Json.dec_struct "chainsync.TxBody"
    [ Json.field_of "fee" Fee
        (fun x t => mkTxBody x (TimeToLive t) (Validity t) (Withdrawals t) (TotalCollateral t))
        dec_num_Int;
      Json.field_of "timeToLive" TimeToLive
        (fun x t => mkTxBody (Fee t) x (Validity t) (Withdrawals t) (TotalCollateral t))
        Json.dec_int64;
      Json.field_of "validityInterval" Validity
        (fun x t => mkTxBody (Fee t) (TimeToLive t) x (Withdrawals t) (TotalCollateral t))
        dec_ValidityInterval;
      Json.field_of "withdrawals" Withdrawals
        (fun x t => mkTxBody (Fee t) (TimeToLive t) (Validity t) x (TotalCollateral t))
        (Json.dec_map "map[string]int64" 0%Z Json.dec_int64);
      Json.field_of "totalCollateral" TotalCollateral
        (fun x t => mkTxBody (Fee t) (TimeToLive t) (Validity t) (Withdrawals t) x)
        (Json.dec_ptr 0%Z Json.dec_int64) ].

(** *** Transaction inputs (lines 452-463) *)
Record TxIn : Type := mkTxIn {
  TxIn_TxHash : string;
  TxIn_Index : Z
}.

Definition TxIn_String (t : TxIn) : string :=
  TxIn_TxHash t ++ "#" ++ Itoa (TxIn_Index t).

Definition TxIn_TxID (t : TxIn) : TxID := NewTxID (TxIn_TxHash t) (TxIn_Index t).

(** *** Asset ids (lines 41-90): a policy id, or a policy id, a dot and an
    asset name.  The methods that take a regular expression are left out. *)
Definition AssetID := string.

Definition AssetID_HasPolicyID (a : AssetID) (s : string) : bool :=
  (String.length s =? 56)%nat && HasPrefix a s.

Definition AssetID_IsZero (a : AssetID) : bool := String.eqb a "".

Definition AssetID_String (a : AssetID) : string := a.

Definition AssetID_AssetName (a : AssetID) : string :=
  let index := Index a "." in
  if (0 <? index)%Z then slice_from a (Z.to_nat (index + 1)) else "".

Definition AssetID_PolicyID (a : AssetID) : string :=
  let index := Index a "." in
  if (0 <? index)%Z then slice_to a (Z.to_nat index) else a.


(** *** Values and transaction outputs (lines 465-484 and 560-617)

    [num.Int] is of a package that is not among the sources: the type, its
    zero value and the methods the functions call are parameters. *)
Section Values.
Variable Int : Type.
Variable zero_Int : Int.
Variables Int_Add Int_Sub : Int -> Int -> Int.
Variable Int_Int64 : Int -> Z.
Variable Int_Uint64 : Int -> N.
Variable Int_String : Int -> string.

Record Value : Type := mkValue {
  Value_Coins : Int;
  Value_Assets : list (AssetID * Int)
}.

Record TxOut : Type := mkTxOut {
  TxOut_Address : string;
  TxOut_Datum : string;
  TxOut_DatumHash : string;
  TxOut_Value : Value;
  TxOut_Script : option bytes
}.

Definition zero_TxOut : TxOut := mkTxOut "" "" "" (mkValue zero_Int []) None.

Definition copy_assets (assets : list (AssetID * Int)) : list (AssetID * Int) :=
  fold_left (fun result kv => map_set result (fst kv) (snd kv)) assets [].

Definition Add (a b : Value) : Value :=
  let coins := Int_Add (Value_Coins a) (Value_Coins b) in
  let assets := copy_assets (Value_Assets a) in
  let assets :=
    fold_left
      (fun result kv => map_set result (fst kv) (Int_Add (map_get zero_Int result (fst kv)) (snd kv)))
      (Value_Assets b) assets in
  mkValue coins assets.

Definition Subtract (a b : Value) : Value :=
  let coins := Int_Sub (Value_Coins a) (Value_Coins b) in
  let assets := copy_assets (Value_Assets a) in
  let assets :=
    fold_left
      (fun result kv => map_set result (fst kv) (Int_Sub (map_get zero_Int result (fst kv)) (snd kv)))
      (Value_Assets b) assets in
  mkValue coins assets.

Fixpoint enough_assets (have want : list (AssetID * Int)) : bool * option error :=
  match want with
  | [] => (true, None)
  | (asset, amt) :: want' =>
      if (Int_Int64 (map_get zero_Int have asset) <? Int_Int64 amt)%Z
      then (false, Some (New ("not enough " ++ AssetID_String asset ++ " to meet demand")))
      else enough_assets have want'
  end.

Definition Enough (have want : Value) : bool * option error :=
  if (Int_Int64 (Value_Coins have) <? Int_Int64 (Value_Coins want))%Z
  then (false, Some (New "not enough ADA to meet demand"))
  else enough_assets (Value_Assets have) (Value_Assets want).

(** One loop of [Equals]: no entry of [xs] has an amount other than 0 that
    [other] does not hold under the same key. *)
Fixpoint equal_amounts (xs other : list (AssetID * Int)) : bool :=
  match xs with
  | [] => true
  | (k, v) :: xs' =>
      let lv := Int_Uint64 v in
      if negb (lv =? 0)%N && negb (Int_Uint64 (map_get zero_Int other k) =? lv)%N
      then false
      else equal_amounts xs' other
  end.

Definition Equals (left right : Value) : bool :=
  if negb (String.eqb (Int_String (Value_Coins left)) (Int_String (Value_Coins right)))
  then false
  else if negb (equal_amounts (Value_Assets left) (Value_Assets right))
  then false
  else equal_amounts (Value_Assets right) (Value_Assets left).

(** The inner loop of [FindByAssetID]: is a key of the assets the id? *)
Fixpoint holds_asset (assets : list (AssetID * Int)) (assetID : AssetID) : bool :=
  match assets with
  | [] => false
  | (gotAssetID, _) :: assets' =>
      if String.eqb gotAssetID assetID then true else holds_asset assets' assetID
  end.

Fixpoint TxOuts_FindByAssetID (tt : list TxOut) (assetID : AssetID) : TxOut * bool :=
  match tt with
  | [] => (zero_TxOut, false)
  | t :: tt' =>
      if holds_asset (Value_Assets (TxOut_Value t)) assetID then (t, true)
      else TxOuts_FindByAssetID tt' assetID
  end.

End Values.

(** The JSON decoder of a [Value] (lines 560-563): both fields hold
    [num.Int], read by that type's decoder. *)
Definition dec_Value {Int : Type} (zero_Int : Int) (dec_num_Int : Json.decoder Int)
  : Json.decoder (Value Int) :=
  Json.dec_struct "chainsync.Value"
    [ Json.field_of "coins" (Value_Coins Int)
        (fun x v => mkValue Int x (Value_Assets Int v)) dec_num_Int;
      Json.field_of "assets" (Value_Assets Int)
        (fun x v => mkValue Int (Value_Coins Int v) x)
        (Json.dec_map "map[chainsync.AssetID]num.Int" zero_Int dec_num_Int) ].

End V5.

(** ** The current generation (v6) of [types.go] *)
Module V6.

Record PointStruct : Type := mkPointStruct {
  Height : option N;
  ID : string;
  Slot : N
}.

Definition zero : PointStruct := mkPointStruct None "" 0.

Definition set_Height (h : option N) (p : PointStruct) := mkPointStruct h (ID p) (Slot p).
Definition set_ID (i : string) (p : PointStruct) := mkPointStruct (Height p) i (Slot p).
Definition set_Slot (n : N) (p : PointStruct) := mkPointStruct (Height p) (ID p) n.

(** Tags [height,omitempty] (a pointer: left out when nil), [id,omitempty],
    [slot,omitempty]. *)
Definition ops : PointStructOps PointStruct := {|
  ps_zero := zero;
  ps_Slot := Slot;
  ps_json := fun p =>
    Json.Object (Json.omit_ptr_uint "height" (Height p) ++ Json.omit_string "id" (ID p) ++
                 Json.omit_uint "slot" (Slot p));
  ps_json_dec :=
    Json.dec_struct "chainsync.PointStruct"
      [ Json.field_of "height" Height set_Height (Json.dec_ptr 0%N Json.dec_uint64);
        Json.field_of "id" ID set_ID Json.dec_string;
        Json.field_of "slot" Slot set_Slot Json.dec_uint64 ];
  ps_cbor := fun p =>
    Cbor.Map (Cbor.omit_ptr (Cbor.Text "height") Cbor.UInt (Height p) ++
              Cbor.omit_string (Cbor.Text "id") (ID p) ++
              Cbor.omit_uint (Cbor.Text "slot") (Slot p));
  ps_cbor_dec :=
    Cbor.dec_struct "chainsync.PointStruct"
      [ Cbor.field_of (Cbor.Text "height") Height set_Height
          (Cbor.dec_ptr 0%N Cbor.dec_uint64);
        Cbor.field_of (Cbor.Text "id") ID set_ID Cbor.dec_string;
        Cbor.field_of (Cbor.Text "slot") Slot set_Slot Cbor.dec_uint64 ];
  ps_av := fun p =>
    (Dynamo.omit_ptr_uint "height" (Height p) ++ Dynamo.omit_string "id" (ID p) ++
     Dynamo.omit_uint "slot" (Slot p))%list;
  ps_av_fields :=
    [ Dynamo.field_of "height" Height set_Height (Dynamo.dec_ptr 0%N Dynamo.dec_uint64);
      Dynamo.field_of "id" ID set_ID Dynamo.dec_string;
      Dynamo.field_of "slot" Slot set_Slot Dynamo.dec_uint64 ]
|}.

Record ResultError : Type := mkResultError {
  re_Code : N;
  re_Message : string;
  re_Data : option bytes;
  re_ID : option bytes
}.

Definition zero_ResultError : ResultError := mkResultError 0 "" None None.

Record ResultFindIntersectionPraos : Type := mkResultFindIntersectionPraos {
  rfi_Intersection : option (Point PointStruct);
  rfi_Tip : option PointStruct;
  rfi_Error : option ResultError;
  rfi_ID : option bytes
}.

Definition zero_ResultFindIntersectionPraos : ResultFindIntersectionPraos :=
  mkResultFindIntersectionPraos None None None None.

(** [Block] is a parameter: no property below looks inside a block. *)
Record ResultNextBlockPraos (Block : Type) : Type := mkResultNextBlockPraos {
  rnb_Direction : string;
  rnb_Tip : option PointStruct;
  rnb_Block : option Block;
  rnb_Point : option (Point PointStruct)
}.
Arguments mkResultNextBlockPraos {Block} rnb_Direction rnb_Tip rnb_Block rnb_Point.
Arguments rnb_Direction {Block} r.
Arguments rnb_Tip {Block} r.
Arguments rnb_Block {Block} r.
Arguments rnb_Point {Block} r.

Definition zero_ResultNextBlockPraos {Block : Type} : ResultNextBlockPraos Block :=
  mkResultNextBlockPraos "" None None None.

(** [ResponsePraos.Result] is an [interface{}]: nothing, or one of the two
    result structs. *)
Inductive result_value (Block : Type) : Type :=
| NoResult
| FindIntersection (r : ResultFindIntersectionPraos)
| NextBlock (r : ResultNextBlockPraos Block).
Arguments NoResult {Block}.
Arguments FindIntersection {Block} r.
Arguments NextBlock {Block} r.

Record ResponsePraos (Block : Type) : Type := mkResponsePraos {
  rp_JsonRpc : string;
  rp_Method : string;
  rp_Result : result_value Block;
  rp_Error : option ResultError;
  rp_ID : option bytes
}.
Arguments mkResponsePraos {Block} rp_JsonRpc rp_Method rp_Result rp_Error rp_ID.
Arguments rp_JsonRpc {Block} r.
Arguments rp_Method {Block} r.
Arguments rp_Result {Block} r.
Arguments rp_Error {Block} r.
Arguments rp_ID {Block} r.

Definition FindIntersectionMethod : string := "findIntersection".
Definition NextBlockMethod : string := "nextBlock".
Definition FindIntersectMethod : string := "FindIntersect".
Definition RequestNextMethod : string := "RequestNext".

(** The anonymous struct [m] of [ResponsePraos.UnmarshalJSON]. *)
Record envelope : Type := mkEnvelope {
  m_JsonRpc : string;
  m_Method : string;
  m_ID : option bytes;
  m_Result : option bytes;
  m_Error : option bytes
}.

Definition zero_envelope : envelope := mkEnvelope "" "" None None None.

(** The bytes of a [json.RawMessage] that may be nil. *)
Definition raw (o : option bytes) : bytes :=
  match o with
  | Some b => b
  | None => ""
  end.

Section Response.
Variable Block : Type.
(** [json.Unmarshal] into a fresh variable of each of the four types. *)
Variable unmarshal_envelope : bytes -> envelope * option error.
Variable unmarshal_ResultError : bytes -> ResultError * option error.
Variable unmarshal_FindIntersection : bytes -> ResultFindIntersectionPraos * option error.
Variable unmarshal_NextBlock : bytes -> ResultNextBlockPraos Block * option error.

Definition ResponsePraos_UnmarshalJSON (r : ResponsePraos Block) (b : bytes)
  : ResponsePraos Block * option error :=
  match unmarshal_envelope b with
  | (_, Some err) => (r, Some err)
  | (m, None) =>
      let r := mkResponsePraos (m_JsonRpc m) (rp_Method r) (rp_Result r) (rp_Error r) (m_ID m) in
      match m_Error m with
      | Some e =>
          match unmarshal_ResultError e with
          | (_, Some err) => (r, Some err)
          | (resultError, None) =>
              (mkResponsePraos (rp_JsonRpc r) (rp_Method r) (rp_Result r) (Some resultError)
                 (rp_ID r), None)
          end
      | None =>
          if String.eqb (m_Method m) FindIntersectionMethod
             || String.eqb (m_Method m) FindIntersectMethod then
            let r := mkResponsePraos (rp_JsonRpc r) FindIntersectionMethod (rp_Result r)
                       (rp_Error r) (rp_ID r) in
            match unmarshal_FindIntersection (raw (m_Result m)) with
            | (_, Some err) => (r, Some err)
            | (findIntersection, None) =>
                (mkResponsePraos (rp_JsonRpc r) (rp_Method r) (FindIntersection findIntersection)
                   (rp_Error r) (rp_ID r), None)
            end
          else if String.eqb (m_Method m) NextBlockMethod
                  || String.eqb (m_Method m) RequestNextMethod then
            let r := mkResponsePraos (rp_JsonRpc r) NextBlockMethod (rp_Result r)
                       (rp_Error r) (rp_ID r) in
            match unmarshal_NextBlock (raw (m_Result m)) with
            | (_, Some err) => (r, Some err)
            | (nextBlock, None) =>
                (mkResponsePraos (rp_JsonRpc r) (rp_Method r) (NextBlock nextBlock)
                   (rp_Error r) (rp_ID r), None)
            end
          else (r, Some (New ("unknown method: '" ++ rp_Method r ++ "'")))
      end
  end.

End Response.

(** *** The four decoders, by the structs' tags *)

Definition dec_envelope : Json.decoder envelope :=
  Json.dec_struct "struct"
    [ Json.field_of "jsonrpc" m_JsonRpc
        (fun x m => mkEnvelope x (m_Method m) (m_ID m) (m_Result m) (m_Error m)) Json.dec_string;
      Json.field_of "method" m_Method
        (fun x m => mkEnvelope (m_JsonRpc m) x (m_ID m) (m_Result m) (m_Error m)) Json.dec_string;
      Json.field_of "ID" m_ID
        (fun x m => mkEnvelope (m_JsonRpc m) (m_Method m) x (m_Result m) (m_Error m)) Json.dec_raw;
      Json.field_of "result" m_Result
        (fun x m => mkEnvelope (m_JsonRpc m) (m_Method m) (m_ID m) x (m_Error m)) Json.dec_raw;
      Json.field_of "error" m_Error
        (fun x m => mkEnvelope (m_JsonRpc m) (m_Method m) (m_ID m) (m_Result m) x) Json.dec_raw ].

Definition dec_ResultError : Json.decoder ResultError :=
  Json.dec_struct "chainsync.ResultError"
    [ Json.field_of "code" re_Code
        (fun x e => mkResultError x (re_Message e) (re_Data e) (re_ID e)) Json.dec_uint32;
      Json.field_of "message" re_Message
        (fun x e => mkResultError (re_Code e) x (re_Data e) (re_ID e)) Json.dec_string;
      Json.field_of "data" re_Data
        (fun x e => mkResultError (re_Code e) (re_Message e) x (re_ID e)) Json.dec_raw;
      Json.field_of "id" re_ID
        (fun x e => mkResultError (re_Code e) (re_Message e) (re_Data e) x) Json.dec_raw ].

Definition dec_ResultFindIntersectionPraos : Json.decoder ResultFindIntersectionPraos :=
  Json.dec_struct "chainsync.ResultFindIntersectionPraos"
    [ Json.field_of "intersection" rfi_Intersection
        (fun x r => mkResultFindIntersectionPraos x (rfi_Tip r) (rfi_Error r) (rfi_ID r))
        (Json.dec_ptr zero_Point (dec_Point ops));
      Json.field_of "tip" rfi_Tip
        (fun x r => mkResultFindIntersectionPraos (rfi_Intersection r) x (rfi_Error r) (rfi_ID r))
        (Json.dec_ptr zero (ps_json_dec ops));
      Json.field_of "error" rfi_Error
        (fun x r => mkResultFindIntersectionPraos (rfi_Intersection r) (rfi_Tip r) x (rfi_ID r))
        (Json.dec_ptr zero_ResultError dec_ResultError);
      Json.field_of "id" rfi_ID
        (fun x r => mkResultFindIntersectionPraos (rfi_Intersection r) (rfi_Tip r) (rfi_Error r) x)
        Json.dec_raw ].

Definition dec_ResultNextBlockPraos {Block : Type} (zero_Block : Block)
  (dec_Block : Json.decoder Block) : Json.decoder (ResultNextBlockPraos Block) :=
  Json.dec_struct "chainsync.ResultNextBlockPraos"
    [ Json.field_of "direction" rnb_Direction
        (fun x r => mkResultNextBlockPraos x (rnb_Tip r) (rnb_Block r) (rnb_Point r))
        Json.dec_string;
      Json.field_of "tip" rnb_Tip
        (fun x r => mkResultNextBlockPraos (rnb_Direction r) x (rnb_Block r) (rnb_Point r))
        (Json.dec_ptr zero (ps_json_dec ops));
      Json.field_of "block" rnb_Block
        (fun x r => mkResultNextBlockPraos (rnb_Direction r) (rnb_Tip r) x (rnb_Point r))
        (Json.dec_ptr zero_Block dec_Block);
      Json.field_of "point" rnb_Point
        (fun x r => mkResultNextBlockPraos (rnb_Direction r) (rnb_Tip r) (rnb_Block r) x)
        (Json.dec_ptr zero_Point (dec_Point ops)) ].

(** *** Transaction inputs (lines 1116-1133) *)
Record TxInID : Type := mkTxInID {
  TxInID_ID : string
}.

Record TxIn : Type := mkTxIn {
  TxIn_Transaction : TxInID;
  TxIn_Index : Z
}.

Definition TxIn_String (t : TxIn) : string :=
  TxInID_ID (TxIn_Transaction t) ++ "#" ++ Itoa (TxIn_Index t).

Definition TxIn_TxID (t : TxIn) : TxID :=
  NewTxID (TxInID_ID (TxIn_Transaction t)) (TxIn_Index t).

(** *** Blocks (lines 655-703 and 931-937).  The type of a transaction is
    a parameter: the block's point does not read it. *)
Record Nonce : Type := mkNonce {
  Nonce_Output : string;
  Nonce_Proof : string
}.

Record BlockSize : Type := mkBlockSize {
  BlockSize_Bytes : Z
}.

Record ProtocolVersion : Type := mkProtocolVersion {
  Major : N;
  Minor : N;
  Patch : N
}.

Record Protocol : Type := mkProtocol {
  Protocol_Version : ProtocolVersion
}.

Record Kes : Type := mkKes {
  Kes_Period : N;
  Kes_VerificationKey : string
}.

Record OpCert : Type := mkOpCert {
  OpCert_Count : N;
  OpCert_Kes : Kes
}.

Record LeaderValue : Type := mkLeaderValue {
  LeaderValue_Output : string;
  LeaderValue_Proof : string
}.

Record BlockIssuer : Type := mkBlockIssuer {
  VerificationKey : string;
  VrfVerificationKey : string;
  OperationalCertificate : OpCert;
  Issuer_LeaderValue : option LeaderValue
}.

Record Block (Tx : Type) : Type := mkBlock {
  Block_Type : string;
  Block_Era : string;
  Block_ID : string;
  Block_Ancestor : string;
  Block_Nonce : option Nonce;
  Block_Height : N;
  Block_Size : BlockSize;
  Block_Slot : N;
  Block_Transactions : list Tx;
  Block_Protocol : Protocol;
  Block_Issuer : BlockIssuer
}.
Arguments mkBlock {Tx} Block_Type Block_Era Block_ID Block_Ancestor Block_Nonce Block_Height
  Block_Size Block_Slot Block_Transactions Block_Protocol Block_Issuer.
Arguments Block_Type {Tx} b.
Arguments Block_Era {Tx} b.
Arguments Block_ID {Tx} b.
Arguments Block_Ancestor {Tx} b.
Arguments Block_Nonce {Tx} b.
Arguments Block_Height {Tx} b.
Arguments Block_Size {Tx} b.
Arguments Block_Slot {Tx} b.
Arguments Block_Transactions {Tx} b.
Arguments Block_Protocol {Tx} b.
Arguments Block_Issuer {Tx} b.

(** [Block.PointStruct]: the height is the address of the block's own
    field, so it is never [nil]. *)
Definition Block_PointStruct {Tx : Type} (b : Block Tx) : PointStruct :=
  mkPointStruct (Some (Block_Height b)) (Block_ID b) (Block_Slot b).

(** *** [MustFindIntersectResult] and [MustNextBlockResult]

    The interface values of the model are those that [UnmarshalJSON]
    stores (a result struct, or nothing); the pointer case of the type
    switch is not among them. *)
Definition zero_ResponsePraos {Block : Type} : ResponsePraos Block :=
  mkResponsePraos "" "" NoResult None None.

Definition MustFindIntersectResult {Block : Type} (r : ResponsePraos Block)
  : outcome ResultFindIntersectionPraos :=
  if negb (String.eqb (rp_Method r) FindIntersectionMethod) then
    Panics ("must only use *Must* methods after switching on the findIntersection method; called on "
            ++ rp_Method r)
  else
    match rp_Result r with
    | FindIntersection t => Returns t
    | _ => Panics "must method used on incompatible type"
    end.

Definition MustNextBlockResult {Block : Type} (r : ResponsePraos Block)
  : outcome (ResultNextBlockPraos Block) :=
  if negb (String.eqb (rp_Method r) NextBlockMethod) then
    Panics ("must only use *Must* methods after switching on the nextBlock method; called on "
            ++ rp_Method r)
  else
    match rp_Result r with
    | NextBlock t => Returns t
    | _ => Panics "must method used on incompatible type"
    end.

(** [json.Unmarshal(data, &r)] for a fresh [r ResponsePraos]: the library
    checks that the input is one document and hands it to
    [UnmarshalJSON]. *)
Definition Unmarshal_ResponsePraos (Block : Type)
  (unmarshal_envelope : bytes -> envelope * option error)
  (unmarshal_ResultError : bytes -> ResultError * option error)
  (unmarshal_FindIntersection : bytes -> ResultFindIntersectionPraos * option error)
  (unmarshal_NextBlock : bytes -> ResultNextBlockPraos Block * option error)
  (data : bytes) : ResponsePraos Block * option error :=
  match Json.parse data with
  | None => (zero_ResponsePraos, Some (SyntaxError "invalid JSON"))
  | Some x =>
      ResponsePraos_UnmarshalJSON Block unmarshal_envelope unmarshal_ResultError
        unmarshal_FindIntersection unmarshal_NextBlock zero_ResponsePraos (Json.render x)
  end.

End V6.

(** ** ouroboros/chainsync/compatibility *)
Module Compatibility.

(** The package [v5] is not among the sources.  Of its result types the
    decoders below read two pointer fields each, so the types are declared
    here with those fields, over the structs the pointers lead to. *)
Record ResultFindIntersectionV5 (Found NotFound : Type) : Type := mkResultFindIntersectionV5 {
  IntersectionFound : option Found;
  IntersectionNotFound : option NotFound
}.
Arguments mkResultFindIntersectionV5 {Found NotFound} IntersectionFound IntersectionNotFound.
Arguments IntersectionFound {Found NotFound} r.
Arguments IntersectionNotFound {Found NotFound} r.

Record ResultNextBlockV5 (Forward Backward : Type) : Type := mkResultNextBlockV5 {
  RollForward : option Forward;
  RollBackward : option Backward
}.
Arguments mkResultNextBlockV5 {Forward Backward} RollForward RollBackward.
Arguments RollForward {Forward Backward} r.
Arguments RollBackward {Forward Backward} r.

Definition CompatibleResultFindIntersection : Type := V6.ResultFindIntersectionPraos.
Definition CompatibleResultNextBlock (Block : Type) : Type := V6.ResultNextBlockPraos Block.

Section Shim.
Variables Block Found NotFound Forward Backward : Type.

(** [json.Unmarshal(data, &r)] and [dynamodbattribute.Unmarshal(item, &s)]
    into a fresh variable of each schema, and the conversions of package
    [v5]: parameters. *)
Variable json_FindIntersection_v6 : bytes -> V6.ResultFindIntersectionPraos * option error.
Variable json_FindIntersection_v5 :
  bytes -> ResultFindIntersectionV5 Found NotFound * option error.
Variable av_FindIntersection_v6 :
  option Dynamo.AttributeValue -> V6.ResultFindIntersectionPraos * option error.
Variable av_FindIntersection_v5 :
  option Dynamo.AttributeValue -> ResultFindIntersectionV5 Found NotFound * option error.
Variable FindIntersection_ConvertToV6 :
  ResultFindIntersectionV5 Found NotFound -> V6.ResultFindIntersectionPraos.

Variable json_NextBlock_v6 : bytes -> V6.ResultNextBlockPraos Block * option error.
Variable json_NextBlock_v5 : bytes -> ResultNextBlockV5 Forward Backward * option error.
Variable av_NextBlock_v6 :
  option Dynamo.AttributeValue -> V6.ResultNextBlockPraos Block * option error.
Variable av_NextBlock_v5 :
  option Dynamo.AttributeValue -> ResultNextBlockV5 Forward Backward * option error.
Variable NextBlock_ConvertToV6 :
  ResultNextBlockV5 Forward Backward -> V6.ResultNextBlockPraos Block.

Definition CompatibleResultFindIntersection_UnmarshalJSON
  (c : CompatibleResultFindIntersection) (data : bytes)
  : CompatibleResultFindIntersection * option error :=
  let (r, err) := json_FindIntersection_v6 data in
  if is_nil err && (is_some (V6.rfi_Intersection r) || is_some (V6.rfi_Error r)) then (r, None)
  else
    let (r5, err) := json_FindIntersection_v5 data in
    if is_nil err && (is_some (IntersectionFound r5) || is_some (IntersectionNotFound r5))
    then (FindIntersection_ConvertToV6 r5, None)
    else (c, Some (Errorf "unable to parse as either v5 or v6 FindIntersection" err)).

Definition CompatibleResultFindIntersection_UnmarshalDynamoDBAttributeValue
  (c : CompatibleResultFindIntersection) (item : option Dynamo.AttributeValue)
  : CompatibleResultFindIntersection * option error :=
  let (s, err) := av_FindIntersection_v6 item in
  if is_nil err && is_some (V6.rfi_Intersection s) then (s, None)
  else
    let (v, err) := av_FindIntersection_v5 item in
    if is_nil err && is_some (V6.rfi_Intersection s)
    then (FindIntersection_ConvertToV6 v, None)
    else (c, Some (Errorf "unable to parse as either v5 or v6 FindIntersection" err)).

Definition CompatibleResultNextBlock_UnmarshalJSON
  (c : CompatibleResultNextBlock Block) (data : bytes)
  : CompatibleResultNextBlock Block * option error :=
  let (r, err) := json_NextBlock_v6 data in
  if is_nil err && negb (String.eqb (V6.rnb_Direction r) "") then (r, None)
  else
    let (v, err) := json_NextBlock_v5 data in
    if is_nil err && (is_some (RollBackward v) || is_some (RollForward v))
    then (NextBlock_ConvertToV6 v, None)
    else (c, Some (Errorf "unable to parse as either v5 of v6 NextBlock" err)).

Definition CompatibleResultNextBlock_UnmarshalDynamoDBAttributeValue
  (c : CompatibleResultNextBlock Block) (item : option Dynamo.AttributeValue)
  : CompatibleResultNextBlock Block * option error :=
  let (s, err) := av_NextBlock_v6 item in
  if is_nil err && negb (String.eqb (V6.rnb_Direction s) "") then (s, None)
  else
    let (v, err) := av_NextBlock_v5 item in
    if is_nil err && (is_some (RollBackward v) || is_some (RollForward v))
    then (NextBlock_ConvertToV6 v, None)
    else (c, Some (Errorf "unable to parse as either v5 or v6 NextBlock" err)).

End Shim.

(** *** The decode algorithm as the specification words it (4.3)

    Step 1: decode as the current schema and accept if its distinguishing
    field is populated.  Step 2: else decode as the legacy schema, accept
    if its own distinguishing field is populated, and convert.  Step 3:
    else fail.  [None] is the failure. *)
Definition decode_any {C L : Type}
  (current : C * option error) (current_field : C -> bool)
  (legacy : L * option error) (legacy_field : L -> bool)
  (convert : L -> C) : option C :=
  if is_nil (snd current) && current_field (fst current) then Some (fst current)
  else if is_nil (snd legacy) && legacy_field (fst legacy) then Some (convert (fst legacy))
  else None.

(** What a decoder call accepted: the value stored when it returned [nil]. *)
Definition accepted {C : Type} (r : C * option error) : option C :=
  match r with
  | (c, None) => Some c
  | (_, Some _) => None
  end.

(** The distinguishing fields. *)
Definition has_intersection (r : V6.ResultFindIntersectionPraos) : bool :=
  is_some (V6.rfi_Intersection r).

Definition has_intersection_or_error (r : V6.ResultFindIntersectionPraos) : bool :=
  is_some (V6.rfi_Intersection r) || is_some (V6.rfi_Error r).

Definition has_direction {Block : Type} (r : V6.ResultNextBlockPraos Block) : bool :=
  negb (String.eqb (V6.rnb_Direction r) "").

Definition has_found_or_not_found {Found NotFound : Type}
  (r : ResultFindIntersectionV5 Found NotFound) : bool :=
  is_some (IntersectionFound r) || is_some (IntersectionNotFound r).

Definition has_roll {Forward Backward : Type} (r : ResultNextBlockV5 Forward Backward) : bool :=
  is_some (RollBackward r) || is_some (RollForward r).

(** *** An instance over the JSON model, for worked examples

    The legacy result is read with the legacy generation's own structs
    ([IntersectionFound], [IntersectionNotFound] of the v5 [types.go],
    which carry no tags, so their keys are the field names).  The examples
    never reach the conversion of an accepted legacy value; it is fixed to
    the zero value here. *)
Record IntersectionFound5 : Type := mkIntersectionFound5 {
  if5_Point : Point V5.PointStruct;
  if5_Tip : Point V5.PointStruct
}.

Record IntersectionNotFound5 : Type := mkIntersectionNotFound5 {
  inf5_Tip : Point V5.PointStruct
}.

Definition dec_IntersectionFound5 : Json.decoder IntersectionFound5 :=
  Json.dec_struct "chainsync.IntersectionFound"
    [ Json.field_of "Point" if5_Point (fun x r => mkIntersectionFound5 x (if5_Tip r))
        (dec_Point V5.ops);
      Json.field_of "Tip" if5_Tip (fun x r => mkIntersectionFound5 (if5_Point r) x)
        (dec_Point V5.ops) ].

Definition dec_IntersectionNotFound5 : Json.decoder IntersectionNotFound5 :=
  Json.dec_struct "chainsync.IntersectionNotFound"
    [ Json.field_of "Tip" inf5_Tip (fun x _ => mkIntersectionNotFound5 x) (dec_Point V5.ops) ].

Definition dec_ResultFindIntersectionV5
  : Json.decoder (ResultFindIntersectionV5 IntersectionFound5 IntersectionNotFound5) :=
  Json.dec_struct "v5.ResultFindIntersectionV5"
    [ Json.field_of "IntersectionFound" IntersectionFound
        (fun x r => mkResultFindIntersectionV5 x (IntersectionNotFound r))
        (Json.dec_ptr (mkIntersectionFound5 zero_Point zero_Point) dec_IntersectionFound5);
      Json.field_of "IntersectionNotFound" IntersectionNotFound
        (fun x r => mkResultFindIntersectionV5 (IntersectionFound r) x)
        (Json.dec_ptr (mkIntersectionNotFound5 zero_Point) dec_IntersectionNotFound5) ].

Definition example_json_v6 (data : bytes) : V6.ResultFindIntersectionPraos * option error :=
  Json.Unmarshal V6.dec_ResultFindIntersectionPraos data V6.zero_ResultFindIntersectionPraos.

Definition example_json_v5 (data : bytes)
  : ResultFindIntersectionV5 IntersectionFound5 IntersectionNotFound5 * option error :=
  Json.Unmarshal dec_ResultFindIntersectionV5 data (mkResultFindIntersectionV5 None None).

Definition example_convert
  (r : ResultFindIntersectionV5 IntersectionFound5 IntersectionNotFound5)
  : V6.ResultFindIntersectionPraos := V6.zero_ResultFindIntersectionPraos.

Definition example_UnmarshalJSON (data : bytes)
  : CompatibleResultFindIntersection * option error :=
  CompatibleResultFindIntersection_UnmarshalJSON IntersectionFound5 IntersectionNotFound5
    example_json_v6 example_json_v5 example_convert
    V6.zero_ResultFindIntersectionPraos data.

(** The same instance in the attribute encoding.  A [Point] is read by its
    own [UnmarshalDynamoDBAttributeValue].  Of the current-schema result
    the fields [intersection] and [tip] are read: [error] and [id] hold
    byte slices, which the model of attribute values leaves out. *)
Definition dec_av_Point {PS : Type} (O : PointStructOps PS) : Dynamo.decoder (Point PS) :=
  fun a p => Point_UnmarshalDynamoDBAttributeValue O p (Some a).

Definition dec_av_ResultFindIntersectionPraos : Dynamo.decoder V6.ResultFindIntersectionPraos :=
  Dynamo.dec_struct "chainsync.ResultFindIntersectionPraos" V6.zero_ResultFindIntersectionPraos
    [ Dynamo.field_of "intersection" V6.rfi_Intersection
        (fun x r =>
           V6.mkResultFindIntersectionPraos x (V6.rfi_Tip r) (V6.rfi_Error r) (V6.rfi_ID r))
        (Dynamo.dec_ptr zero_Point (dec_av_Point V6.ops));
      Dynamo.field_of "tip" V6.rfi_Tip
        (fun x r =>
           V6.mkResultFindIntersectionPraos (V6.rfi_Intersection r) x (V6.rfi_Error r)
             (V6.rfi_ID r))
        (Dynamo.dec_ptr V6.zero
           (Dynamo.dec_struct "chainsync.PointStruct" V6.zero (ps_av_fields V6.ops))) ].

Definition dec_av_IntersectionFound5 : Dynamo.decoder IntersectionFound5 :=
  Dynamo.dec_struct "chainsync.IntersectionFound" (mkIntersectionFound5 zero_Point zero_Point)
    [ Dynamo.field_of "Point" if5_Point (fun x r => mkIntersectionFound5 x (if5_Tip r))
        (dec_av_Point V5.ops);
      Dynamo.field_of "Tip" if5_Tip (fun x r => mkIntersectionFound5 (if5_Point r) x)
        (dec_av_Point V5.ops) ].

Definition dec_av_IntersectionNotFound5 : Dynamo.decoder IntersectionNotFound5 :=
  Dynamo.dec_struct "chainsync.IntersectionNotFound" (mkIntersectionNotFound5 zero_Point)
    [ Dynamo.field_of "Tip" inf5_Tip (fun x _ => mkIntersectionNotFound5 x)
        (dec_av_Point V5.ops) ].

Definition dec_av_ResultFindIntersectionV5
  : Dynamo.decoder (ResultFindIntersectionV5 IntersectionFound5 IntersectionNotFound5) :=
  Dynamo.dec_struct "v5.ResultFindIntersectionV5" (mkResultFindIntersectionV5 None None)
    [ Dynamo.field_of "IntersectionFound" IntersectionFound
        (fun x r => mkResultFindIntersectionV5 x (IntersectionNotFound r))
        (Dynamo.dec_ptr (mkIntersectionFound5 zero_Point zero_Point) dec_av_IntersectionFound5);
      Dynamo.field_of "IntersectionNotFound" IntersectionNotFound
        (fun x r => mkResultFindIntersectionV5 (IntersectionFound r) x)
        (Dynamo.dec_ptr (mkIntersectionNotFound5 zero_Point) dec_av_IntersectionNotFound5) ].

(** [dynamodbattribute.Unmarshal(item, &s)]: a nil item stores the zero value. *)
Definition example_av_v6 (item : option Dynamo.AttributeValue)
  : V6.ResultFindIntersectionPraos * option error :=
  match item with
  | None => (V6.zero_ResultFindIntersectionPraos, None)
  | Some a => dec_av_ResultFindIntersectionPraos a V6.zero_ResultFindIntersectionPraos
  end.

Definition example_av_v5 (item : option Dynamo.AttributeValue)
  : ResultFindIntersectionV5 IntersectionFound5 IntersectionNotFound5 * option error :=
  match item with
  | None => (mkResultFindIntersectionV5 None None, None)
  | Some a => dec_av_ResultFindIntersectionV5 a (mkResultFindIntersectionV5 None None)
  end.

Definition example_UnmarshalDynamoDBAttributeValue (item : option Dynamo.AttributeValue)
  : CompatibleResultFindIntersection * option error :=
  CompatibleResultFindIntersection_UnmarshalDynamoDBAttributeValue
    IntersectionFound5 IntersectionNotFound5
    example_av_v6 example_av_v5 example_convert
    V6.zero_ResultFindIntersectionPraos item.

(** A current-schema payload with an error and no intersection. *)
Definition error_only : bytes := q "{'error':{'code':1000,'message':'x'}}".

(** An intersection found, as an attribute value of each schema. *)
Definition current_item : Dynamo.AttributeValue :=
  Dynamo.of_M
    [ ("intersection",
       Dynamo.of_M [("id", Dynamo.of_S "hash"); ("slot", Dynamo.of_N "456")]) ].

Definition legacy_item : Dynamo.AttributeValue :=
  Dynamo.of_M
    [ ("IntersectionFound",
       Dynamo.of_M
         [ ("Point", Dynamo.of_M [("hash", Dynamo.of_S "hash"); ("slot", Dynamo.of_N "456")]);
           ("Tip", Dynamo.of_M [("hash", Dynamo.of_S "tip"); ("slot", Dynamo.of_N "789")]) ]) ].

(** *** [CompatibleResponsePraos], [CompatibleResult] and [CompatibleTx]

    As for the two result types above, the library calls that decode into
    a fresh variable of each schema, the conversions of package [v5] and
    the types of that package are parameters.  Of a transaction the
    decoders read one field of each schema: [Spends] and [Raw]. *)
Definition CompatibleResponsePraos (Block : Type) : Type := V6.ResponsePraos Block.

Definition has_result {Block : Type} (r : V6.ResponsePraos Block) : bool :=
  match V6.rp_Result r with
  | V6.NoResult => false
  | _ => true
  end.

Section Response.
Variables Block ResponseV5 : Type.
Variable json_Response_v6 : bytes -> V6.ResponsePraos Block * option error.
Variable json_Response_v5 : bytes -> ResponseV5 * option error.
Variable av_Response_v6 : option Dynamo.AttributeValue -> V6.ResponsePraos Block * option error.
Variable av_Response_v5 : option Dynamo.AttributeValue -> ResponseV5 * option error.
Variable Response_ConvertToV6 : ResponseV5 -> V6.ResponsePraos Block.

Definition CompatibleResponsePraos_UnmarshalJSON
  (c : CompatibleResponsePraos Block) (data : bytes)
  : CompatibleResponsePraos Block * option error :=
  let (r, err) := json_Response_v6 data in
  if is_nil err && has_result r then (r, None)
  else
    let (r5, err) := json_Response_v5 data in
    match err with
    | Some e => (c, Some e)
    | None => (Response_ConvertToV6 r5, None)
    end.

Definition CompatibleResponsePraos_UnmarshalDynamoDBAttributeValue
  (c : CompatibleResponsePraos Block) (item : option Dynamo.AttributeValue)
  : CompatibleResponsePraos Block * option error :=
  let (s, err) := av_Response_v6 item in
  match err with
  | Some _ =>
      let (v, err) := av_Response_v5 item in
      match err with
      | Some e => (c, Some e)
      | None => (Response_ConvertToV6 v, None)
      end
  | None => (s, None)
  end.

End Response.

(** The [Must] methods of [CompatibleResponsePraos]. *)
Definition CompatibleResponsePraos_MustFindIntersectResult {Block : Type}
  (r : CompatibleResponsePraos Block) : outcome CompatibleResultFindIntersection :=
  if negb (String.eqb (V6.rp_Method r) V6.FindIntersectionMethod) then
    Panics ("must only use *Must* methods after switching on the findIntersection method; called on "
            ++ V6.rp_Method r)
  else
    match V6.rp_Result r with
    | V6.FindIntersection t => Returns t
    | _ => Panics "must method called on incompatible type"
    end.

Definition CompatibleResponsePraos_MustNextBlockResult {Block : Type}
  (r : CompatibleResponsePraos Block) : outcome (CompatibleResultNextBlock Block) :=
  if negb (String.eqb (V6.rp_Method r) V6.NextBlockMethod) then
    Panics ("must only use *Must* methods after switching on the nextBlock method; called on "
            ++ V6.rp_Method r)
  else
    match V6.rp_Result r with
    | V6.NextBlock t => Returns t
    | _ => Panics "must method called on incompatible type"
    end.

Record CompatibleResult (Block : Type) : Type := mkCompatibleResult {
  cr_NextBlock : option (CompatibleResultNextBlock Block);
  cr_FindIntersection : option CompatibleResultFindIntersection
}.
Arguments mkCompatibleResult {Block} cr_NextBlock cr_FindIntersection.
Arguments cr_NextBlock {Block} c.
Arguments cr_FindIntersection {Block} c.

Section Result.
Variable Block : Type.
(** [json.Unmarshal(data, &rfi)], [dynamodbattribute.Unmarshal(item, &rfi)]
    and [json.Marshal(c.NextBlock)]: the library calling the methods of the
    two result types on a fresh variable. *)
Variable json_FindIntersection : bytes -> CompatibleResultFindIntersection * option error.
Variable json_NextBlock : bytes -> CompatibleResultNextBlock Block * option error.
Variable av_FindIntersection :
  option Dynamo.AttributeValue -> CompatibleResultFindIntersection * option error.
Variable av_NextBlock :
  option Dynamo.AttributeValue -> CompatibleResultNextBlock Block * option error.
Variable marshal_FindIntersection : CompatibleResultFindIntersection -> bytes * option error.
Variable marshal_NextBlock : CompatibleResultNextBlock Block -> bytes * option error.

Definition CompatibleResult_UnmarshalJSON (c : CompatibleResult Block) (data : bytes)
  : CompatibleResult Block * option error :=
  let (rfi, err) := json_FindIntersection data in
  if is_nil err then (mkCompatibleResult None (Some rfi), None)
  else
    let (rnb, err) := json_NextBlock data in
    if is_nil err then (mkCompatibleResult (Some rnb) None, None)
    else (c, Some (New "unable to find an appropriate result")).

Definition CompatibleResult_MarshalJSON (c : CompatibleResult Block) : bytes * option error :=
  match cr_NextBlock c with
  | Some nb => marshal_NextBlock nb
  | None =>
      match cr_FindIntersection c with
      | Some fi => marshal_FindIntersection fi
      | None => ("", Some (New "unable to marshal empty result"))
      end
  end.

Definition CompatibleResult_UnmarshalDynamoDBAttributeValue
  (c : CompatibleResult Block) (item : option Dynamo.AttributeValue)
  : CompatibleResult Block * option error :=
  let (rfi, err) := av_FindIntersection item in
  match err with
  | Some _ =>
      let (rnb, err) := av_NextBlock item in
      match err with
      | Some e => (c, Some e)
      | None => (mkCompatibleResult (Some rnb) None, None)
      end
  | None => (mkCompatibleResult None (Some rfi), None)
  end.

End Result.

Section Tx.
Variables Tx TxV5 : Type.
Variable Tx_Spends : Tx -> string.
Variable TxV5_Raw : TxV5 -> string.
Variable json_Tx_v6 : bytes -> Tx * option error.
Variable json_Tx_v5 : bytes -> TxV5 * option error.
Variable av_Tx_v6 : option Dynamo.AttributeValue -> Tx * option error.
Variable av_Tx_v5 : option Dynamo.AttributeValue -> TxV5 * option error.
Variable Tx_ConvertToV6 : TxV5 -> Tx.

Definition CompatibleTx_UnmarshalJSON (c : Tx) (data : bytes) : Tx * option error :=
  let (tx, err) := json_Tx_v6 data in
  if is_nil err && negb (String.eqb (Tx_Spends tx) "") then (tx, None)
  else
    let (txV5, err) := json_Tx_v5 data in
    if is_nil err && negb (String.eqb (TxV5_Raw txV5) "") then (Tx_ConvertToV6 txV5, None)
    else (c, Some (Errorf "unable to parse as either v5 or v6 Tx" err)).

Definition CompatibleTx_UnmarshalDynamoDBAttributeValue (c : Tx)
  (item : option Dynamo.AttributeValue) : Tx * option error :=
  let (tx, err) := av_Tx_v6 item in
  if is_nil err && negb (String.eqb (Tx_Spends tx) "") then (tx, None)
  else
    let (txV5, err) := av_Tx_v5 item in
    if is_nil err then (Tx_ConvertToV6 txV5, None)
    else (c, Some (Errorf "unable to parse as either v5 or v6 Tx" err)).

End Tx.

(** *** The NextBlock decoders of the attribute encoding, for worked examples

    The legacy result is read with the legacy generation's own structs
    ([RollForward], [RollBackward] of the v5 [types.go], lines 330-338);
    a block is kept as its attribute value.  The conversion of an accepted
    legacy value is fixed to the zero value, as above. *)
Record RollBackward5 : Type := mkRollBackward5 {
  rb5_Point : Point V5.PointStruct;
  rb5_Tip : Point V5.PointStruct
}.

Record RollForward5 : Type := mkRollForward5 {
  rf5_Block : option Dynamo.AttributeValue;
  rf5_Tip : Point V5.PointStruct
}.

Definition dec_av_kept : Dynamo.decoder (option Dynamo.AttributeValue) :=
  fun a _ => (Some a, None).

Definition dec_av_RollBackward5 : Dynamo.decoder RollBackward5 :=
  Dynamo.dec_struct "chainsync.RollBackward" (mkRollBackward5 zero_Point zero_Point)
    [ Dynamo.field_of "point" rb5_Point (fun x r => mkRollBackward5 x (rb5_Tip r))
        (dec_av_Point V5.ops);
      Dynamo.field_of "tip" rb5_Tip (fun x r => mkRollBackward5 (rb5_Point r) x)
        (dec_av_Point V5.ops) ].

Definition dec_av_RollForward5 : Dynamo.decoder RollForward5 :=
  Dynamo.dec_struct "chainsync.RollForward" (mkRollForward5 None zero_Point)
    [ Dynamo.field_of "block" rf5_Block (fun x r => mkRollForward5 x (rf5_Tip r)) dec_av_kept;
      Dynamo.field_of "tip" rf5_Tip (fun x r => mkRollForward5 (rf5_Block r) x)
        (dec_av_Point V5.ops) ].

Definition dec_av_ResultNextBlockV5
  : Dynamo.decoder (ResultNextBlockV5 RollForward5 RollBackward5) :=
  Dynamo.dec_struct "v5.ResultNextBlockV5" (mkResultNextBlockV5 None None)
    [ Dynamo.field_of "RollForward" RollForward
        (fun x r => mkResultNextBlockV5 x (RollBackward r))
        (Dynamo.dec_ptr (mkRollForward5 None zero_Point) dec_av_RollForward5);
      Dynamo.field_of "RollBackward" RollBackward
        (fun x r => mkResultNextBlockV5 (RollForward r) x)
        (Dynamo.dec_ptr (mkRollBackward5 zero_Point zero_Point) dec_av_RollBackward5) ].

Definition dec_av_ResultNextBlockPraos
  : Dynamo.decoder (V6.ResultNextBlockPraos Dynamo.AttributeValue) :=
  Dynamo.dec_struct "chainsync.ResultNextBlockPraos" V6.zero_ResultNextBlockPraos
    [ Dynamo.field_of "direction" V6.rnb_Direction
        (fun x r => V6.mkResultNextBlockPraos x (V6.rnb_Tip r) (V6.rnb_Block r) (V6.rnb_Point r))
        Dynamo.dec_string;
      Dynamo.field_of "tip" V6.rnb_Tip
        (fun x r =>
           V6.mkResultNextBlockPraos (V6.rnb_Direction r) x (V6.rnb_Block r) (V6.rnb_Point r))
        (Dynamo.dec_ptr V6.zero
           (Dynamo.dec_struct "chainsync.PointStruct" V6.zero (ps_av_fields V6.ops)));
      Dynamo.field_of "block" V6.rnb_Block
        (fun x r =>
           V6.mkResultNextBlockPraos (V6.rnb_Direction r) (V6.rnb_Tip r) x (V6.rnb_Point r))
        dec_av_kept;
      Dynamo.field_of "point" V6.rnb_Point
        (fun x r =>
           V6.mkResultNextBlockPraos (V6.rnb_Direction r) (V6.rnb_Tip r) (V6.rnb_Block r) x)
        (Dynamo.dec_ptr zero_Point (dec_av_Point V6.ops)) ].

Definition example_av_NextBlock_v6 (item : option Dynamo.AttributeValue)
  : V6.ResultNextBlockPraos Dynamo.AttributeValue * option error :=
  match item with
  | None => (V6.zero_ResultNextBlockPraos, None)
  | Some a => dec_av_ResultNextBlockPraos a V6.zero_ResultNextBlockPraos
  end.

Definition example_av_NextBlock_v5 (item : option Dynamo.AttributeValue)
  : ResultNextBlockV5 RollForward5 RollBackward5 * option error :=
  match item with
  | None => (mkResultNextBlockV5 None None, None)
  | Some a => dec_av_ResultNextBlockV5 a (mkResultNextBlockV5 None None)
  end.

Definition example_convert_NextBlock (r : ResultNextBlockV5 RollForward5 RollBackward5)
  : V6.ResultNextBlockPraos Dynamo.AttributeValue := V6.zero_ResultNextBlockPraos.

End Compatibility.

(** ** Package ogmigo *)
Module Ogmigo.

(** *** [getInit]

    The Checkpoint Store of the specification (4.4): [Load] gives the
    saved points, most recent first, or an error. *)
Record Store : Type := mkStore {
  Load : list (Point V6.PointStruct) * option error;
  Save : Point V6.PointStruct -> option error
}.

(** [mockStore] of the test: it loads what it was built with. *)
Definition mockStore (pp : list (Point V6.PointStruct)) : Store :=
  mkStore (pp, None) (fun _ => None).

(** [json.Marshal] of a list of points: every point by its [MarshalJSON]. *)
Fixpoint points_json (pp : list (Point V6.PointStruct)) : list Json.value * option error :=
  match pp with
  | [] => ([], None)
  | p :: rest =>
      match Point_json V6.ops p with
      | (_, Some e) => ([], Some e)
      | (x, None) =>
          match points_json rest with
          | (xs, None) => (x :: xs, None)
          | (_, Some e) => ([], Some e)
          end
      end
  end.

(** Modelled from the spec: [getInit], whose file ([chain_sync.go]) is not
    among the sources; only its test is.  By 4.5 the session loads the
    checkpoints from the Store, uses the caller's points if the Store
    yields none, and [Origin] if there are none at all; by 6 and 8 the
    request is the JSON-RPC envelope of [findIntersection] with the id
    [{"step":"INIT"}], its keys in the order of the test's literal (the
    order in which encoding/json writes a Go map). *)
Definition getInit (store : Store) (pp : list (Point V6.PointStruct)) : bytes * option error :=
  match Load store with
  | (_, Some err) => ("", Some (Errorf "failed to retrieve points from store" (Some err)))
  | (points, None) =>
      let points := match points with [] => pp | _ => points end in
      let points := match points with [] => [Origin] | _ => points end in
      match points_json points with
      | (_, Some err) => ("", Some err)
      | (xs, None) =>
          (Json.render
             (Json.Object
                [ ("id", Json.Object [("step", Json.Str "INIT")]);
                  ("jsonrpc", Json.Str "2.0");
                  ("method", Json.Str "findIntersection");
                  ("params", Json.Object [("points", Json.Array xs)]) ]),
           None)
      end
  end.

(** *** [EvaluateTx]: execution units *)
Record ExUnitsBudget : Type := mkExUnitsBudget {
  Memory : N;
  Cpu : N
}.

Record ExUnits : Type := mkExUnits {
  Validator : string;
  Budget : ExUnitsBudget
}.

Definition dec_ExUnitsBudget : Json.decoder ExUnitsBudget :=
  Json.dec_struct "ogmigo.ExUnitsBudget"
    [ Json.field_of "memory" Memory (fun x b => mkExUnitsBudget x (Cpu b)) Json.dec_uint64;
      Json.field_of "cpu" Cpu (fun x b => mkExUnitsBudget (Memory b) x) Json.dec_uint64 ].

Definition dec_ExUnits : Json.decoder ExUnits :=
  Json.dec_struct "ogmigo.ExUnits"
    [ Json.field_of "validator" Validator (fun x e => mkExUnits x (Budget e)) Json.dec_string;
      Json.field_of "budget" Budget (fun x e => mkExUnits (Validator e) x) dec_ExUnitsBudget ].

(** [jsonparser.Get(data, key)]: the value under a key of the document's
    top-level object.  The library scans the bytes for the key and does not
    check the rest of the document; the model parses the document, and so
    stands for the library on inputs that are one valid document only (the
    library also finds a key in a document that is cut short after the
    value). *)
Definition jsonparser_Get (data : bytes) (key : string) : option Json.value * option error :=
  match Json.parse data with
  | Some (Json.Object ms) =>
      match find (fun kx => String.eqb (fst kx) key) ms with
      | Some (_, x) => (Some x, None)
      | None => (None, Some (New "Key path not found"))
      end
  | _ => (None, Some (New "Key path not found"))
  end.

(** [readEvaluateTx].  The message of its first error also prints the
    bytes of [data] after the wrapped error; the model keeps the message's
    text and the wrapped error. *)
Definition readEvaluateTx (data : bytes) : list ExUnits * option error :=
  match jsonparser_Get data "result" with
  | (_, Some err) => ([], Some (Errorf "failed to parse EvaluateTx response" (Some err)))
  | (None, None) => ([], Some (Errorf "failed to parser EvaluateTx response" None))
  | (Some value, None) =>
      match value with
      | Json.Array _ =>
          match
            Json.Unmarshal
              (Json.dec_slice "[]ogmigo.ExUnits" (mkExUnits "" (mkExUnitsBudget 0 0)) dec_ExUnits)
              (Json.render value) []
          with
          | (_, Some err) => ([], Some (Errorf "failed to parse EvaluateTx response" (Some err)))
          | (results, None) => (results, None)
          end
      | _ => ([], Some (Errorf "failed to parser EvaluateTx response" None))
      end
  end.

(** *** [SlotToElapsedMilliseconds] (state queries)

    The package [statequery] is not among the sources: its types
    [EraSeconds] and [EraMilliseconds] are parameters, and so is the number
    that [SlotLength.Milliseconds.Uint64()] reads from the latter. *)
Record EraBound (EraSeconds : Type) : Type := mkEraBound {
  Time : EraSeconds;
  Slot : N;
  Epoch : N
}.
Arguments mkEraBound {EraSeconds} Time Slot Epoch.
Arguments Time {EraSeconds} e.
Arguments Slot {EraSeconds} e.
Arguments Epoch {EraSeconds} e.

Record EraParameters (EraMilliseconds : Type) : Type := mkEraParameters {
  EpochLength : N;
  SlotLength : EraMilliseconds;
  SafeZone : N
}.
Arguments mkEraParameters {EraMilliseconds} EpochLength SlotLength SafeZone.
Arguments EpochLength {EraMilliseconds} e.
Arguments SlotLength {EraMilliseconds} e.
Arguments SafeZone {EraMilliseconds} e.

Record EraSummary (EraSeconds EraMilliseconds : Type) : Type := mkEraSummary {
  Start : EraBound EraSeconds;
  End_ : EraBound EraSeconds;
  Parameters : EraParameters EraMilliseconds
}.
Arguments mkEraSummary {EraSeconds EraMilliseconds} Start End_ Parameters.
Arguments Start {EraSeconds EraMilliseconds} e.
Arguments End_ {EraSeconds EraMilliseconds} e.
Arguments Parameters {EraSeconds EraMilliseconds} e.

Record EraHistory (EraSeconds EraMilliseconds : Type) : Type := mkEraHistory {
  Summaries : list (EraSummary EraSeconds EraMilliseconds)
}.
Arguments mkEraHistory {EraSeconds EraMilliseconds} Summaries.
Arguments Summaries {EraSeconds EraMilliseconds} e.

Section Eras.
Variables EraSeconds EraMilliseconds : Type.
Variable Milliseconds_Uint64 : EraMilliseconds -> N.

(** One turn of the loop: [totalMsElapsed] after the era [summary]. *)
Definition elapsed_step (slot : N) (totalMsElapsed : N)
  (summary : EraSummary EraSeconds EraMilliseconds) : N :=
  let after (intervalEnd : N) :=
    let slotsElapsedThisEra := sub64 intervalEnd (Slot (Start summary)) in
    let slotLengthMs := Milliseconds_Uint64 (SlotLength (Parameters summary)) in
    let msElapsedThisEra := mul64 slotsElapsedThisEra slotLengthMs in
    add64 totalMsElapsed msElapsedThisEra in
  if (Slot (End_ summary) <? slot)%N then after (Slot (End_ summary))
  else if (Slot (Start summary) <? slot)%N then after slot
  else totalMsElapsed.

(** [history] is a pointer: [nil] panics when its field is read. *)
Definition SlotToElapsedMilliseconds
  (history : option (EraHistory EraSeconds EraMilliseconds)) (slot : N) : outcome N :=
  match history with
  | None => Panics "invalid memory address or nil pointer dereference"
  | Some h => Returns (fold_left (elapsed_step slot) (Summaries h) 0%N)
  end.

End Eras.

End Ogmigo.

(** * The vocabulary of the statements *)

(** ** Points *)

(** A text the models of the encoders are exact for: 7-bit ASCII, and a
    length that fits a Go [int]. *)
Definition valid_text (s : string) : bool :=
  ascii_text s && (N.of_nat (String.length s) <? 2 ^ 63)%N.

Definition is_uint64 (n : N) : bool := (n <? uint64_bound)%N.

Definition valid_V6 (ps : V6.PointStruct) : bool :=
  match V6.Height ps with Some h => is_uint64 h | None => true end &&
  valid_text (V6.ID ps) && is_uint64 (V6.Slot ps).

Definition valid_V5 (ps : V5.PointStruct) : bool :=
  is_uint64 (V5.BlockNo ps) && valid_text (V5.Hash ps) && is_uint64 (V5.Slot ps).

(** A point as [PointString.Point] and [PointStruct.Point] build it. *)
Definition valid_Point {PS : Type} (valid_ps : PS -> bool) (p : Point PS) : bool :=
  match pointStruct p with
  | None => (pointType p =? PointTypeString)%Z && valid_text (pointString p)
  | Some ps =>
      (pointType p =? PointTypeStruct)%Z && String.eqb (pointString p) "" && valid_ps ps
  end.

(** The struct's attribute map has an entry: some field is not its zero value. *)
Definition populated_V6 (ps : V6.PointStruct) : bool :=
  is_some (V6.Height ps) || negb (String.eqb (V6.ID ps) "") || negb (V6.Slot ps =? 0)%N.

Definition populated_V5 (ps : V5.PointStruct) : bool :=
  negb (V5.BlockNo ps =? 0)%N || negb (String.eqb (V5.Hash ps) "") || negb (V5.Slot ps =? 0)%N.

Definition populated_Point {PS : Type} (populated_ps : PS -> bool) (p : Point PS) : bool :=
  match pointStruct p with
  | None => true
  | Some ps => populated_ps ps
  end.

(** *** The round trip

    Serializing [p] and deserializing the result into the receiver [p0]
    gives [p], in each format. *)
Definition json_roundtrip {PS : Type} (O : PointStructOps PS) (p p0 : Point PS) : Prop :=
  snd (Point_MarshalJSON O p) = None /\
  Point_UnmarshalJSON O p0 (fst (Point_MarshalJSON O p)) = Returns (p, None).

Definition cbor_roundtrip {PS : Type} (O : PointStructOps PS) (p p0 : Point PS) : Prop :=
  snd (Point_MarshalCBOR O p) = None /\
  Point_UnmarshalCBOR O p0 (fst (Point_MarshalCBOR O p)) = (p, None).

Definition attribute_roundtrip {PS : Type} (O : PointStructOps PS) (p p0 : Point PS) : Prop :=
  snd (Point_MarshalDynamoDBAttributeValue O p Dynamo.empty) = None /\
  Point_UnmarshalDynamoDBAttributeValue O p0
    (Some (fst (Point_MarshalDynamoDBAttributeValue O p Dynamo.empty))) = (p, None).

(** The struct points of [TestPoint_JSON], [TestPoint_CBOR] and
    [TestPoint_DynamoDB], and the legacy point with the same content. *)
Definition test_point : Point V6.PointStruct :=
  PointStruct_Point
    (V6.mkPointStruct (Some 123%N)
       "000102030405060708090a0b0c0d0e0f101112131415161718191a1b1c1d1e1f" 456).

Definition test_point_v5 : Point V5.PointStruct :=
  PointStruct_Point
    (V5.mkPointStruct 123
       "000102030405060708090a0b0c0d0e0f101112131415161718191a1b1c1d1e1f" 456).

(** *** The order *)

Definition is_struct {PS : Type} (p : Point PS) : bool := (pointType p =? PointTypeStruct)%Z.

(** The struct variant holds a struct: true of every point the package builds. *)
Definition well_formed {PS : Type} (p : Point PS) : bool :=
  negb (is_struct p) || is_some (pointStruct p).

(** The key a point is ordered by: its slot, or else its marker text. *)
Definition sort_key {PS : Type} (O : PointStructOps PS) (p : Point PS) : N + string :=
  match is_struct p, pointStruct p with
  | true, Some s => inl (ps_Slot O s)
  | _, _ => inr (pointString p)
  end.

(** [pp[i]] sorts before [pp[j]]. *)
Definition before {PS : Type} (O : PointStructOps PS) (a b : Point PS) : Prop :=
  Points_Less O [a; b] 0 1 = Returns true.

(** The slice of [TestPoints_Sort], "mixed": the struct points sort first,
    then the marker "2", then the marker "1". *)
Definition mixed : list (Point V6.PointStruct) :=
  [ PointString_Point "1"; PointStruct_Point (V6.mkPointStruct None "" 10);
    PointString_Point "2"; PointStruct_Point (V6.mkPointStruct None "" 10) ].

(** ** Responses *)

(** The four names a response's method may have. *)
Definition known_method (m : string) : bool :=
  String.eqb m V6.FindIntersectionMethod || String.eqb m V6.FindIntersectMethod ||
  String.eqb m V6.NextBlockMethod || String.eqb m V6.RequestNextMethod.

(** The decoders of the JSON model, a block kept as its document. *)
Definition example_envelope (b : bytes) : V6.envelope * option error :=
  Json.Unmarshal V6.dec_envelope b V6.zero_envelope.

Definition example_ResultError (b : bytes) : V6.ResultError * option error :=
  Json.Unmarshal V6.dec_ResultError b V6.zero_ResultError.

Definition example_NextBlock (b : bytes) : V6.ResultNextBlockPraos Json.value * option error :=
  Json.Unmarshal (V6.dec_ResultNextBlockPraos Json.Null (fun x _ s => Json.Go x s)) b
    V6.zero_ResultNextBlockPraos.

Definition example_response : bytes :=
  q "{'jsonrpc':'2.0','method':'submitTransaction','result':{'direction':'forward'},'id':null}".

(** ** The first request *)

(** The points of [Test_getInit] and the request it expects. *)
Definition p1 : Point V6.PointStruct := PointStruct_Point (V6.mkPointStruct None "hash" 456).

Definition p2 : Point V6.PointStruct := PointStruct_Point (V6.mkPointStruct None "hash" 654).

Definition want : bytes :=
  q "{'id':{'step':'INIT'},'jsonrpc':'2.0','method':'findIntersection','params':{'points':[{'id':'hash','slot':456}]}}".

(** ** Numbers *)

(** The response to [evaluateTransaction] for one validator. *)
Definition evaluate_result (validator : string) (memory cpu : N) : Json.value :=
  Json.Array
    [ Json.Object
        [ ("validator", Json.Str validator);
          ("budget",
           Json.Object
             [ ("memory", Json.Number (FormatUint memory));
               ("cpu", Json.Number (FormatUint cpu)) ]) ] ].

Definition evaluate_response (validator : string) (memory cpu : N) : bytes :=
  Json.render (Json.Object [("result", evaluate_result validator memory cpu)]).

(** A v5 transaction body with one withdrawal. *)
Definition withdrawal_body (account : string) (amount : N) : Json.value :=
  Json.Object [("withdrawals", Json.Object [(account, Json.Number (FormatUint amount))])].

(** The same response and the same body with the numbers written as any
    literals, and the literals that are the decimal form of a natural
    number. *)
Definition evaluate_response_of (validator lm lc : string) : bytes :=
  Json.render
    (Json.Object
       [ ("result",
          Json.Array
            [ Json.Object
                [ ("validator", Json.Str validator);
                  ("budget",
                   Json.Object [("memory", Json.Number lm); ("cpu", Json.Number lc)]) ] ]) ]).

Definition withdrawal_of (account lit : string) : Json.value :=
  Json.Object [("withdrawals", Json.Object [(account, Json.Number lit)])].

Definition decimal (lit : string) : Prop := exists n : N, lit = FormatUint n.

(** A body after a withdrawal has been stored under an account: the other
    entries of the map and the other fields are those of [body]. *)
Definition with_withdrawal {num_Int : Type} (body : V5.TxBody num_Int) (account : string)
  (z : Z) : V5.TxBody num_Int :=
  V5.mkTxBody (V5.Fee body) (V5.TimeToLive body) (V5.Validity body)
    (map_set (V5.Withdrawals body) account z) (V5.TotalCollateral body).

(** ** Transaction and asset ids *)

(** An asset id with a policy id of 56 characters and a name. *)
Definition test_asset : V5.AssetID :=
  "0123456789abcdef0123456789abcdef0123456789abcdef01234567.746f6b656e".

(** ** Eras *)

(** The milliseconds a slot count stands for in one era, as a number
    without bound: the slots of the era that lie before [slot], times the
    length of a slot. *)
Definition era_milliseconds {ES EM : Type} (ms : EM -> N) (slot : N)
  (e : Ogmigo.EraSummary ES EM) : N :=
  ((N.min slot (Ogmigo.Slot (Ogmigo.End_ e)) - N.min slot (Ogmigo.Slot (Ogmigo.Start e))) *
   ms (Ogmigo.SlotLength (Ogmigo.Parameters e)))%N.

Definition history_milliseconds {ES EM : Type} (ms : EM -> N) (slot : N)
  (h : list (Ogmigo.EraSummary ES EM)) : N :=
  fold_right (fun e acc => (era_milliseconds ms slot e + acc)%N) 0%N h.

(** An era ends no earlier than it starts, and its end is a [uint64]. *)
Definition era_ok {ES EM : Type} (e : Ogmigo.EraSummary ES EM) : Prop :=
  (Ogmigo.Slot (Ogmigo.Start e) <= Ogmigo.Slot (Ogmigo.End_ e) < 2 ^ 64)%N.

(** The first two eras of the main network: slots of 20 seconds up to slot
    4492800, slots of one second after it. *)
Definition test_history : Ogmigo.EraHistory N N :=
  Ogmigo.mkEraHistory
    [ Ogmigo.mkEraSummary (Ogmigo.mkEraBound 0 0 0) (Ogmigo.mkEraBound 89856000 4492800 208)
        (Ogmigo.mkEraParameters 21600 20000 4320);
      Ogmigo.mkEraSummary (Ogmigo.mkEraBound 89856000 4492800 208)
        (Ogmigo.mkEraBound 101952000 16588800 236)
        (Ogmigo.mkEraParameters 432000 1000 129600) ]%N.

(** ** Responses, continued *)

(** A call that panics, whatever the message. *)
Definition panics {A : Type} (o : outcome A) : Prop := exists msg, o = Panics msg.

(** An error response to [findIntersection]. *)
Definition error_response : bytes :=
  q "{'jsonrpc':'2.0','method':'findIntersection','error':{'code':1000,'message':'x'},'id':null}".

(** ** Execution units *)

(** The JSON form of execution units, as [json.Marshal] writes the struct,
    and a response that carries a list of them. *)
Definition units_json (u : Ogmigo.ExUnits) : Json.value :=
  Json.Object
    [ ("validator", Json.Str (Ogmigo.Validator u));
      ("budget",
       Json.Object
         [ ("memory", Json.Number (FormatUint (Ogmigo.Memory (Ogmigo.Budget u))));
           ("cpu", Json.Number (FormatUint (Ogmigo.Cpu (Ogmigo.Budget u)))) ]) ].

Definition units_response (us : list Ogmigo.ExUnits) : bytes :=
  Json.render (Json.Object [("result", Json.Array (map units_json us))]).

(** Units whose validator is 7-bit text and whose budget fits [uint64]. *)
Definition valid_units (u : Ogmigo.ExUnits) : bool :=
  ascii_text (Ogmigo.Validator u) && is_uint64 (Ogmigo.Memory (Ogmigo.Budget u)) &&
  is_uint64 (Ogmigo.Cpu (Ogmigo.Budget u)).

(** The first member of an object under a key. *)
Definition member (ms : list (string * Json.value)) (key : string) : option Json.value :=
  match find (fun kx => String.eqb (fst kx) key) ms with
  | Some (_, x) => Some x
  | None => None
  end.

Definition is_array (x : Json.value) : bool :=
  match x with Json.Array _ => true | _ => false end.

(** ** Values *)

(** The entry of a map under a key, if there is one, and the maps that hold
    one entry per key, as every Go map does. *)
Definition map_find {V : Type} (m : list (string * V)) (k : string) : option V :=
  match find (fun kv => String.eqb (fst kv) k) m with
  | Some (_, v) => Some v
  | None => None
  end.

Definition unique_keys {V : Type} (m : list (string * V)) : Prop := NoDup (map fst m).

(** Two values with amounts in [Z], for worked examples. *)
Definition value_a : V5.Value Z := V5.mkValue Z 5%Z [("aa.01", 1%Z); ("bb.02", 2%Z)].
Definition value_b : V5.Value Z := V5.mkValue Z 7%Z [("bb.02", 10%Z); ("cc.03", 3%Z)].
Definition value_c : V5.Value Z := V5.mkValue Z 5%Z [("bb.02", 2%Z); ("dd.04", 0%Z); ("aa.01", 1%Z)].

(** ** Datums *)

(** A text that [hex.DecodeString] accepts. *)
Definition is_hex (s : string) : bool :=
  match hex_DecodeString s with Some _ => true | None => false end.

(** The document of a map of texts. *)
Definition datums_json (ms : list (string * string)) : bytes :=
  Json.render (Json.Object (map (fun kv => (fst kv, Json.Str (snd kv))) ms)).

Definition is_string (x : Json.value) : bool :=
  match x with Json.Str _ => true | _ => false end.

(** The datum of [TestVasil_DatumParsing_Hex] and of
    [TestVasil_DatumParsing_Base64], and a stand-in for
    [base64.StdEncoding.DecodeString] that reads the second and refuses
    every other text. *)
Definition test_datum_hex : string :=
  "d8799f581cc86e835a1b093aa81610fd3935f463ce529929cded8b75f7b51ce644429c0aff".

Definition test_datum_base64 : string :=
  "2HmfWBzIboNaGwk6qBYQ/Tk19GPOUpkpze2Ldfe1HOZEQpwK/w==".

Definition test_base64_DecodeString (s : string) : bytes * option error :=
  if String.eqb s test_datum_base64
  then (match hex_DecodeString test_datum_hex with Some b => b | None => "" end, None)
  else ("", Some (New "illegal base64 data")).

Definition test_Sprint (x : Json.value) : string := Json.render x.

(** * Facts *)

(** ** Texts *)

Lemma append_assoc (a b c : string) : (a ++ b) ++ c = a ++ (b ++ c).
Proof. induction a as [|x a IH]; simpl; [reflexivity | now rewrite IH]. Qed.

Lemma append_nil_r (a : string) : a ++ "" = a.
Proof. induction a as [|x a IH]; simpl; [reflexivity | now rewrite IH]. Qed.

Lemma length_append (a b : string) :
  String.length (a ++ b) = String.length a + String.length b.
Proof. induction a as [|x a IH]; simpl; [reflexivity | now rewrite IH]. Qed.

(** ** Decimal numerals *)

Lemma string_of_uint_digits d : all_digits (NilEmpty.string_of_uint d) = true.
Proof. induction d; simpl; auto. Qed.

Lemma nzhead_shape d :
  Decimal.nzhead d = Decimal.Nil \/
  exists c ds, NilEmpty.string_of_uint (Decimal.nzhead d) = String c ds /\
               is_digit c = true /\ Ascii.eqb c "0" = false /\ all_digits ds = true.
Proof.
  induction d; simpl; auto;
    right; eexists; eexists; (split; [reflexivity|]);
    repeat split; apply string_of_uint_digits.
Qed.

Lemma to_uint_unorm n : N.to_uint n = Decimal.unorm (N.to_uint n).
Proof.
  pose proof (DecimalN.Unsigned.to_of (N.to_uint n)) as E.
  now rewrite DecimalN.Unsigned.of_to in E.
Qed.

(** A formatted number is "0" or starts with a digit other than 0. *)
Lemma FormatUint_shape n :
  FormatUint n = "0" \/
  exists c ds, FormatUint n = String c ds /\
               is_digit c = true /\ Ascii.eqb c "0" = false /\ all_digits ds = true.
Proof.
  unfold FormatUint. rewrite to_uint_unorm. unfold Decimal.unorm.
  destruct (nzhead_shape (N.to_uint n)) as [H | (c & ds & H & Hc & H0 & Hd)].
  - left. now rewrite H.
  - right. exists c, ds. split; [|auto].
    destruct (Decimal.nzhead (N.to_uint n)); simpl in *; first [exact H | discriminate H].
Qed.

Lemma ParseUint_FormatUint bound n :
  (n < bound)%N -> ParseUint bound (FormatUint n) = Some n.
Proof.
  intros Hn. unfold ParseUint, FormatUint.
  rewrite NilZero.usu.
  - rewrite DecimalN.Unsigned.of_to.
    apply N.ltb_lt in Hn. now rewrite Hn.
  - rewrite to_uint_unorm. apply unorm_nonnil.
Qed.

(** ** The JSON model: parsing undoes rendering *)
Module JsonFacts.
Import Json.

Lemma prepend_nil A (o : option (string * A)) : prepend "" o = o.
Proof. destruct o as [[x r]|]; reflexivity. Qed.

Lemma parse_chars_escape_char c tail :
  is_ascii c = true ->
  parse_chars None (escape_char c ++ tail) = prepend (String c "") (parse_chars None tail).
Proof.
  destruct c as [b0 b1 b2 b3 b4 b5 b6 b7].
  destruct b7; [destruct b0, b1, b2, b3, b4, b5, b6; discriminate|].
  intros _.
  destruct b0, b1, b2, b3, b4, b5, b6; reflexivity.
Qed.

(** A quoted ASCII text is read back as it was. *)
Lemma parse_chars_escape s rest :
  ascii_text s = true ->
  parse_chars None (escape s ++ String dquote rest) = Some (s, rest).
Proof.
  induction s as [|c s IH]; intros H.
  - reflexivity.
  - simpl in H. apply andb_prop in H as [Hc Hs].
    simpl escape. rewrite append_assoc, parse_chars_escape_char, IH by assumption.
    reflexivity.
Qed.

Lemma delimited_head c r :
  delimited (String c r) = true ->
  is_digit c = false /\ is_ws c = false /\ Ascii.eqb c "." = false /\
  Ascii.eqb c "e" = false /\ Ascii.eqb c "E" = false.
Proof.
  simpl. intros H.
  apply orb_prop in H as [H | H]; [apply orb_prop in H as [H | H]|];
    apply Ascii.eqb_eq in H; subst c; repeat split; reflexivity.
Qed.

Lemma digit_head c :
  is_digit c = true ->
  is_ws c = false /\ Ascii.eqb c dquote = false /\ Ascii.eqb c "[" = false /\
  Ascii.eqb c "{" = false /\ Ascii.eqb c "n" = false /\ Ascii.eqb c "t" = false /\
  Ascii.eqb c "f" = false /\ Ascii.eqb c "-" = false /\
  Ascii.eqb c "]" = false /\ Ascii.eqb c "}" = false.
Proof.
  destruct c as [b0 b1 b2 b3 b4 b5 b6 b7].
  destruct b0, b1, b2, b3, b4, b5, b6, b7; intros H; try discriminate H;
    repeat split; reflexivity.
Qed.

Lemma span_digits_app ds rest :
  all_digits ds = true -> delimited rest = true ->
  span_digits (ds ++ rest) = (ds, rest).
Proof.
  intros Hd Hr. induction ds as [|c ds IH]; simpl in *.
  - destruct rest as [|c r]; [reflexivity|].
    apply delimited_head in Hr as (Hr & _). simpl. now rewrite Hr.
  - apply andb_prop in Hd as [Hc Hd]. now rewrite Hc, IH.
Qed.

Lemma scan_frac_delimited rest : delimited rest = true -> scan_frac rest = Some ("", rest).
Proof.
  destruct rest as [|c r]; [reflexivity|]. intros H.
  apply delimited_head in H as (_ & _ & H & _). simpl. now rewrite H.
Qed.

Lemma scan_exp_delimited rest : delimited rest = true -> scan_exp rest = Some ("", rest).
Proof.
  destruct rest as [|c r]; [reflexivity|]. intros H.
  apply delimited_head in H as (_ & _ & _ & H1 & H2). simpl. now rewrite H1, H2.
Qed.

Lemma FormatUint_literal n : number_literal (FormatUint n).
Proof.
  destruct (FormatUint_shape n) as [E | (c & ds & E & Hc & H0 & Hd)]; rewrite E.
  - split; [exists "0"%char, ""; auto|].
    intros rest Hr. simpl. unfold scan_unsigned. simpl.
    now rewrite (scan_frac_delimited _ Hr), (scan_exp_delimited _ Hr).
  - split; [exists c, ds; auto|].
    intros rest Hr.
    destruct (digit_head c Hc) as (_ & _ & _ & _ & _ & _ & _ & Hm & _).
    simpl. rewrite Hm. unfold scan_unsigned. simpl.
    rewrite H0, Hc, (span_digits_app _ _ Hd Hr).
    rewrite (scan_frac_delimited _ Hr), (scan_exp_delimited _ Hr).
    simpl. now rewrite append_nil_r.
Qed.

(** Induction on a value, with the property known of every element. *)
Lemma value_rect' (P : value -> Prop) :
  P Null -> (forall b, P (Bool b)) -> (forall l, P (Number l)) -> (forall s, P (Str s)) ->
  (forall l, Forall P l -> P (Array l)) ->
  (forall m, Forall (fun kx => P (snd kx)) m -> P (Object m)) ->
  forall v, P v.
Proof.
  intros HN HB HNu HS HA HO.
  fix IH 1. intros [ | b | l | s | l | m ].
  - exact HN.
  - apply HB.
  - apply HNu.
  - apply HS.
  - apply HA. induction l as [|x l IHl]; constructor; [apply IH | exact IHl].
  - apply HO. induction m as [|[k x] m IHm]; constructor; [apply IH | exact IHm].
Qed.

Lemma render_opens v rest : wf v -> opens (render v ++ rest).
Proof.
  intros H. destruct H as [ | [] | lit [(c & r & E & Hc) _] | s _ | l _ | m _ ]; simpl;
    try (eexists; eexists; split; [reflexivity|]; repeat split; reflexivity).
  subst lit. exists c, (r ++ rest). split; [reflexivity|].
  destruct Hc as [Hc | ->]; [|repeat split; reflexivity].
  destruct (digit_head c Hc) as (? & _ & _ & _ & _ & _ & _ & _ & ? & ?). auto.
Qed.

Lemma skip_ws_opens s : opens s -> skip_ws s = s.
Proof. intros (c & r & -> & H & _). simpl. now rewrite H. Qed.

Lemma skip_ws_delim c r :
  Ascii.eqb c "," || Ascii.eqb c "]" || Ascii.eqb c "}" || Ascii.eqb c ":" = true ->
  skip_ws (String c r) = String c r.
Proof.
  intros H. simpl.
  repeat (apply orb_prop in H as [H | H]); apply Ascii.eqb_eq in H; subst c; reflexivity.
Qed.

Lemma render_Array_cons x l : render (Array (x :: l)) = "[" ++ render x ++ more_elems l.
Proof.
  reflexivity.
Qed.

Lemma render_Object_cons k x l :
  render (Object ((k, x) :: l)) = "{" ++ quote k ++ ":" ++ render x ++ more_members l.
Proof.
  reflexivity.
Qed.

Lemma more_elems_delimited l rest : delimited (more_elems l ++ rest) = true.
Proof. destruct l; reflexivity. Qed.

Lemma more_members_delimited l rest : delimited (more_members l ++ rest) = true.
Proof. destruct l as [|[k y] l]; reflexivity. Qed.

Section Elements.
Variable f : nat.
Let P (x : value) : Prop :=
  wf x -> forall fuel rest, weight x <= fuel -> delimited rest = true ->
  parse_value fuel (render x ++ rest) = Some (x, rest).

Lemma parse_elems_render l : forall x n rest,
  Forall P (x :: l) -> Forall wf (x :: l) ->
  weight x + sum_weight l <= f -> length l < n -> delimited rest = true ->
  parse_elems (parse_value f) n (render x ++ more_elems l ++ rest) = Some (x :: l, rest).
Proof.
  induction l as [|y l IH]; intros x n rest HP Hwf Hw Hn Hr;
    destruct n as [|n]; try lia; simpl parse_elems;
    inversion HP as [|? ? Px HP']; inversion Hwf as [|? ? Wx Hwf']; subst.
  - rewrite (Px Wx) by (simpl; auto; lia). reflexivity.
  - rewrite (Px Wx) by (auto using more_elems_delimited; simpl in Hw; lia).
    simpl more_elems. rewrite !append_assoc. simpl.
    rewrite IH; auto; simpl in *; lia.
Qed.

Lemma parse_members_render l : forall k x n rest,
  Forall (fun kx => P (snd kx)) ((k, x) :: l) ->
  Forall (fun kx => ascii_text (fst kx) = true /\ wf (snd kx)) ((k, x) :: l) ->
  weight x + sum_weight_members l <= f -> length l < n -> delimited rest = true ->
  parse_members (parse_value f) n (quote k ++ ":" ++ render x ++ more_members l ++ rest)
  = Some ((k, x) :: l, rest).
Proof.
  induction l as [|[k' y] l IH]; intros k x n rest HP Hwf Hw Hn Hr;
    destruct n as [|n]; try lia;
    inversion HP as [|? ? Px HP']; inversion Hwf as [|? ? [Kx Wx] Hwf']; subst;
    simpl in Px, Kx, Wx;
    unfold quote; simpl;
    rewrite !append_assoc; simpl; rewrite (parse_chars_escape _ _ Kx); simpl.
  - rewrite (Px Wx) by (simpl; auto; lia). reflexivity.
  - rewrite (Px Wx) by (auto using more_members_delimited; simpl in Hw; lia).
    simpl.
    specialize (IH k' y n rest HP' Hwf').
    unfold quote in IH. simpl in IH. rewrite !append_assoc in IH. simpl in IH.
    rewrite !append_assoc. simpl.
    rewrite IH; auto; simpl in *; lia.
Qed.
End Elements.

Lemma length_le_sum_weight l : length l <= sum_weight l.
Proof. induction l; simpl; lia. Qed.

Lemma length_le_sum_weight_members l : length l <= sum_weight_members l.
Proof. induction l; simpl; lia. Qed.

Lemma parse_value_object f k body :
  parse_value (S f) ("{" ++ quote k ++ body) =
  match parse_members (parse_value f) f (quote k ++ body) with
  | Some (ms, rest) => Some (Object ms, rest)
  | None => None
  end.
Proof. reflexivity. Qed.

(** The parser reads a rendered value back, and leaves what follows it,
    whenever the fuel covers the value's weight. *)
Theorem parse_value_render v :
  wf v -> forall fuel rest, weight v <= fuel -> delimited rest = true ->
  parse_value fuel (render v ++ rest) = Some (v, rest).
Proof.
  induction v as [ | b | lit | s | l IH | m IH ] using value_rect';
    intros Hwf fuel rest Hf Hr; (destruct fuel as [|f]; [simpl in Hf; lia|]).
  - reflexivity.
  - destruct b; reflexivity.
  - inversion Hwf as [ | | ? [(c & r & E & Hc) Hs] | | | ]; subst.
    specialize (Hs rest Hr). simpl render in *. simpl in Hs |- *.
    destruct Hc as [Hc | ->].
    + destruct (digit_head c Hc) as (H1 & H2 & H3 & H4 & H5 & H6 & H7 & H8 & _).
      rewrite H1, H2, H3, H4, H5, H6, H7.
      rewrite H8 in Hs. now rewrite H8, Hs.
    + simpl. simpl in Hs. now rewrite Hs.
  - inversion Hwf; subst. simpl.
    rewrite append_assoc. simpl. now rewrite parse_chars_escape.
  - inversion Hwf as [ | | | | ? Hl | ]; subst.
    destruct l as [|x l]; [reflexivity|].
    rewrite render_Array_cons. rewrite !append_assoc.
    change ("[" ++ render x ++ more_elems l ++ rest)
      with (String "[" (render x ++ more_elems l ++ rest)).
    assert (Ho : opens (render x ++ more_elems l ++ rest))
      by (apply render_opens; now inversion Hl).
    simpl parse_value. rewrite (skip_ws_opens _ Ho).
    destruct Ho as (c & r & E & _ & Hc & _). rewrite E. rewrite Hc. rewrite <- E.
    simpl in Hf.
    pose proof (length_le_sum_weight l).
    rewrite (parse_elems_render f); auto; unfold sum_weight in *; lia.
  - inversion Hwf as [ | | | | | ? Hm ]; subst.
    destruct m as [|[k x] m]; [reflexivity|].
    rewrite render_Object_cons. rewrite !append_assoc.
    rewrite (parse_value_object f k).
    simpl in Hf.
    pose proof (length_le_sum_weight_members m).
    rewrite (parse_members_render f); auto; unfold sum_weight_members in *; lia.
Qed.

Lemma weight_le_length v : wf v -> weight v <= String.length (render v).
Proof.
  induction v as [ | b | lit | s | l IH | m IH ] using value_rect'; intros Hwf.
  - simpl. lia.
  - destruct b; simpl; lia.
  - inversion Hwf as [ | | ? [(c & r & E & _) _] | | | ]; subst. simpl. lia.
  - simpl. lia.
  - inversion Hwf as [ | | | | ? Hl | ]; subst.
    destruct l as [|x l]; [simpl; lia|].
    rewrite render_Array_cons. simpl weight. simpl String.length.
    rewrite length_append.
    inversion IH as [|? ? Hx IH']; inversion Hl as [|? ? Wx Hl']; subst.
    specialize (Hx Wx).
    assert (sum_weight l < String.length (more_elems l)).
    { clear - IH' Hl'. induction l as [|y l IHl]; simpl; [lia|].
      inversion IH' as [|? ? Hy IH'']; inversion Hl' as [|? ? Wy Hl'']; subst.
      rewrite length_append. specialize (Hy Wy). specialize (IHl IH'' Hl''). lia. }
    unfold sum_weight in *. lia.
  - inversion Hwf as [ | | | | | ? Hm ]; subst.
    destruct m as [|[k x] m]; [simpl; lia|].
    rewrite render_Object_cons. simpl weight. simpl String.length.
    rewrite !length_append.
    inversion IH as [|? ? Hx IH']; inversion Hm as [|? ? [_ Wx] Hm']; subst.
    specialize (Hx Wx). simpl in Hx.
    assert (sum_weight_members m < String.length (more_members m)).
    { clear - IH' Hm'. induction m as [|[k' y] m IHm]; simpl; [lia|].
      inversion IH' as [|? ? Hy IH'']; inversion Hm' as [|? ? [_ Wy] Hm'']; subst.
      rewrite !length_append. specialize (Hy Wy). specialize (IHm IH'' Hm'').
      simpl in Hy. simpl String.length. rewrite !length_append. lia. }
    unfold sum_weight_members in *. simpl. rewrite !length_append. lia.
Qed.

(** [json.Unmarshal] reads back what [json.Marshal] wrote. *)
Theorem parse_render v : wf v -> parse (render v) = Some v.
Proof.
  intros Hwf. unfold parse.
  rewrite <- (append_nil_r (render v)) at 2.
  rewrite parse_value_render; auto.
  pose proof (weight_le_length v Hwf). lia.
Qed.

End JsonFacts.

(** ** The CBOR model: decoding undoes encoding *)
Module CborFacts.
Import Cbor.

(** Reading the big-endian bytes of a number gives the number. *)
Lemma be_read_be k : forall j acc n tail,
  (n < 256 ^ N.of_nat k)%N ->
  be_read (k + j) acc (be k n ++ tail) = be_read j (acc * 256 ^ N.of_nat k + n)%N tail.
Proof.
  induction k as [|k IH]; intros j acc n tail Hn.
  - simpl in *. f_equal. lia.
  - simpl be. rewrite append_assoc.
    replace (S k + j)%nat with (k + S j)%nat by lia.
    assert (Hq : (n / 256 < 256 ^ N.of_nat k)%N).
    { apply N.Div0.div_lt_upper_bound.
      rewrite Nat2N.inj_succ, N.pow_succ_r' in Hn. lia. }
    rewrite IH by exact Hq.
    rewrite Nat2N.inj_succ, N.pow_succ_r'.
    cbn [be_read append]. f_equal.
    rewrite N_ascii_embedding by (apply N.mod_lt; lia).
    pose proof (N.div_mod n 256 ltac:(lia)). nia.
Qed.

Lemma be_read_exact k n tail :
  (n < 256 ^ N.of_nat k)%N -> be_read k 0 (be k n ++ tail) = Some (n, tail).
Proof.
  intros Hn. pose proof (be_read_be k 0 0 n tail Hn) as H.
  rewrite Nat.add_0_r in H. rewrite H. reflexivity.
Qed.

Lemma head_byte major info :
  (major < 8)%N -> (info < 32)%N ->
  let b := N_of_ascii (ascii_of_N (major * 32 + info)) in
  (b / 32 = major /\ b mod 32 = info)%N.
Proof.
  intros Hm Hi b. subst b.
  rewrite N_ascii_embedding by lia.
  split.
  - symmetry. apply (N.div_unique _ 32 major info); lia.
  - symmetry. apply (N.mod_unique _ 32 major info); lia.
Qed.

Lemma read_head_long major info k n rest :
  (major < 8)%N ->
  (info, k) = (24%N, 1) \/ (info, k) = (25%N, 2) \/ (info, k) = (26%N, 4) \/
  (info, k) = (27%N, 8) ->
  (n < 256 ^ N.of_nat k)%N ->
  read_head (String (ascii_of_N (major * 32 + info)) (be k n ++ rest)) = Some (major, n, rest).
Proof.
  intros Hm Hk Hn. unfold read_head.
  assert (Hi : (info < 32)%N) by (destruct Hk as [E|[E|[E|E]]]; inversion E; lia).
  destruct (head_byte major info Hm Hi) as [-> ->].
  destruct Hk as [E|[E|[E|E]]]; inversion E; subst;
    cbv beta iota zeta delta [N.ltb N.eqb N.compare Pos.compare Pos.compare_cont Pos.eqb];
    now rewrite be_read_exact.
Qed.

(** The head of an item is read back: its major type and its argument. *)
Lemma read_head_head major n rest :
  (major < 8)%N -> (n < 2 ^ 64)%N ->
  read_head (head major n ++ rest) = Some (major, n, rest).
Proof.
  intros Hm Hn. unfold head.
  destruct (N.ltb_spec n 24).
  { cbn [append]. unfold read_head.
    destruct (head_byte major n Hm ltac:(lia)) as [-> ->].
    apply N.ltb_lt in H. now rewrite H. }
  destruct (N.ltb_spec n 256).
  { cbn [append]. apply read_head_long; auto 6; simpl; lia. }
  destruct (N.ltb_spec n 65536).
  { cbn [append]. apply read_head_long; auto 6; simpl; lia. }
  destruct (N.ltb_spec n 4294967296).
  { cbn [append]. apply read_head_long; auto 6; simpl; lia. }
  cbn [append]. apply read_head_long; auto 6; simpl; lia.
Qed.

Lemma take_append s rest : take (N.of_nat (String.length s)) (s ++ rest) = Some (s, rest).
Proof.
  induction s as [|c s IH].
  - simpl. destruct rest; reflexivity.
  - simpl String.length. simpl append. cbn [take].
    destruct (N.eqb_spec (N.of_nat (S (String.length s))) 0); [lia|].
    replace (N.of_nat (S (String.length s)) - 1)%N with (N.of_nat (String.length s)) by lia.
    now rewrite IH.
Qed.

Lemma encode_Map es :
  encode (Map es) = head 5 (N.of_nat (List.length es)) ++ all_pairs es.
Proof. reflexivity. Qed.

(** Induction on an item, with the property known of every key and value. *)
Lemma item_rect' (P : item -> Prop) :
  (forall n, P (UInt n)) -> (forall s, P (Text s)) ->
  (forall es, Forall (fun kv => P (fst kv) /\ P (snd kv)) es -> P (Map es)) ->
  P Nil -> forall x, P x.
Proof.
  intros HU HT HM HN.
  fix IH 1. intros [ n | s | es | ].
  - apply HU.
  - apply HT.
  - apply HM. induction es as [|[k v] es IHes]; constructor; [split; apply IH | exact IHes].
  - exact HN.
Qed.

Section Pairs.
Variable f : nat.
Let P (x : item) : Prop :=
  wf x -> forall fuel rest, weight x <= fuel ->
  decode_item fuel (encode x ++ rest) = Some (x, rest).

Lemma decode_pairs_encode es : forall n rest,
  Forall (fun kv => P (fst kv) /\ P (snd kv)) es ->
  Forall (fun kv => wf (fst kv) /\ wf (snd kv)) es ->
  sum_weight es <= f -> List.length es <= n ->
  decode_pairs (decode_item f) n (N.of_nat (List.length es)) (all_pairs es ++ rest)
  = Some (es, rest).
Proof.
  induction es as [|[k v] es IH]; intros n rest HP Hwf Hw Hn.
  - destruct n; reflexivity.
  - destruct n as [|n]; [simpl in Hn; lia|].
    inversion HP as [|? ? [Pk Pv] HP']; inversion Hwf as [|? ? [Wk Wv] Hwf']; subst.
    simpl in Pk, Pv, Wk, Wv, Hw, Hn.
    cbn [decode_pairs List.length].
    destruct (N.eqb_spec (N.of_nat (S (List.length es))) 0); [lia|].
    cbn [all_pairs]. rewrite !append_assoc.
    rewrite (Pk Wk) by lia. rewrite (Pv Wv) by lia.
    replace (N.of_nat (S (List.length es)) - 1)%N with (N.of_nat (List.length es)) by lia.
    rewrite IH; auto; unfold sum_weight in *; lia.
Qed.
End Pairs.

Lemma weight_pos x : 1 <= weight x.
Proof. destruct x; simpl; lia. Qed.

Lemma pairs_le_sum_weight es : List.length es <= sum_weight es.
Proof.
  induction es as [|[k v] es IH]; simpl; [lia|].
  pose proof (weight_pos k). lia.
Qed.

(** The decoder reads an encoded item back, and leaves what follows it,
    whenever the fuel covers the item's weight. *)
Theorem decode_item_encode x :
  wf x -> forall fuel rest, weight x <= fuel ->
  decode_item fuel (encode x ++ rest) = Some (x, rest).
Proof.
  induction x as [ n | s | es IH | ] using item_rect';
    intros Hwf fuel rest Hf; (destruct fuel as [|f]; [simpl in Hf; lia|]).
  - inversion Hwf; subst. cbn [decode_item encode].
    rewrite read_head_head by (auto; lia). reflexivity.
  - inversion Hwf; subst. cbn [decode_item encode]. rewrite append_assoc.
    rewrite read_head_head by (auto; lia).
    cbn [N.eqb]. now rewrite take_append.
  - inversion Hwf as [ | | ? Hlen Hes | ]; subst.
    rewrite encode_Map, append_assoc. cbn [decode_item].
    rewrite read_head_head by (auto; lia).
    cbn [N.eqb Pos.eqb].
    pose proof (pairs_le_sum_weight es). simpl in Hf.
    rewrite (decode_pairs_encode f); auto; unfold sum_weight in *; lia.
  - reflexivity.
Qed.

Lemma weight_le_encoding x : wf x -> weight x <= String.length (encode x).
Proof.
  induction x as [ n | s | es IH | ] using item_rect'; intros Hwf.
  - simpl. unfold head. repeat (destruct (_ <? _)%N); simpl; lia.
  - simpl. rewrite length_append. unfold head.
    repeat (destruct (_ <? _)%N); simpl; lia.
  - inversion Hwf as [ | | ? Hlen Hes | ]; subst.
    rewrite encode_Map, length_append. simpl weight.
    assert (String.length (head 5 (N.of_nat (List.length es))) >= 1)
      by (unfold head; repeat (destruct (_ <? _)%N); simpl; lia).
    assert (sum_weight es <= String.length (all_pairs es)).
    { clear - IH Hes. induction es as [|[k v] es IHes]; simpl; [lia|].
      inversion IH as [|? ? [Hk Hv] IH']; inversion Hes as [|? ? [Wk Wv] Hes']; subst.
      rewrite !length_append. specialize (Hk Wk). specialize (Hv Wv).
      specialize (IHes IH' Hes'). simpl in *.
      unfold sum_weight in *. lia. }
    unfold sum_weight in *. lia.
  - simpl. lia.
Qed.

(** [cbor.Unmarshal] reads back what [cbor.Marshal] wrote. *)
Theorem decode_encode x : wf x -> decode (encode x) = Some x.
Proof.
  intros Hwf. unfold decode.
  rewrite <- (append_nil_r (encode x)) at 2.
  rewrite decode_item_encode; auto.
  pose proof (weight_le_encoding x Hwf). lia.
Qed.

End CborFacts.

(** ** The struct codecs of both generations *)
Module StructFacts.

Lemma valid_text_ascii s : valid_text s = true -> ascii_text s = true.
Proof. unfold valid_text. intros H. now apply andb_prop in H. Qed.

Lemma valid_text_length s :
  valid_text s = true -> (N.of_nat (String.length s) < 2 ^ 64)%N.
Proof.
  unfold valid_text. intros H. apply andb_prop in H as [_ H].
  apply N.ltb_lt in H. change (2 ^ 64)%N with (2 * 2 ^ 63)%N. lia.
Qed.

Lemma is_uint64_lt n : is_uint64 n = true -> (n < 2 ^ 64)%N.
Proof. unfold is_uint64, uint64_bound. apply N.ltb_lt. Qed.

Lemma ParseUint64_FormatUint n :
  is_uint64 n = true -> ParseUint uint64_bound (FormatUint n) = Some n.
Proof. intros H. apply ParseUint_FormatUint. now apply N.ltb_lt. Qed.

Ltac split_valid H :=
  repeat match type of H with
         | (_ && _) = true => let H' := fresh "V" in apply andb_prop in H as [H H']
         end.

Ltac cases_of_fields :=
  repeat match goal with
         | |- context [String.eqb ?s ""] => is_var s; destruct s
         | |- context [(?n =? 0)%N] => is_var n; destruct (N.eqb_spec n 0); [subst n|]
         | o : option N |- _ => destruct o
         end.

Lemma wf_omit_string k s :
  ascii_text k = true -> ascii_text s = true -> Forall Json.wf_member (Json.omit_string k s).
Proof.
  intros Hk Hs. unfold Json.omit_string. destruct (String.eqb s ""); constructor; auto.
  split; [exact Hk | now constructor].
Qed.

Lemma wf_omit_uint k n : ascii_text k = true -> Forall Json.wf_member (Json.omit_uint k n).
Proof.
  intros Hk. unfold Json.omit_uint. destruct (n =? 0)%N; constructor; auto.
  split; [exact Hk | constructor; apply JsonFacts.FormatUint_literal].
Qed.

Lemma wf_omit_ptr_uint k o : ascii_text k = true -> Forall Json.wf_member (Json.omit_ptr_uint k o).
Proof.
  intros Hk. destruct o; constructor; auto.
  split; [exact Hk | constructor; apply JsonFacts.FormatUint_literal].
Qed.

Lemma V6_json_wf ps : valid_V6 ps = true -> Json.wf (ps_json V6.ops ps).
Proof.
  destruct ps as [h i s]. unfold valid_V6. simpl. intros H. split_valid H.
  constructor. fold Json.wf_member. rewrite !Forall_app.
  auto using wf_omit_string, wf_omit_uint, wf_omit_ptr_uint, valid_text_ascii.
Qed.

Lemma V5_json_wf ps : valid_V5 ps = true -> Json.wf (ps_json V5.ops ps).
Proof.
  destruct ps as [b h s]. unfold valid_V5. simpl. intros H. split_valid H.
  constructor. fold Json.wf_member. rewrite !Forall_app.
  auto using wf_omit_string, wf_omit_uint, valid_text_ascii.
Qed.

(** Decoding the document of a struct gives the struct back. *)
Lemma V6_json_dec ps :
  valid_V6 ps = true ->
  ps_json_dec V6.ops (ps_json V6.ops ps) (ps_zero V6.ops) None = Json.Go ps None.
Proof.
  destruct ps as [h i s]. unfold valid_V6. simpl. intros H. split_valid H.
  unfold Json.omit_ptr_uint, Json.omit_string, Json.omit_uint.
  destruct h as [h|]; destruct i as [|c i]; destruct (N.eqb_spec s 0) as [->|Hs];
    cbn -[ParseUint FormatUint];
    rewrite ?ParseUint64_FormatUint by assumption; reflexivity.
Qed.

Lemma V5_json_dec ps :
  valid_V5 ps = true ->
  ps_json_dec V5.ops (ps_json V5.ops ps) (ps_zero V5.ops) None = Json.Go ps None.
Proof.
  destruct ps as [b h s]. unfold valid_V5. simpl. intros H. split_valid H.
  unfold Json.omit_string, Json.omit_uint.
  destruct (N.eqb_spec b 0) as [->|Hb]; destruct h as [|c h];
    destruct (N.eqb_spec s 0) as [->|Hs];
    cbn -[ParseUint FormatUint];
    rewrite ?ParseUint64_FormatUint by assumption; reflexivity.
Qed.

Lemma wf_cbor_omit_string k s :
  Cbor.wf k -> valid_text s = true -> Forall Cbor.wf_entry (Cbor.omit_string k s).
Proof.
  intros Hk Hs. unfold Cbor.omit_string. destruct (String.eqb s ""); constructor; auto.
  split; [exact Hk | constructor; now apply valid_text_length].
Qed.

Lemma wf_cbor_omit_uint k n :
  Cbor.wf k -> is_uint64 n = true -> Forall Cbor.wf_entry (Cbor.omit_uint k n).
Proof.
  intros Hk Hn. unfold Cbor.omit_uint. destruct (n =? 0)%N; constructor; auto.
  split; [exact Hk | constructor; now apply is_uint64_lt].
Qed.

Lemma wf_cbor_omit_ptr {T} k (enc : T -> Cbor.item) o :
  Cbor.wf k -> (forall t, o = Some t -> Cbor.wf (enc t)) ->
  Forall Cbor.wf_entry (Cbor.omit_ptr k enc o).
Proof.
  intros Hk Ho. destruct o; constructor; auto. split; [exact Hk | now apply Ho].
Qed.

Lemma wf_short_key k :
  (N.of_nat (String.length k) <? 24)%N = true -> Cbor.wf (Cbor.Text k).
Proof. intros H. apply N.ltb_lt in H. constructor. lia. Qed.

Lemma length_lt_3 {A} (a b c : list A) :
  List.length a <= 1 -> List.length b <= 1 -> List.length c <= 1 ->
  (N.of_nat (List.length (a ++ b ++ c)) < 2 ^ 64)%N.
Proof.
  intros. rewrite !length_app.
  assert (N.of_nat (List.length a + (List.length b + List.length c)) <= 3)%N by lia.
  assert (3 < 2 ^ 64)%N by reflexivity. lia.
Qed.

Lemma V6_cbor_wf ps : valid_V6 ps = true -> Cbor.wf (ps_cbor V6.ops ps).
Proof.
  destruct ps as [h i s]. unfold valid_V6. simpl. intros H. split_valid H.
  constructor.
  - apply length_lt_3.
    + destruct h; simpl; lia.
    + unfold Cbor.omit_string. destruct (String.eqb i ""); simpl; lia.
    + unfold Cbor.omit_uint. destruct (s =? 0)%N; simpl; lia.
  - fold Cbor.wf_entry. rewrite !Forall_app. repeat split.
    + apply wf_cbor_omit_ptr; [now apply wf_short_key|].
      intros t ->. constructor. now apply is_uint64_lt.
    + apply wf_cbor_omit_string; [now apply wf_short_key | assumption].
    + apply wf_cbor_omit_uint; [now apply wf_short_key | assumption].
Qed.

Lemma V5_cbor_wf ps : valid_V5 ps = true -> Cbor.wf (ps_cbor V5.ops ps).
Proof.
  destruct ps as [b h s]. unfold valid_V5. simpl. intros H. split_valid H.
  constructor.
  - apply length_lt_3.
    + unfold Cbor.omit_uint. destruct (b =? 0)%N; simpl; lia.
    + unfold Cbor.omit_string. destruct (String.eqb h ""); simpl; lia.
    + unfold Cbor.omit_uint. destruct (s =? 0)%N; simpl; lia.
  - fold Cbor.wf_entry. rewrite !Forall_app. repeat split.
    + apply wf_cbor_omit_uint; [now apply wf_short_key | assumption].
    + apply wf_cbor_omit_string; [now apply wf_short_key | assumption].
    + apply wf_cbor_omit_uint; [now apply wf_short_key | assumption].
Qed.

Lemma V6_cbor_dec ps :
  ps_cbor_dec V6.ops (ps_cbor V6.ops ps) (ps_zero V6.ops) None = (ps, None).
Proof.
  destruct ps as [h i s]. simpl.
  unfold Cbor.omit_ptr, Cbor.omit_string, Cbor.omit_uint.
  destruct h as [h|]; destruct i as [|c i]; destruct (N.eqb_spec s 0) as [->|Hs];
    reflexivity.
Qed.

Lemma V5_cbor_dec ps :
  ps_cbor_dec V5.ops (ps_cbor V5.ops ps) (ps_zero V5.ops) None = (ps, None).
Proof.
  destruct ps as [b h s]. simpl.
  unfold Cbor.omit_string, Cbor.omit_uint.
  destruct (N.eqb_spec b 0) as [->|Hb]; destruct h as [|c h];
    destruct (N.eqb_spec s 0) as [->|Hs]; reflexivity.
Qed.

Lemma V6_av_dec ps :
  valid_V6 ps = true ->
  Dynamo.UnmarshalMap (ps_av_fields V6.ops) (ps_av V6.ops ps) (ps_zero V6.ops) = (ps, None).
Proof.
  destruct ps as [h i s]. unfold valid_V6. simpl. intros H. split_valid H.
  unfold Dynamo.omit_ptr_uint, Dynamo.omit_string, Dynamo.omit_uint.
  destruct h as [h|]; destruct i as [|c i]; destruct (N.eqb_spec s 0) as [->|Hs];
    cbn -[ParseUint FormatUint];
    rewrite ?ParseUint64_FormatUint by assumption; reflexivity.
Qed.

Lemma V5_av_dec ps :
  valid_V5 ps = true ->
  Dynamo.UnmarshalMap (ps_av_fields V5.ops) (ps_av V5.ops ps) (ps_zero V5.ops) = (ps, None).
Proof.
  destruct ps as [b h s]. unfold valid_V5. simpl. intros H. split_valid H.
  unfold Dynamo.omit_string, Dynamo.omit_uint.
  destruct (N.eqb_spec b 0) as [->|Hb]; destruct h as [|c h];
    destruct (N.eqb_spec s 0) as [->|Hs];
    cbn -[ParseUint FormatUint];
    rewrite ?ParseUint64_FormatUint by assumption; reflexivity.
Qed.

(** The attribute map of a struct is empty exactly when every field is its
    zero value. *)
Lemma V6_av_populated ps :
  (0 <? List.length (ps_av V6.ops ps))%nat = populated_V6 ps.
Proof.
  destruct ps as [h i s]. unfold populated_V6. simpl.
  unfold Dynamo.omit_ptr_uint, Dynamo.omit_string, Dynamo.omit_uint.
  destruct h as [h|]; destruct i as [|c i]; destruct (N.eqb_spec s 0) as [->|Hs];
    reflexivity.
Qed.

Lemma V5_av_populated ps :
  (0 <? List.length (ps_av V5.ops ps))%nat = populated_V5 ps.
Proof.
  destruct ps as [b h s]. unfold populated_V5. simpl.
  unfold Dynamo.omit_string, Dynamo.omit_uint.
  destruct (N.eqb_spec b 0) as [->|Hb]; destruct h as [|c h];
    destruct (N.eqb_spec s 0) as [->|Hs]; reflexivity.
Qed.

End StructFacts.

(** ** Points: every serializer against its deserializer *)
Section PointRoundTrip.
Context {PS : Type} (O : PointStructOps PS).
Variable valid_ps : PS -> bool.
Variable populated_ps : PS -> bool.

Hypothesis json_wf : forall ps, valid_ps ps = true -> Json.wf (ps_json O ps).
Hypothesis json_object : forall ps, exists ms, ps_json O ps = Json.Object ms.
Hypothesis json_dec : forall ps, valid_ps ps = true ->
  ps_json_dec O (ps_json O ps) (ps_zero O) None = Json.Go ps None.
Hypothesis cbor_wf : forall ps, valid_ps ps = true -> Cbor.wf (ps_cbor O ps).
Hypothesis cbor_map : forall ps, exists es, ps_cbor O ps = Cbor.Map es.
Hypothesis cbor_dec : forall ps,
  ps_cbor_dec O (ps_cbor O ps) (ps_zero O) None = (ps, None).
Hypothesis av_dec : forall ps, valid_ps ps = true ->
  Dynamo.UnmarshalMap (ps_av_fields O) (ps_av O ps) (ps_zero O) = (ps, None).
Hypothesis av_populated : forall ps,
  (0 <? List.length (ps_av O ps))%nat = populated_ps ps.

Lemma valid_Point_cases (p : Point PS) :
  valid_Point valid_ps p = true ->
  (exists s, p = PointString_Point s /\ valid_text s = true) \/
  (exists ps, p = PointStruct_Point ps /\ valid_ps ps = true).
Proof.
  destruct p as [t s [ps|]]; unfold valid_Point; simpl; intros H.
  - right. apply andb_prop in H as [H V]. apply andb_prop in H as [Ht Hs].
    apply Z.eqb_eq in Ht. apply String.eqb_eq in Hs. subst. now exists ps.
  - left. apply andb_prop in H as [Ht V].
    apply Z.eqb_eq in Ht. subst. now exists s.
Qed.

(** The three round trips of a point, given those of its struct. *)
Lemma Point_json_roundtrip p p0 :
  valid_Point valid_ps p = true ->
  snd (Point_MarshalJSON O p) = None /\
  Point_UnmarshalJSON O p0 (fst (Point_MarshalJSON O p)) = Returns (p, None).
Proof.
  intros H. destruct (valid_Point_cases p H) as [(s & -> & V) | (ps & -> & V)].
  - split; [reflexivity|].
    change (fst (Point_MarshalJSON O (PointString_Point s))) with (Json.render (Json.Str s)).
    assert (Hr : Json.render (Json.Str s) = String dquote (Json.escape s ++ String dquote ""))
      by reflexivity.
    unfold Point_UnmarshalJSON. rewrite Hr.
    change (Ascii.eqb dquote dquote) with true. cbv iota. rewrite <- Hr.
    unfold Json.Unmarshal.
    rewrite JsonFacts.parse_render
      by (constructor; now apply StructFacts.valid_text_ascii).
    reflexivity.
  - split; [reflexivity|].
    change (fst (Point_MarshalJSON O (PointStruct_Point ps)))
      with (Json.render (ps_json O ps)).
    destruct (json_object ps) as [ms E].
    assert (Hb : exists r, Json.render (ps_json O ps) = String "{" r).
    { rewrite E. destruct ms as [|[k x] ms]; simpl; eauto. }
    destruct Hb as [r Hr]. unfold Point_UnmarshalJSON. rewrite Hr.
    change (Ascii.eqb "{" dquote) with false. cbv iota. rewrite <- Hr.
    unfold Json.Unmarshal.
    rewrite JsonFacts.parse_render by auto.
    now rewrite json_dec.
Qed.

Lemma head_not_n info rest :
  (info < 32)%N -> String.eqb (String (ascii_of_N (5 * 32 + info)) rest) bNil = false.
Proof.
  intros Hi. unfold bNil. cbn [String.eqb].
  destruct (Ascii.eqb_spec (ascii_of_N (5 * 32 + info)) "n") as [E|]; [|reflexivity].
  apply (f_equal N_of_ascii) in E. rewrite N_ascii_embedding in E by lia.
  change (N_of_ascii "n") with 110%N in E. lia.
Qed.

Lemma head_shape n :
  exists info r, Cbor.head 5 n = String (ascii_of_N (5 * 32 + info)) r /\ (info < 32)%N.
Proof.
  unfold Cbor.head.
  destruct (N.ltb_spec n 24); [exists n; eexists; split; [reflexivity | lia]|].
  destruct (N.ltb_spec n 256); [exists 24%N; eexists; split; [reflexivity | lia]|].
  destruct (N.ltb_spec n 65536); [exists 25%N; eexists; split; [reflexivity | lia]|].
  destruct (N.ltb_spec n 4294967296); [exists 26%N; eexists; split; [reflexivity | lia]|].
  exists 27%N; eexists; split; [reflexivity | lia].
Qed.

Lemma encode_Map_shape es :
  exists c r, Cbor.encode (Cbor.Map es) = String c r /\
              String.eqb (String c r) bNil = false.
Proof.
  rewrite CborFacts.encode_Map.
  destruct (head_shape (N.of_nat (List.length es))) as (info & r & E & Hi).
  rewrite E. cbn [append]. eexists; eexists. split; [reflexivity|].
  now apply head_not_n.
Qed.

Lemma Unmarshal_encoded_point (v : pointCBOR PS) (p0 : Point PS) :
  Cbor.wf (enc_pointCBOR O v) ->
  dec_pointCBOR O (enc_pointCBOR O v) (mkPointCBOR "" None) None = (v, None) ->
  Point_UnmarshalCBOR O p0 (Cbor.encode (enc_pointCBOR O v))
  = (if is_some (cbor_Struct v)
     then mkPoint PointTypeStruct (cbor_String v) (cbor_Struct v)
     else mkPoint PointTypeString (cbor_String v) (cbor_Struct v), None).
Proof.
  intros Hwf Hdec. unfold Point_UnmarshalCBOR.
  destruct (encode_Map_shape
              (Cbor.omit_string (Cbor.UInt 1) (cbor_String v) ++
               Cbor.omit_ptr (Cbor.UInt 2) (ps_cbor O) (cbor_Struct v)))
    as (c & r & E & Hn).
  fold (enc_pointCBOR O v) in E.
  assert (Hlen : (String.length (Cbor.encode (enc_pointCBOR O v)) =? 0)%nat = false)
    by (rewrite E; reflexivity).
  assert (Hnil : String.eqb (Cbor.encode (enc_pointCBOR O v)) bNil = false)
    by (rewrite E; exact Hn).
  rewrite Hlen, Hnil. cbn [orb].
  unfold Cbor.Unmarshal. rewrite CborFacts.decode_encode by exact Hwf.
  rewrite Hdec. cbn [pointStruct pointString].
  destruct (cbor_Struct v); reflexivity.
Qed.

Lemma Point_cbor_roundtrip p p0 :
  valid_Point valid_ps p = true ->
  snd (Point_MarshalCBOR O p) = None /\
  Point_UnmarshalCBOR O p0 (fst (Point_MarshalCBOR O p)) = (p, None).
Proof.
  intros H. destruct (valid_Point_cases p H) as [(s & -> & V) | (ps & -> & V)].
  - split; [reflexivity|].
    change (fst (Point_MarshalCBOR O (PointString_Point s)))
      with (Cbor.encode (enc_pointCBOR O (mkPointCBOR s None))).
    rewrite Unmarshal_encoded_point; [reflexivity | |].
    + constructor.
      * cbn [cbor_String cbor_Struct Cbor.omit_ptr]. rewrite List.app_nil_r.
        unfold Cbor.omit_string. destruct (String.eqb s ""); reflexivity.
      * rewrite Forall_app. split; [|constructor].
        apply StructFacts.wf_cbor_omit_string; [constructor; reflexivity | assumption].
    + unfold enc_pointCBOR, Cbor.omit_string. cbn [cbor_String cbor_Struct Cbor.omit_ptr].
      destruct s; reflexivity.
  - split; [reflexivity|].
    change (fst (Point_MarshalCBOR O (PointStruct_Point ps)))
      with (Cbor.encode (enc_pointCBOR O (mkPointCBOR "" (Some ps)))).
    rewrite Unmarshal_encoded_point; [reflexivity | |].
    + constructor; [reflexivity|].
      constructor; [|constructor]. split; [constructor; reflexivity | now apply cbor_wf].
    + unfold enc_pointCBOR, dec_pointCBOR. cbn.
      destruct (cbor_map ps) as [es Ees].
      unfold Cbor.dec_ptr. rewrite Ees at 1. rewrite cbor_dec. reflexivity.
Qed.

Lemma Point_av_roundtrip p p0 :
  valid_Point valid_ps p = true ->
  snd (Point_MarshalDynamoDBAttributeValue O p Dynamo.empty) = None /\
  Point_UnmarshalDynamoDBAttributeValue O p0
    (Some (fst (Point_MarshalDynamoDBAttributeValue O p Dynamo.empty)))
  = (if populated_Point populated_ps p then p else p0, None).
Proof.
  intros H. destruct (valid_Point_cases p H) as [(s & -> & V) | (ps & -> & V)].
  - split; reflexivity.
  - split; [reflexivity|].
    unfold Point_MarshalDynamoDBAttributeValue, PointStruct_Point. simpl.
    rewrite av_populated. unfold populated_Point. simpl.
    destruct (populated_ps ps); [|reflexivity].
    now rewrite av_dec.
Qed.

End PointRoundTrip.

(** ** The byte order on texts *)

Lemma compare_refl s : (s ?= s) = Eq.
Proof.
  induction s as [|c s IH]; simpl; [reflexivity|].
  unfold Ascii.compare. now rewrite N.compare_refl.
Qed.

Lemma ltb_irrefl s : String.ltb s s = false.
Proof. unfold String.ltb. now rewrite compare_refl. Qed.

Lemma compare_trans_lt a : forall b c,
  (a ?= b) = Lt -> (b ?= c) = Lt -> (a ?= c) = Lt.
Proof.
  induction a as [|x a IH]; intros [|y b] [|z c]; simpl; try discriminate; auto.
  unfold Ascii.compare.
  destruct (N.compare_spec (N_of_ascii x) (N_of_ascii y)) as [Exy|Lxy|Gxy];
    try discriminate;
    destruct (N.compare_spec (N_of_ascii y) (N_of_ascii z)) as [Eyz|Lyz|Gyz];
    try discriminate; intros H1 H2.
  - rewrite Exy, Eyz, N.compare_refl. eauto.
  - rewrite Exy. now apply N.compare_lt_iff in Lyz as ->.
  - rewrite <- Eyz. now apply N.compare_lt_iff in Lxy as ->.
  - assert (L : (N_of_ascii x < N_of_ascii z)%N) by lia.
    now apply N.compare_lt_iff in L as ->.
Qed.

Lemma ltb_trans a b c :
  String.ltb a b = true -> String.ltb b c = true -> String.ltb a c = true.
Proof.
  unfold String.ltb. intros H1 H2.
  destruct (a ?= b) eqn:E1; try discriminate.
  destruct (b ?= c) eqn:E2; try discriminate.
  now rewrite (compare_trans_lt a b c E1 E2).
Qed.

Lemma ltb_total a b : String.ltb a b = false -> String.ltb b a = false -> a = b.
Proof.
  unfold String.ltb. intros H1 H2.
  rewrite (String.compare_antisym b a) in H2.
  destruct (a ?= b) eqn:E; try discriminate.
  now apply String.compare_eq_iff.
Qed.

(** ** [Points.Less] *)

Section LessFacts.
Context {PS : Type} (O : PointStructOps PS).

Lemma Less_index pp i j pi pj :
  index pp i = Some pi -> index pp j = Some pj ->
  Points_Less O pp i j = Points_Less O [pi; pj] 0 1.
Proof. intros Hi Hj. unfold Points_Less. now rewrite Hi, Hj. Qed.

(** [Less] compares the sort keys: slots downwards, structs before markers,
    markers downwards. *)
Lemma Less_key (a b : Point PS) :
  well_formed a = true -> well_formed b = true ->
  Points_Less O [a; b] 0 1 =
  Returns match sort_key O a, sort_key O b with
          | inl sa, inl sb => (sb <? sa)%N
          | inl _, inr _ => true
          | inr _, inl _ => false
          | inr ta, inr tb => String.ltb tb ta
          end.
Proof.
  unfold well_formed, sort_key, is_struct, Points_Less. simpl.
  destruct (pointType a =? PointTypeStruct)%Z, (pointType b =? PointTypeStruct)%Z;
    destruct (pointStruct a), (pointStruct b); simpl; try discriminate; reflexivity.
Qed.

Lemma before_key (a b : Point PS) :
  well_formed a = true -> well_formed b = true ->
  (before O a b <->
   match sort_key O a, sort_key O b with
   | inl sa, inl sb => (sb < sa)%N
   | inl _, inr _ => True
   | inr _, inl _ => False
   | inr ta, inr tb => String.ltb tb ta = true
   end).
Proof.
  intros Wa Wb. unfold before. rewrite (Less_key a b Wa Wb).
  destruct (sort_key O a), (sort_key O b).
  - rewrite <- N.ltb_lt. split; [now intros [= ->] | now intros ->].
  - split; auto.
  - split; [discriminate | tauto].
  - split; [now intros [= ->] | now intros ->].
Qed.

End LessFacts.

(** ** Numerals out of range, and the response of [evaluateTransaction] *)

Lemma ParseUint_FormatUint_overflow bound n :
  (bound <= n)%N -> ParseUint bound (FormatUint n) = None.
Proof.
  intros Hn. unfold ParseUint, FormatUint.
  rewrite NilZero.usu by (rewrite to_uint_unorm; apply unorm_nonnil).
  rewrite DecimalN.Unsigned.of_to.
  apply N.ltb_ge in Hn. now rewrite Hn.
Qed.

Lemma int_of_string_FormatUint n :
  NilZero.int_of_string (FormatUint n) = Some (Decimal.Pos (N.to_uint n)).
Proof.
  assert (U : NilZero.uint_of_string (FormatUint n) = Some (N.to_uint n))
    by (apply NilZero.usu; rewrite to_uint_unorm; apply unorm_nonnil).
  assert (S : exists c r, FormatUint n = String c r /\ Ascii.eqb c "-" = false).
  { destruct (FormatUint_shape n) as [E | (c & ds & E & Hc & _)].
    - exists "0"%char, "". now split.
    - exists c, ds. split; [exact E|].
      now destruct (JsonFacts.digit_head c Hc) as (_ & _ & _ & _ & _ & _ & _ & Hm & _). }
  destruct S as (c & r & E & Hm).
  unfold NilZero.int_of_string. rewrite E, Hm, <- E, U. reflexivity.
Qed.

Lemma ParseInt_FormatUint n :
  ParseInt (FormatUint n) = if (n <? 2 ^ 63)%N then Some (Z.of_N n) else None.
Proof.
  unfold ParseInt. rewrite int_of_string_FormatUint.
  unfold Z.of_int, Z.of_uint.
  change (Pos.of_uint (N.to_uint n)) with (N.of_uint (N.to_uint n)).
  rewrite DecimalN.Unsigned.of_to.
  destruct (N.ltb_spec n (2 ^ 63)).
  - assert (Hz : (Z.of_N n < 2 ^ 63)%Z) by (change (2 ^ 63)%Z with (Z.of_N (2 ^ 63)); lia).
    apply Z.ltb_lt in Hz. rewrite Hz.
    assert (Hl : (- 2 ^ 63 <=? Z.of_N n)%Z = true) by (apply Z.leb_le; lia).
    now rewrite Hl.
  - assert (Hz : (Z.of_N n <? 2 ^ 63)%Z = false)
      by (apply Z.ltb_ge; change (2 ^ 63)%Z with (Z.of_N (2 ^ 63)); lia).
    rewrite Hz. now rewrite andb_false_r.
Qed.

Lemma evaluate_result_wf validator memory cpu :
  ascii_text validator = true -> Json.wf (evaluate_result validator memory cpu).
Proof.
  intros Hv. unfold evaluate_result.
  apply Json.wf_Array. constructor; [|constructor].
  apply Json.wf_Object.
  constructor; [split; [reflexivity | now constructor]|].
  constructor; [split; [reflexivity|] | constructor].
  apply Json.wf_Object.
  constructor;
    [split; [reflexivity | constructor; apply JsonFacts.FormatUint_literal]|].
  constructor;
    [split; [reflexivity | constructor; apply JsonFacts.FormatUint_literal] | constructor].
Qed.

Lemma readEvaluateTx_decodes validator memory cpu :
  ascii_text validator = true ->
  Ogmigo.readEvaluateTx (evaluate_response validator memory cpu) =
  match ParseUint uint64_bound (FormatUint memory), ParseUint uint64_bound (FormatUint cpu) with
  | Some m, Some c => ([Ogmigo.mkExUnits validator (Ogmigo.mkExUnitsBudget m c)], None)
  | None, _ =>
      ([], Some (Errorf "failed to parse EvaluateTx response"
                   (Some (UnmarshalTypeError ("number " ++ FormatUint memory) "uint64"))))
  | Some _, None =>
      ([], Some (Errorf "failed to parse EvaluateTx response"
                   (Some (UnmarshalTypeError ("number " ++ FormatUint cpu) "uint64"))))
  end.
Proof.
  intros Hv. unfold Ogmigo.readEvaluateTx, Ogmigo.jsonparser_Get, evaluate_response.
  rewrite JsonFacts.parse_render.
  2:{ constructor. constructor; [|constructor]. split; [reflexivity|].
      now apply evaluate_result_wf. }
  cbn [find fst String.eqb Ascii.eqb Bool.eqb andb].
  unfold evaluate_result at 1. unfold Json.Unmarshal.
  rewrite JsonFacts.parse_render by now apply evaluate_result_wf.
  unfold evaluate_result. cbn -[ParseUint FormatUint].
  unfold uint64_bound.
  destruct (ParseUint _ (FormatUint memory));
    destruct (ParseUint _ (FormatUint cpu)); reflexivity.
Qed.

(** ** Texts: prefixes, slices and [strings.Index] *)

Lemma HasPrefix_append p rest : HasPrefix (p ++ rest) p = true.
Proof.
  induction p as [|c p IH]; simpl; [reflexivity|].
  now rewrite Ascii.eqb_refl, IH.
Qed.

Lemma HasPrefix_split s p : HasPrefix s p = true -> s = p ++ slice_from s (String.length p).
Proof.
  revert s. induction p as [|c p IH]; intros s H; simpl in *.
  - now destruct s.
  - destruct s as [|d s]; [discriminate|].
    apply andb_prop in H as [Hc Hp]. apply Ascii.eqb_eq in Hc. subst d.
    f_equal. now apply IH.
Qed.

Lemma HasPrefix_length s p : HasPrefix s p = true -> String.length p <= String.length s.
Proof.
  revert s. induction p as [|c p IH]; intros s H; simpl in *; [lia|].
  destruct s as [|d s]; [discriminate|].
  apply andb_prop in H as [_ Hp]. apply IH in Hp. simpl. lia.
Qed.

(** Two prefixes of a text that are equally long are the same. *)
Lemma HasPrefix_same s p p' :
  HasPrefix s p = true -> HasPrefix s p' = true ->
  String.length p = String.length p' -> p = p'.
Proof.
  revert s p'. induction p as [|c p IH]; intros s [|c' p'] H H' L; simpl in *;
    try discriminate; [reflexivity|].
  destruct s as [|d s]; [discriminate|].
  apply andb_prop in H as [Hc Hp]. apply andb_prop in H' as [Hc' Hp'].
  apply Ascii.eqb_eq in Hc, Hc'. subst. f_equal. apply (IH s); auto.
Qed.

Lemma slice_to_append a b : slice_to (a ++ b) (String.length a) = a.
Proof. induction a as [|c a IH]; simpl; [now destruct b | now rewrite IH]. Qed.

Lemma slice_from_append a b : slice_from (a ++ b) (String.length a) = b.
Proof. induction a as [|c a IH]; simpl; [now destruct b | exact IH]. Qed.

Lemma slice_to_length s n : n <= String.length s -> String.length (slice_to s n) = n.
Proof.
  revert s. induction n as [|n IH]; intros [|c s] H; simpl in *; try lia.
  now rewrite IH by lia.
Qed.

Lemma slice_split s n : s = slice_to s n ++ slice_from s n.
Proof.
  revert s. induction n as [|n IH]; intros [|c s]; simpl; try reflexivity.
  now rewrite <- IH.
Qed.

Lemma HasPrefix_slice_to s n : HasPrefix s (slice_to s n) = true.
Proof. rewrite (slice_split s n) at 1. apply HasPrefix_append. Qed.

Lemma Index_ge s sep : (-1 <= Index s sep)%Z.
Proof.
  induction s as [|c s IH]; simpl.
  - destruct (HasPrefix "" sep); lia.
  - destruct (HasPrefix (String c s) sep); [lia|].
    destruct (Index s sep <? 0)%Z eqn:E; [lia|]. apply Z.ltb_ge in E. lia.
Qed.

Lemma Index_le s sep : (Index s sep <= Z.of_nat (String.length s))%Z.
Proof.
  induction s as [|c s IH].
  - simpl. destruct (HasPrefix "" sep); lia.
  - cbn [Index]. destruct (HasPrefix (String c s) sep); [simpl; lia|].
    destruct (Index s sep <? 0)%Z; simpl String.length; lia.
Qed.

(** Where [Index] finds the separator, the text splits into what is before
    it, the separator and what is after it. *)
Lemma Index_split s sep :
  (0 <= Index s sep)%Z ->
  s = slice_to s (Z.to_nat (Index s sep)) ++ sep ++
      slice_from s (Z.to_nat (Index s sep) + String.length sep).
Proof.
  induction s as [|c s IH]; cbn [Index].
  - destruct (HasPrefix "" sep) eqn:P; [|lia]. intros _.
    destruct sep; [reflexivity | discriminate].
  - destruct (HasPrefix (String c s) sep) eqn:P.
    + intros _. simpl. now apply HasPrefix_split.
    + destruct (Index s sep <? 0)%Z eqn:E; [lia|]. apply Z.ltb_ge in E. intros _.
      replace (Z.to_nat (Index s sep + 1)) with (S (Z.to_nat (Index s sep))) by lia.
      simpl. f_equal. now apply IH.
Qed.

(** A separator of one byte that the text before it does not contain is
    found right after that text. *)
Lemma Index_append_first h c rest :
  Index h (String c "") = (-1)%Z ->
  Index (h ++ String c rest) (String c "") = Z.of_nat (String.length h).
Proof.
  induction h as [|d h IH]; cbn [Index append]; intros H.
  - simpl. now rewrite Ascii.eqb_refl.
  - simpl HasPrefix in *. rewrite andb_true_r in *.
    destruct (Ascii.eqb c d); [discriminate H|].
    destruct (Index h (String c "") <? 0)%Z eqn:E.
    + pose proof (Index_ge h (String c "")). apply Z.ltb_lt in E.
      rewrite IH by lia. simpl String.length.
      destruct (Z.of_nat (String.length h) <? 0)%Z eqn:E'; [apply Z.ltb_lt in E'|]; lia.
    + apply Z.ltb_ge in E. lia.
Qed.

(** ** [strconv.Atoi] reads what [strconv.Itoa] writes *)

Lemma of_int_to_int i : Z.of_int (Z.to_int i) = i.
Proof.
  destruct i as [|p|p]; [reflexivity| |]; simpl; unfold Z.of_uint;
    now rewrite DecimalPos.Unsigned.of_to.
Qed.

Lemma Atoi_Itoa i : (- 2 ^ 63 <= i < 2 ^ 63)%Z -> Atoi (Itoa i) = Some i.
Proof.
  intros Hi. unfold Itoa, FormatInt.
  assert (H : NilZero.int_of_string (NilZero.string_of_int (Z.to_int i)) = Some (Z.to_int i)).
  { apply NilZero.isi; destruct i; simpl; try discriminate;
      intros [= E]; revert E; apply Unsigned.to_uint_nonnil. }
  destruct (NilZero.string_of_int (Z.to_int i)) as [|c r] eqn:E; [discriminate H|].
  unfold Atoi. destruct (Ascii.eqb c "+") eqn:Ep.
  - apply Ascii.eqb_eq in Ep. subst c. simpl in H.
    destruct (NilEmpty.uint_of_string r); discriminate H.
  - unfold ParseInt. rewrite H, of_int_to_int.
    destruct (Z.leb_spec (- 2 ^ 63) i); [|lia].
    destruct (Z.ltb_spec i (2 ^ 63)); [reflexivity | lia].
Qed.

(** ** Elapsed milliseconds: the loop against the sum it computes *)

Section EraFacts.
Context {ES EM : Type} (ms : EM -> N).

Lemma era_milliseconds_mono (e : Ogmigo.EraSummary ES EM) slot slot' :
  era_ok e -> (slot <= slot')%N ->
  (era_milliseconds ms slot e <= era_milliseconds ms slot' e)%N.
Proof.
  unfold era_ok, era_milliseconds. intros [H1 H2] Hs.
  apply N.mul_le_mono_r. lia.
Qed.

Lemma history_milliseconds_mono (h : list (Ogmigo.EraSummary ES EM)) slot slot' :
  Forall era_ok h -> (slot <= slot')%N ->
  (history_milliseconds ms slot h <= history_milliseconds ms slot' h)%N.
Proof.
  intros Hok Hs. induction Hok as [|e h He Hh IH]; simpl; [lia|].
  pose proof (era_milliseconds_mono e slot slot' He Hs). lia.
Qed.

Lemma elapsed_step_exact slot total (e : Ogmigo.EraSummary ES EM) :
  era_ok e -> (slot < 2 ^ 64)%N ->
  (total + era_milliseconds ms slot e < 2 ^ 64)%N ->
  Ogmigo.elapsed_step ES EM ms slot total e = (total + era_milliseconds ms slot e)%N.
Proof.
  unfold era_ok, era_milliseconds, Ogmigo.elapsed_step, add64, mul64, sub64, uint64_bound.
  set (a := Ogmigo.Slot (Ogmigo.Start e)). set (b := Ogmigo.Slot (Ogmigo.End_ e)).
  set (l := ms (Ogmigo.SlotLength (Ogmigo.Parameters e))).
  intros [H1 H2] Hs Hb.
  destruct (N.ltb_spec b slot) as [Hbs | Hbs].
  - rewrite (N.min_r slot b), (N.min_r slot a) in * by lia.
    replace ((b + 2 ^ 64 - a) mod 2 ^ 64)%N with (b - a)%N.
    + rewrite (N.mod_small ((b - a) * l)) by lia. apply N.mod_small. lia.
    + replace (b + 2 ^ 64 - a)%N with ((b - a) + 1 * 2 ^ 64)%N by lia.
      rewrite N.Div0.mod_add. symmetry. apply N.mod_small. lia.
  - destruct (N.ltb_spec a slot) as [Has | Has].
    + rewrite (N.min_l slot b), (N.min_r slot a) in * by lia.
      replace ((slot + 2 ^ 64 - a) mod 2 ^ 64)%N with (slot - a)%N.
      * rewrite (N.mod_small ((slot - a) * l)) by lia. apply N.mod_small. lia.
      * replace (slot + 2 ^ 64 - a)%N with ((slot - a) + 1 * 2 ^ 64)%N by lia.
        rewrite N.Div0.mod_add. symmetry. apply N.mod_small. lia.
    + rewrite (N.min_l slot b), (N.min_l slot a) by lia. lia.
Qed.

Lemma elapsed_fold_exact slot (h : list (Ogmigo.EraSummary ES EM)) : forall total,
  Forall era_ok h -> (slot < 2 ^ 64)%N ->
  (total + history_milliseconds ms slot h < 2 ^ 64)%N ->
  fold_left (Ogmigo.elapsed_step ES EM ms slot) h total =
  (total + history_milliseconds ms slot h)%N.
Proof.
  induction h as [|e h IH]; intros total Hok Hs Hb; simpl in *; [lia|].
  inversion Hok as [|? ? He Hh]; subst.
  rewrite elapsed_step_exact by (auto; lia).
  rewrite IH by (auto; lia). lia.
Qed.

End EraFacts.

(** ** Lists written by index *)

Lemma set_index_length {A} (l : list A) n x : List.length (set_index l n x) = List.length l.
Proof. revert n. induction l as [|y l IH]; intros [|n]; simpl; auto. Qed.

Lemma nth_error_set_index_same {A} (l : list A) n x :
  n < List.length l -> nth_error (set_index l n x) n = Some x.
Proof.
  revert n. induction l as [|y l IH]; intros [|n] H; simpl in *; try lia; auto.
  apply IH. lia.
Qed.

Lemma nth_error_set_index_other {A} (l : list A) n m x :
  n <> m -> nth_error (set_index l n x) m = nth_error l m.
Proof.
  revert n m. induction l as [|y l IH]; intros [|n] [|m] H; simpl; auto; try congruence.
Qed.

Lemma index_Some {PS} (pp : list (Point PS)) i p :
  index pp i = Some p -> (0 <= i < Z.of_nat (List.length pp))%Z.
Proof.
  unfold index. destruct (Z.ltb_spec i 0) as [Hn|Hn]; [discriminate|]. intros E.
  assert (Hs : nth_error pp (Z.to_nat i) <> None) by congruence.
  apply nth_error_Some in Hs. lia.
Qed.

Lemma index_in_range {PS} (pp : list (Point PS)) i :
  (0 <= i < Z.of_nat (List.length pp))%Z -> exists p, index pp i = Some p /\ In p pp.
Proof.
  intros H. unfold index. destruct (Z.ltb_spec i 0) as [Hn|Hn]; [lia|].
  destruct (nth_error pp (Z.to_nat i)) as [p|] eqn:E.
  - exists p. split; [reflexivity|]. eapply nth_error_In; eauto.
  - apply nth_error_None in E. lia.
Qed.

Lemma index_out_of_range {PS} (pp : list (Point PS)) i :
  ~ (0 <= i < Z.of_nat (List.length pp))%Z -> index pp i = None.
Proof.
  intros H. destruct (index pp i) eqn:E; [|reflexivity].
  apply index_Some in E. contradiction.
Qed.


(** ** Maps *)

Lemma map_get_set_same {V : Type} (zero : V) m k v : map_get zero (map_set m k v) k = v.
Proof.
  induction m as [|[k' v'] m IH]; simpl.
  - now rewrite String.eqb_refl.
  - destruct (String.eqb k' k) eqn:E; simpl.
    + now rewrite String.eqb_refl.
    + now rewrite E.
Qed.

Lemma map_get_set_other {V : Type} (zero : V) m k v k' :
  k <> k' -> map_get zero (map_set m k v) k' = map_get zero m k'.
Proof.
  intros Hk. induction m as [|[k0 v0] m IH]; simpl.
  - apply String.eqb_neq in Hk. now rewrite Hk.
  - destruct (String.eqb k0 k) eqn:E; simpl.
    + apply String.eqb_eq in E. subst k0.
      apply String.eqb_neq in Hk. now rewrite Hk.
    + destruct (String.eqb k0 k'); [reflexivity | exact IH].
Qed.

Lemma map_find_None {V : Type} (m : list (string * V)) k :
  map_find m k = None <-> ~ In k (map fst m).
Proof.
  unfold map_find. induction m as [|[k' v'] m IH]; simpl.
  - tauto.
  - destruct (String.eqb k' k) eqn:E.
    + apply String.eqb_eq in E. split; [discriminate | intros H; exfalso; apply H; now left].
    + apply String.eqb_neq in E. rewrite IH. tauto.
Qed.

Lemma map_find_Some {V : Type} (m : list (string * V)) k v :
  unique_keys m -> (map_find m k = Some v <-> In (k, v) m).
Proof.
  unfold map_find, unique_keys. induction m as [|[k' v'] m IH]; simpl; intros Hu.
  - split; [discriminate | tauto].
  - inversion Hu as [|? ? Hn Hu']; subst.
    destruct (String.eqb k' k) eqn:E.
    + apply String.eqb_eq in E. subst k'. split.
      * intros H. injection H as ->. now left.
      * intros [H|H]; [now injection H as -> |].
        exfalso. apply Hn. apply in_map_iff. now exists (k, v).
    + apply String.eqb_neq in E. rewrite (IH Hu'). split; [tauto|].
      intros [H|H]; [injection H as -> ->; congruence | exact H].
Qed.

Lemma map_get_find {V : Type} (zero : V) (m : list (string * V)) k :
  map_get zero m k = match map_find m k with Some v => v | None => zero end.
Proof.
  unfold map_find. induction m as [|[k' v'] m IH]; simpl; [reflexivity|].
  destruct (String.eqb k' k); [reflexivity | exact IH].
Qed.

(** A loop that stores, for each entry of [xs], a value made of what the
    map holds under the entry's key and of the entry's value. *)
Lemma map_fold_get {V : Type} (zero : V) (f : V -> V -> V) (xs : list (string * V)) :
  unique_keys xs ->
  forall m k,
    map_get zero
      (fold_left (fun result kv => map_set result (fst kv) (f (map_get zero result (fst kv)) (snd kv)))
         xs m) k =
    match map_find xs k with
    | Some v => f (map_get zero m k) v
    | None => map_get zero m k
    end.
Proof.
  unfold unique_keys, map_find.
  induction xs as [|[k' v'] xs IH]; simpl; intros Hu m k; [reflexivity|].
  inversion Hu as [|? ? Hn Hu']; subst.
  rewrite (IH Hu'). destruct (String.eqb k' k) eqn:E.
  - apply String.eqb_eq in E. subst k'.
    assert (Hf : find (fun kv : string * V => String.eqb (fst kv) k) xs = None).
    { pose proof (proj2 (map_find_None xs k) Hn) as Hf. unfold map_find in Hf.
      destruct (find _ xs) as [[? ?]|]; [discriminate | reflexivity]. }
    rewrite Hf. apply map_get_set_same.
  - apply String.eqb_neq in E.
    rewrite (map_get_set_other zero m k' _ k E). reflexivity.
Qed.

(** ** Hexadecimal texts *)



Lemma fromHexChar_ascii c x : fromHexChar c = Some x -> is_ascii c = true.
Proof.
  unfold fromHexChar, is_ascii. intros H. apply N.ltb_lt.
  destruct (N.leb_spec 48 (N_of_ascii c)); destruct (N.leb_spec (N_of_ascii c) 57);
    simpl in H; try lia;
    destruct (N.leb_spec 97 (N_of_ascii c)); destruct (N.leb_spec (N_of_ascii c) 102);
    simpl in H; try lia;
    destruct (N.leb_spec 65 (N_of_ascii c)); destruct (N.leb_spec (N_of_ascii c) 70);
    simpl in H; try lia; discriminate H.
Qed.

Lemma hex_ascii_text : forall s b, hex_DecodeString s = Some b -> ascii_text s = true.
Proof.
  fix IH 1. intros [|a [|c r]] b H; [reflexivity | discriminate H |].
  cbn [hex_DecodeString] in H.
  destruct (fromHexChar a) as [x|] eqn:Ea; [|discriminate H].
  destruct (fromHexChar c) as [y|] eqn:Ec; [|discriminate H].
  destruct (hex_DecodeString r) as [t|] eqn:Er; [|discriminate H].
  cbn [ascii_text].
  rewrite (fromHexChar_ascii _ _ Ea), (fromHexChar_ascii _ _ Ec), (IH r t Er). reflexivity.
Qed.

(** ** Maps read from documents *)

Lemma map_set_fresh {V : Type} (m : list (string * V)) k v :
  ~ In k (map fst m) -> map_set m k v = (m ++ [(k, v)])%list.
Proof.
  induction m as [|[k' v'] m IH]; simpl; intros Hn; [reflexivity|].
  destruct (String.eqb_spec k' k) as [E|E]; [exfalso; apply Hn; now left|].
  rewrite IH; [reflexivity | tauto].
Qed.

Lemma fold_map_set_unique {V : Type} (ms acc : list (string * V)) :
  unique_keys (acc ++ ms)%list ->
  fold_left (fun m kx => map_set m (fst kx) (snd kx)) ms acc = (acc ++ ms)%list.
Proof.
  unfold unique_keys. revert acc. induction ms as [|[k v] ms IH]; intros acc Hu; simpl.
  - now rewrite List.app_nil_r.
  - rewrite map_set_fresh.
    + rewrite IH; rewrite <- List.app_assoc; [reflexivity | exact Hu].
    + rewrite List.map_app in Hu. simpl in Hu. apply NoDup_remove_2 in Hu.
      intros Hin. apply Hu. apply in_or_app. now left.
Qed.

(** ** Number literals that are no decimal integers *)

Lemma uint_of_string_digit c r d :
  NilZero.uint_of_string (String c r) = Some d -> is_digit c = true.
Proof.
  simpl. destruct (NilEmpty.uint_of_string r) as [d'|]; [|discriminate].
  intros H. apply uint_of_char_spec in H.
  intuition subst; reflexivity.
Qed.

(** A run of digits that the JSON grammar takes as a whole number is the
    decimal form of its value: the grammar allows no zero in front. *)
Lemma uint_literal_decimal s d :
  NilZero.uint_of_string s = Some d -> Json.scan_unsigned s = Some (s, "") ->
  s = FormatUint (N.of_uint d).
Proof.
  intros Hu Hs. pose proof (NilZero.sus s d Hu) as Hsd.
  unfold FormatUint. rewrite DecimalN.Unsigned.to_of.
  destruct d as [|d|d|d|d|d|d|d|d|d|d];
    try (exfalso; exact (NilZero.uint_of_string_nonnil s Hu));
    try (symmetry; exact Hsd).
  destruct d as [|d|d|d|d|d|d|d|d|d|d]; try (symmetry; exact Hsd);
    exfalso; rewrite <- Hsd in Hs; discriminate Hs.
Qed.

Lemma literal_scans lit :
  Json.number_literal lit ->
  (exists r, lit = String "-" r /\ Json.scan_unsigned r = Some (r, "")) \/
  (exists c r, lit = String c r /\ Ascii.eqb c "-" = false /\
               Json.scan_unsigned lit = Some (lit, "")).
Proof.
  intros [(c & r & -> & _) H]. specialize (H "" eq_refl).
  rewrite append_nil_r in H. unfold Json.scan_number in H.
  destruct (Ascii.eqb c "-") eqn:Hc.
  - apply Ascii.eqb_eq in Hc. subst c. left. exists r. split; [reflexivity|].
    destruct (Json.scan_unsigned r) as [[x rest]|]; [|discriminate H].
    simpl in H. injection H as -> ->. reflexivity.
  - right. exists c, r. split; [reflexivity|]. split; [exact Hc | exact H].
Qed.

Lemma ParseUint_not_decimal bound lit :
  Json.number_literal lit -> ~ decimal lit -> ParseUint bound lit = None.
Proof.
  intros Hl Hn. unfold ParseUint.
  destruct (NilZero.uint_of_string lit) as [d|] eqn:Hu; [|reflexivity].
  exfalso. apply Hn. exists (N.of_uint d).
  destruct (literal_scans lit Hl) as [(r & -> & _) | (c & r & -> & _ & Hs)].
  - apply uint_of_string_digit in Hu. discriminate Hu.
  - exact (uint_literal_decimal _ d Hu Hs).
Qed.

Lemma ParseInt_not_decimal lit :
  Json.number_literal lit -> ~ decimal lit ->
  (forall r, lit = String "-" r -> ~ decimal r) -> ParseInt lit = None.
Proof.
  intros Hl Hn Hm. unfold ParseInt, NilZero.int_of_string.
  destruct (literal_scans lit Hl) as [(r & -> & Hs) | (c & r & -> & Hc & Hs)].
  - simpl. destruct (NilZero.uint_of_string r) as [d|] eqn:Hu; [|reflexivity].
    exfalso. apply (Hm r eq_refl). exists (N.of_uint d).
    exact (uint_literal_decimal r d Hu Hs).
  - rewrite Hc.
    destruct (NilZero.uint_of_string (String c r)) as [d|] eqn:Hu; [|reflexivity].
    exfalso. apply Hn. exists (N.of_uint d).
    exact (uint_literal_decimal _ d Hu Hs).
Qed.

Lemma ParseInt_minus_FormatUint n :
  ParseInt (String "-" (FormatUint n)) =
  if (n <=? 2 ^ 63)%N then Some (- Z.of_N n)%Z else None.
Proof.
  assert (U : NilZero.uint_of_string (FormatUint n) = Some (N.to_uint n))
    by (apply NilZero.usu; rewrite to_uint_unorm; apply unorm_nonnil).
  unfold ParseInt, NilZero.int_of_string. simpl Ascii.eqb. cbv iota. rewrite U. simpl option_map.
  cbv iota beta. unfold Z.of_int, Z.of_uint.
  change (Pos.of_uint (N.to_uint n)) with (N.of_uint (N.to_uint n)).
  rewrite DecimalN.Unsigned.of_to.
  destruct (N.leb_spec n (2 ^ 63)).
  - assert (Hl : (- 2 ^ 63 <=? - Z.of_N n)%Z = true)
      by (apply Z.leb_le; change (2 ^ 63)%Z with (Z.of_N (2 ^ 63)); lia).
    assert (Hz : (- Z.of_N n <? 2 ^ 63)%Z = true) by (apply Z.ltb_lt; lia).
    now rewrite Hl, Hz.
  - assert (Hl : (- 2 ^ 63 <=? - Z.of_N n)%Z = false)
      by (apply Z.leb_gt; change (2 ^ 63)%Z with (Z.of_N (2 ^ 63)); lia).
    now rewrite Hl.
Qed.

Lemma decimal_digits lit : decimal lit -> all_digits lit = true.
Proof.
  intros [n ->]. destruct (FormatUint_shape n) as [E | (c & ds & E & Hc & _ & Hd)]; rewrite E.
  - reflexivity.
  - simpl. now rewrite Hc, Hd.
Qed.

(** The literal [1e3] of the JSON grammar: a thousand, but no decimal
    integer. *)
Lemma exponent_literal : Json.number_literal "1e3" /\ ~ decimal "1e3".
Proof.
  split.
  - split; [exists "1"%char, "e3"; auto|].
    intros rest Hr.
    pose proof (JsonFacts.span_digits_app "" rest eq_refl Hr) as Hs.
    change ("" ++ rest) with rest in Hs.
    unfold Json.scan_number, Json.scan_unsigned, Json.scan_int, Json.scan_frac,
      Json.scan_exp, Json.digits1.
    simpl. rewrite Hs. reflexivity.
  - intros H. apply decimal_digits in H. discriminate H.
Qed.

(** What [readEvaluateTx] makes of a response for one validator, whatever
    the two literals. *)
Lemma readEvaluateTx_literals validator lm lc :
  ascii_text validator = true -> Json.number_literal lm -> Json.number_literal lc ->
  Ogmigo.readEvaluateTx (evaluate_response_of validator lm lc) =
  match ParseUint uint64_bound lm, ParseUint uint64_bound lc with
  | Some m, Some c => ([Ogmigo.mkExUnits validator (Ogmigo.mkExUnitsBudget m c)], None)
  | None, _ =>
      ([], Some (Errorf "failed to parse EvaluateTx response"
                   (Some (UnmarshalTypeError ("number " ++ lm) "uint64"))))
  | Some _, None =>
      ([], Some (Errorf "failed to parse EvaluateTx response"
                   (Some (UnmarshalTypeError ("number " ++ lc) "uint64"))))
  end.
Proof.
  intros Hv Hm Hc.
  assert (Hwf : Json.wf
                  (Json.Array
                     [ Json.Object
                         [ ("validator", Json.Str validator);
                           ("budget",
                            Json.Object
                              [("memory", Json.Number lm); ("cpu", Json.Number lc)]) ] ])).
  { apply Json.wf_Array. constructor; [|constructor].
    apply Json.wf_Object.
    constructor; [split; [reflexivity | now constructor]|].
    constructor; [split; [reflexivity|] | constructor].
    apply Json.wf_Object.
    constructor; [split; [reflexivity | now constructor]|].
    constructor; [split; [reflexivity | now constructor] | constructor]. }
  unfold Ogmigo.readEvaluateTx, Ogmigo.jsonparser_Get, evaluate_response_of.
  rewrite JsonFacts.parse_render.
  2:{ constructor. constructor; [|constructor]. split; [reflexivity | exact Hwf]. }
  cbn [find fst String.eqb Ascii.eqb Bool.eqb andb].
  unfold Json.Unmarshal.
  rewrite JsonFacts.parse_render by exact Hwf.
  cbn -[ParseUint].
  unfold uint64_bound.
  destruct (ParseUint _ lm); destruct (ParseUint _ lc); reflexivity.
Qed.


(** * The claims *)

(** ** C1: the round trip of a point *)

(** C1, amended.  For every valid point (a string marker, or a struct point
    with slot, hash or id, and height; texts in 7-bit ASCII), of either
    generation, and whatever the receiver held before: the JSON form and
    the CBOR form read back as the point; the attribute form reads back as
    the point when the point is a string marker or its struct has a field
    that is not its zero value. *)
Theorem Point_roundtrip :
  (forall p p0 : Point V6.PointStruct,
     valid_Point valid_V6 p = true ->
     json_roundtrip V6.ops p p0 /\ cbor_roundtrip V6.ops p p0 /\
     (populated_Point populated_V6 p = true -> attribute_roundtrip V6.ops p p0)) /\
  (forall p p0 : Point V5.PointStruct,
     valid_Point valid_V5 p = true ->
     json_roundtrip V5.ops p p0 /\ cbor_roundtrip V5.ops p p0 /\
     (populated_Point populated_V5 p = true -> attribute_roundtrip V5.ops p p0)).
Proof.
  split; intros p p0 V.
  - split; [|split].
    + apply (Point_json_roundtrip V6.ops valid_V6);
        auto using StructFacts.V6_json_wf, StructFacts.V6_json_dec.
      intros ps. eexists. reflexivity.
    + apply (Point_cbor_roundtrip V6.ops valid_V6);
        auto using StructFacts.V6_cbor_wf, StructFacts.V6_cbor_dec.
      intros ps. eexists. reflexivity.
    + intros Hp.
      pose proof (Point_av_roundtrip V6.ops valid_V6 populated_V6
                    StructFacts.V6_av_dec StructFacts.V6_av_populated p p0 V) as [E1 E2].
      rewrite Hp in E2. split; assumption.
  - split; [|split].
    + apply (Point_json_roundtrip V5.ops valid_V5);
        auto using StructFacts.V5_json_wf, StructFacts.V5_json_dec.
      intros ps. eexists. reflexivity.
    + apply (Point_cbor_roundtrip V5.ops valid_V5);
        auto using StructFacts.V5_cbor_wf, StructFacts.V5_cbor_dec.
      intros ps. eexists. reflexivity.
    + intros Hp.
      pose proof (Point_av_roundtrip V5.ops valid_V5 populated_V5
                    StructFacts.V5_av_dec StructFacts.V5_av_populated p p0 V) as [E1 E2].
      rewrite Hp in E2. split; assumption.
Qed.

Lemma Point_roundtrip_witness :
  (json_roundtrip V6.ops test_point zero_Point /\
   cbor_roundtrip V6.ops test_point zero_Point /\
   attribute_roundtrip V6.ops test_point zero_Point) /\
  (json_roundtrip V5.ops test_point_v5 zero_Point /\
   cbor_roundtrip V5.ops test_point_v5 zero_Point /\
   attribute_roundtrip V5.ops test_point_v5 zero_Point).
Proof.
  split.
  - destruct (proj1 Point_roundtrip test_point zero_Point eq_refl) as (J & C & A).
    exact (conj J (conj C (A eq_refl))).
  - destruct (proj2 Point_roundtrip test_point_v5 zero_Point eq_refl) as (J & C & A).
    exact (conj J (conj C (A eq_refl))).
Defined.

(** C1 as stated fails in the attribute form: the struct point whose
    fields are all zero is valid, its attribute map is empty, and
    [UnmarshalDynamoDBAttributeValue] reads an empty map as no point at
    all, so the receiver stays what it was. *)
Lemma Point_attribute_roundtrip_fails :
  valid_Point valid_V6 (PointStruct_Point V6.zero) = true /\
  Point_MarshalDynamoDBAttributeValue V6.ops (PointStruct_Point V6.zero) Dynamo.empty
  = (Dynamo.of_M [], None) /\
  Point_UnmarshalDynamoDBAttributeValue V6.ops zero_Point (Some (Dynamo.of_M []))
  = (zero_Point, None) /\
  ~ attribute_roundtrip V6.ops (PointStruct_Point V6.zero) zero_Point.
Proof.
  split; [reflexivity|]. split; [reflexivity|]. split; [reflexivity|].
  intros [_ H]. discriminate H.
Qed.

(** ** C2 and C4: the compatibility shim *)

Section ShimFacts.
Import Compatibility.
Variables Block Found NotFound Forward Backward : Type.
Variable json_FindIntersection_v6 : bytes -> V6.ResultFindIntersectionPraos * option error.
Variable json_FindIntersection_v5 :
  bytes -> ResultFindIntersectionV5 Found NotFound * option error.
Variable av_FindIntersection_v6 :
  option Dynamo.AttributeValue -> V6.ResultFindIntersectionPraos * option error.
Variable av_FindIntersection_v5 :
  option Dynamo.AttributeValue -> ResultFindIntersectionV5 Found NotFound * option error.
Variable FindIntersection_ConvertToV6 :
  ResultFindIntersectionV5 Found NotFound -> V6.ResultFindIntersectionPraos.
Variable json_NextBlock_v6 : bytes -> V6.ResultNextBlockPraos Block * option error.
Variable json_NextBlock_v5 : bytes -> ResultNextBlockV5 Forward Backward * option error.
Variable av_NextBlock_v6 :
  option Dynamo.AttributeValue -> V6.ResultNextBlockPraos Block * option error.
Variable av_NextBlock_v5 :
  option Dynamo.AttributeValue -> ResultNextBlockV5 Forward Backward * option error.
Variable NextBlock_ConvertToV6 :
  ResultNextBlockV5 Forward Backward -> V6.ResultNextBlockPraos Block.

Local Abbreviation FI_json :=
  (CompatibleResultFindIntersection_UnmarshalJSON Found NotFound
     json_FindIntersection_v6 json_FindIntersection_v5 FindIntersection_ConvertToV6).
Local Abbreviation FI_av :=
  (CompatibleResultFindIntersection_UnmarshalDynamoDBAttributeValue Found NotFound
     av_FindIntersection_v6 av_FindIntersection_v5 FindIntersection_ConvertToV6).
Local Abbreviation NB_json :=
  (CompatibleResultNextBlock_UnmarshalJSON Block Forward Backward
     json_NextBlock_v6 json_NextBlock_v5 NextBlock_ConvertToV6).
Local Abbreviation NB_av :=
  (CompatibleResultNextBlock_UnmarshalDynamoDBAttributeValue Block Forward Backward
     av_NextBlock_v6 av_NextBlock_v5 NextBlock_ConvertToV6).

Lemma FI_json_decode_any c data :
  accepted (FI_json c data) =
  decode_any (json_FindIntersection_v6 data) has_intersection_or_error
    (json_FindIntersection_v5 data) has_found_or_not_found FindIntersection_ConvertToV6.
Proof.
  unfold CompatibleResultFindIntersection_UnmarshalJSON, decode_any,
    has_intersection_or_error, has_found_or_not_found.
  destruct (json_FindIntersection_v6 data) as [r e6].
  destruct (json_FindIntersection_v5 data) as [r5 e5]. simpl.
  destruct (is_nil e6 && _); [reflexivity|].
  destruct (is_nil e5 && _); reflexivity.
Qed.

Lemma NB_json_decode_any c data :
  accepted (NB_json c data) =
  decode_any (json_NextBlock_v6 data) has_direction
    (json_NextBlock_v5 data) has_roll NextBlock_ConvertToV6.
Proof.
  unfold CompatibleResultNextBlock_UnmarshalJSON, decode_any, has_direction, has_roll.
  destruct (json_NextBlock_v6 data) as [r e6].
  destruct (json_NextBlock_v5 data) as [r5 e5]. simpl.
  destruct (is_nil e6 && _); [reflexivity|].
  destruct (is_nil e5 && _); reflexivity.
Qed.

Lemma NB_av_decode_any c item :
  accepted (NB_av c item) =
  decode_any (av_NextBlock_v6 item) has_direction
    (av_NextBlock_v5 item) has_roll NextBlock_ConvertToV6.
Proof.
  unfold CompatibleResultNextBlock_UnmarshalDynamoDBAttributeValue, decode_any,
    has_direction, has_roll.
  destruct (av_NextBlock_v6 item) as [r e6].
  destruct (av_NextBlock_v5 item) as [r5 e5]. simpl.
  destruct (is_nil e6 && _); [reflexivity|].
  destruct (is_nil e5 && _); reflexivity.
Qed.

Lemma FI_av_current c item :
  is_nil (snd (av_FindIntersection_v6 item)) &&
  has_intersection (fst (av_FindIntersection_v6 item)) = true ->
  FI_av c item = (fst (av_FindIntersection_v6 item), None).
Proof.
  unfold CompatibleResultFindIntersection_UnmarshalDynamoDBAttributeValue, has_intersection.
  destruct (av_FindIntersection_v6 item) as [s e6]. simpl. now intros ->.
Qed.

Lemma FI_json_failure c data :
  accepted (FI_json c data) = None ->
  FI_json c data =
  (c, Some (Errorf "unable to parse as either v5 or v6 FindIntersection"
              (snd (json_FindIntersection_v5 data)))).
Proof.
  unfold CompatibleResultFindIntersection_UnmarshalJSON.
  destruct (json_FindIntersection_v6 data) as [r e6].
  destruct (json_FindIntersection_v5 data) as [r5 e5]. simpl.
  destruct (is_nil e6 && _); [discriminate|].
  destruct (is_nil e5 && _); [discriminate | reflexivity].
Qed.

Lemma FI_av_failure c item :
  accepted (FI_av c item) = None ->
  FI_av c item =
  (c, Some (Errorf "unable to parse as either v5 or v6 FindIntersection"
              (snd (av_FindIntersection_v5 item)))).
Proof.
  unfold CompatibleResultFindIntersection_UnmarshalDynamoDBAttributeValue.
  destruct (av_FindIntersection_v6 item) as [r e6].
  destruct (av_FindIntersection_v5 item) as [r5 e5]. simpl.
  destruct (is_nil e6 && _); [discriminate|].
  destruct (is_nil e5 && _); [discriminate | reflexivity].
Qed.

Lemma NB_json_failure c data :
  accepted (NB_json c data) = None ->
  NB_json c data =
  (c, Some (Errorf "unable to parse as either v5 of v6 NextBlock"
              (snd (json_NextBlock_v5 data)))).
Proof.
  unfold CompatibleResultNextBlock_UnmarshalJSON.
  destruct (json_NextBlock_v6 data) as [r e6].
  destruct (json_NextBlock_v5 data) as [r5 e5]. simpl.
  destruct (is_nil e6 && _); [discriminate|].
  destruct (is_nil e5 && _); [discriminate | reflexivity].
Qed.

Lemma NB_av_failure c item :
  accepted (NB_av c item) = None ->
  NB_av c item =
  (c, Some (Errorf "unable to parse as either v5 or v6 NextBlock"
              (snd (av_NextBlock_v5 item)))).
Proof.
  unfold CompatibleResultNextBlock_UnmarshalDynamoDBAttributeValue.
  destruct (av_NextBlock_v6 item) as [r e6].
  destruct (av_NextBlock_v5 item) as [r5 e5]. simpl.
  destruct (is_nil e6 && _); [discriminate|].
  destruct (is_nil e5 && _); [discriminate | reflexivity].
Qed.

(** C2, amended.  Each result decoder of the shim first decodes the payload
    as the current schema and then, if that is not accepted, as the legacy
    schema, and converts an accepted legacy value.  For FindIntersection in
    JSON the current schema is accepted if and only if the decode returns
    no error and [intersection] or [error] is populated; the legacy schema
    if and only if [IntersectionFound] or [IntersectionNotFound] is.  For
    NextBlock, in JSON and in the attribute encoding alike, the current
    schema is accepted if and only if [direction] is not empty, the legacy
    schema if and only if [RollBackward] or [RollForward] is populated.
    For FindIntersection in the attribute encoding a current-schema value
    with [intersection] populated is accepted. *)
Theorem shim_detection :
  (forall c data,
     accepted (FI_json c data) =
     decode_any (json_FindIntersection_v6 data) has_intersection_or_error
       (json_FindIntersection_v5 data) has_found_or_not_found
       FindIntersection_ConvertToV6) /\
  (forall c data,
     accepted (NB_json c data) =
     decode_any (json_NextBlock_v6 data) has_direction
       (json_NextBlock_v5 data) has_roll NextBlock_ConvertToV6) /\
  (forall c item,
     accepted (NB_av c item) =
     decode_any (av_NextBlock_v6 item) has_direction
       (av_NextBlock_v5 item) has_roll NextBlock_ConvertToV6) /\
  (forall c item,
     is_nil (snd (av_FindIntersection_v6 item)) &&
     has_intersection (fst (av_FindIntersection_v6 item)) = true ->
     FI_av c item = (fst (av_FindIntersection_v6 item), None)).
Proof.
  split; [|split; [|split]].
  - exact FI_json_decode_any.
  - exact NB_json_decode_any.
  - exact NB_av_decode_any.
  - exact FI_av_current.
Qed.

(** C4, amended.  When a payload is accepted as neither schema, each result
    decoder of the shim leaves the receiver as it was and fails with one
    error, "unable to parse as either v5 or v6 ...", that wraps the error
    of the legacy-schema decode alone ([nil] when that decode itself
    succeeded); the error of the current-schema decode is dropped. *)
Theorem shim_failure_wraps_legacy_error :
  (forall c data,
     accepted (FI_json c data) = None ->
     FI_json c data =
     (c, Some (Errorf "unable to parse as either v5 or v6 FindIntersection"
                 (snd (json_FindIntersection_v5 data))))) /\
  (forall c item,
     accepted (FI_av c item) = None ->
     FI_av c item =
     (c, Some (Errorf "unable to parse as either v5 or v6 FindIntersection"
                 (snd (av_FindIntersection_v5 item))))) /\
  (forall c data,
     accepted (NB_json c data) = None ->
     NB_json c data =
     (c, Some (Errorf "unable to parse as either v5 of v6 NextBlock"
                 (snd (json_NextBlock_v5 data))))) /\
  (forall c item,
     accepted (NB_av c item) = None ->
     NB_av c item =
     (c, Some (Errorf "unable to parse as either v5 or v6 NextBlock"
                 (snd (av_NextBlock_v5 item))))).
Proof.
  split; [|split; [|split]].
  - exact FI_json_failure.
  - exact FI_av_failure.
  - exact NB_json_failure.
  - exact NB_av_failure.
Qed.

(** X1, beyond the claims.  In the attribute form of FindIntersection the
    second test reads the current-schema variable again ([s.Intersection],
    where the JSON form reads the legacy fields): once the current-schema
    decode has returned no error and no intersection, the decoder fails,
    whatever the legacy decode found. *)
Theorem FI_av_legacy_unreachable c item :
  snd (av_FindIntersection_v6 item) = None ->
  has_intersection (fst (av_FindIntersection_v6 item)) = false ->
  accepted (FI_av c item) = None.
Proof.
  unfold CompatibleResultFindIntersection_UnmarshalDynamoDBAttributeValue, has_intersection.
  destruct (av_FindIntersection_v6 item) as [s e6].
  destruct (av_FindIntersection_v5 item) as [v e5]. simpl.
  intros -> ->. simpl. now rewrite andb_false_r.
Qed.

End ShimFacts.

(** The worked instance is FindIntersection over the JSON and attribute
    models; the NextBlock decoders play no part in it and are constant. *)
Lemma shim_detection_witness :
  Compatibility.example_UnmarshalDynamoDBAttributeValue (Some Compatibility.current_item) =
  (fst (Compatibility.example_av_v6 (Some Compatibility.current_item)), None).
Proof.
  apply (proj2 (proj2 (proj2
           (shim_detection Json.value
              Compatibility.IntersectionFound5 Compatibility.IntersectionNotFound5
              unit unit
              Compatibility.example_json_v6 Compatibility.example_json_v5
              Compatibility.example_av_v6 Compatibility.example_av_v5
              Compatibility.example_convert
              (fun _ => (V6.zero_ResultNextBlockPraos, None))
              (fun _ => (Compatibility.mkResultNextBlockV5 None None, None))
              (fun _ => (V6.zero_ResultNextBlockPraos, None))
              (fun _ => (Compatibility.mkResultNextBlockV5 None None, None))
              (fun _ => V6.zero_ResultNextBlockPraos))))).
  reflexivity.
Defined.

(** C2 as stated fails for FindIntersection in JSON: the payload
    [error_only] populates no [intersection], yet the decoder accepts it
    as the current schema, where the claim's test (the intersection field
    alone) would go on to the legacy schema and fail. *)
Lemma shim_accepts_error_without_intersection :
  Compatibility.has_intersection
    (fst (Compatibility.example_json_v6 Compatibility.error_only)) = false /\
  Compatibility.example_UnmarshalJSON Compatibility.error_only =
  (V6.mkResultFindIntersectionPraos None None
     (Some (V6.mkResultError 1000 "x" None None)) None, None) /\
  Compatibility.decode_any
    (Compatibility.example_json_v6 Compatibility.error_only) Compatibility.has_intersection
    (Compatibility.example_json_v5 Compatibility.error_only)
    Compatibility.has_found_or_not_found
    Compatibility.example_convert = None.
Proof. split; [reflexivity|]. split; reflexivity. Qed.

Lemma shim_failure_wraps_legacy_error_witness :
  Compatibility.example_UnmarshalJSON (q "{'intersection':5}") =
  (V6.zero_ResultFindIntersectionPraos,
   Some (Errorf "unable to parse as either v5 or v6 FindIntersection"
           (snd (Compatibility.example_json_v5 (q "{'intersection':5}"))))).
Proof.
  apply (proj1 (shim_failure_wraps_legacy_error Json.value
                  Compatibility.IntersectionFound5 Compatibility.IntersectionNotFound5
                  unit unit
                  Compatibility.example_json_v6 Compatibility.example_json_v5
                  Compatibility.example_av_v6 Compatibility.example_av_v5
                  Compatibility.example_convert
                  (fun _ => (V6.zero_ResultNextBlockPraos, None))
                  (fun _ => (Compatibility.mkResultNextBlockV5 None None, None))
                  (fun _ => (V6.zero_ResultNextBlockPraos, None))
                  (fun _ => (Compatibility.mkResultNextBlockV5 None None, None))
                  (fun _ => V6.zero_ResultNextBlockPraos))).
  reflexivity.
Defined.

(** C4 as stated fails: for the payload [5] both decodes fail, each with
    its own error, and the error returned carries the legacy one only. *)
Lemma shim_failure_drops_current_error :
  snd (Compatibility.example_json_v6 "5") =
  Some (UnmarshalTypeError "number" "chainsync.ResultFindIntersectionPraos") /\
  snd (Compatibility.example_json_v5 "5") =
  Some (UnmarshalTypeError "number" "v5.ResultFindIntersectionV5") /\
  snd (Compatibility.example_UnmarshalJSON "5") =
  Some (Errorf "unable to parse as either v5 or v6 FindIntersection"
          (Some (UnmarshalTypeError "number" "v5.ResultFindIntersectionV5"))) /\
  carries (Errorf "unable to parse as either v5 or v6 FindIntersection"
             (Some (UnmarshalTypeError "number" "v5.ResultFindIntersectionV5")))
          (UnmarshalTypeError "number" "v5.ResultFindIntersectionV5") = true /\
  carries (Errorf "unable to parse as either v5 or v6 FindIntersection"
             (Some (UnmarshalTypeError "number" "v5.ResultFindIntersectionV5")))
          (UnmarshalTypeError "number" "chainsync.ResultFindIntersectionPraos") = false.
Proof. split; [reflexivity|]. split; [reflexivity|]. split; [reflexivity|]. split; reflexivity. Qed.

(** The legacy payload [legacy_item] decodes as the legacy schema with
    [IntersectionFound] populated, and the attribute decoder rejects it. *)
Lemma FI_av_legacy_unreachable_witness :
  is_nil (snd (Compatibility.example_av_v5 (Some Compatibility.legacy_item))) &&
  Compatibility.has_found_or_not_found
    (fst (Compatibility.example_av_v5 (Some Compatibility.legacy_item))) = true /\
  Compatibility.accepted
    (Compatibility.example_UnmarshalDynamoDBAttributeValue (Some Compatibility.legacy_item))
  = None.
Proof.
  split; [reflexivity|].
  apply (FI_av_legacy_unreachable
           Compatibility.IntersectionFound5 Compatibility.IntersectionNotFound5
           Compatibility.example_av_v6 Compatibility.example_av_v5
           Compatibility.example_convert);
    reflexivity.
Defined.

(** ** C5: a response with an unknown method *)

(** C5.  When the envelope of a response decodes, has no error field, and
    its method is none of [findIntersection], [FindIntersect], [nextBlock],
    [RequestNext], then [ResponsePraos.UnmarshalJSON] fails with the
    unknown-method error, and the receiver gets no result: its [Result]
    and [Error] are what they were.  This holds whatever the library
    decoders of the four types do. *)
Theorem ResponsePraos_unknown_method (Block : Type)
  (unmarshal_envelope : bytes -> V6.envelope * option error)
  (unmarshal_ResultError : bytes -> V6.ResultError * option error)
  (unmarshal_FindIntersection : bytes -> V6.ResultFindIntersectionPraos * option error)
  (unmarshal_NextBlock : bytes -> V6.ResultNextBlockPraos Block * option error)
  (r : V6.ResponsePraos Block) (b : bytes) (m : V6.envelope) :
  unmarshal_envelope b = (m, None) ->
  V6.m_Error m = None ->
  known_method (V6.m_Method m) = false ->
  exists r',
    V6.ResponsePraos_UnmarshalJSON Block unmarshal_envelope unmarshal_ResultError
      unmarshal_FindIntersection unmarshal_NextBlock r b
    = (r', Some (New ("unknown method: '" ++ V6.rp_Method r ++ "'"))) /\
    V6.rp_Result r' = V6.rp_Result r /\ V6.rp_Error r' = V6.rp_Error r /\
    V6.rp_Method r' = V6.rp_Method r.
Proof.
  intros Hm He Hk. unfold V6.ResponsePraos_UnmarshalJSON. rewrite Hm, He.
  unfold known_method in Hk.
  apply orb_false_elim in Hk as [Hk H4]. apply orb_false_elim in Hk as [Hk H3].
  apply orb_false_elim in Hk as [H1 H2].
  rewrite H1, H2, H3, H4. simpl. eexists. repeat split.
Qed.

Lemma ResponsePraos_unknown_method_witness :
  exists r',
    V6.ResponsePraos_UnmarshalJSON Json.value example_envelope example_ResultError
      Compatibility.example_json_v6 example_NextBlock
      (V6.mkResponsePraos "" "" V6.NoResult None None) example_response
    = (r', Some (New ("unknown method: '" ++ "" ++ "'"))) /\
    V6.rp_Result r' = V6.NoResult /\ V6.rp_Error r' = None /\ V6.rp_Method r' = "".
Proof.
  apply (ResponsePraos_unknown_method Json.value example_envelope example_ResultError
           Compatibility.example_json_v6 example_NextBlock
           (V6.mkResponsePraos "" "" V6.NoResult None None) example_response
           (V6.mkEnvelope "2.0" "submitTransaction" (Some "null")
              (Some (q "{'direction':'forward'}")) None));
    reflexivity.
Defined.

(** ** C6: the order of points *)

(** C6, amended.  [Points.Less] is a strict order on the sort key of a point
    (its slot, or its marker), not a total order on points, in both
    generations.  For points at two indexes of the slice: of two struct
    points the one with the greater slot sorts first; a struct point sorts
    ahead of a string marker, never the other way round; of two string
    markers the one whose text is the greater, byte by byte, sorts first.
    Nothing sorts before itself, the order is transitive, and two points
    neither of which sorts before the other have the same key (the same
    slot, or the same marker). *)
Theorem Points_Less_order (PS : Type) (O : PointStructOps PS) :
  (forall (pp : list (Point PS)) (i j : Z) (pi pj : Point PS),
     index pp i = Some pi -> index pp j = Some pj ->
     well_formed pi = true -> well_formed pj = true ->
     (forall si sj,
        is_struct pi = true -> is_struct pj = true ->
        pointStruct pi = Some si -> pointStruct pj = Some sj ->
        Points_Less O pp i j = Returns (ps_Slot O sj <? ps_Slot O si)%N) /\
     (is_struct pi = true -> is_struct pj = false -> Points_Less O pp i j = Returns true) /\
     (is_struct pi = false -> is_struct pj = true -> Points_Less O pp i j = Returns false) /\
     (is_struct pi = false -> is_struct pj = false ->
      Points_Less O pp i j = Returns (String.ltb (pointString pj) (pointString pi)))) /\
  (forall a, well_formed a = true -> ~ before O a a) /\
  (forall a b c,
     well_formed a = true -> well_formed b = true -> well_formed c = true ->
     before O a b -> before O b c -> before O a c) /\
  (forall a b,
     well_formed a = true -> well_formed b = true ->
     ~ before O a b -> ~ before O b a -> sort_key O a = sort_key O b).
Proof.
  split; [|split; [|split]].
  - intros pp i j pi pj Hi Hj Wi Wj.
    rewrite (Less_index O pp i j pi pj Hi Hj), (Less_key O pi pj Wi Wj).
    unfold sort_key, well_formed in *.
    split; [|split; [|split]].
    + intros si sj Si Sj Ei Ej. now rewrite Si, Sj, Ei, Ej.
    + intros Si Sj. rewrite Si, Sj in *. simpl in Wi.
      destruct (pointStruct pi); [reflexivity | discriminate].
    + intros Si Sj. rewrite Si, Sj in *. simpl in Wj.
      destruct (pointStruct pj); [reflexivity | discriminate].
    + intros Si Sj. now rewrite Si, Sj.
  - intros a Wa Ha. apply before_key in Ha; auto.
    destruct (sort_key O a); [lia|]. now rewrite ltb_irrefl in Ha.
  - intros a b c Wa Wb Wc Hab Hbc.
    apply before_key in Hab; auto. apply before_key in Hbc; auto.
    apply before_key; auto.
    destruct (sort_key O a), (sort_key O b), (sort_key O c); try tauto; try lia.
    eapply ltb_trans; eauto.
  - intros a b Wa Wb Hab Hba.
    rewrite before_key in Hab, Hba by assumption.
    destruct (sort_key O a) as [sa|ta], (sort_key O b) as [sb|tb]; try tauto.
    + f_equal. lia.
    + f_equal. apply ltb_total.
      * destruct (String.ltb ta tb); [tauto | reflexivity].
      * destruct (String.ltb tb ta); [tauto | reflexivity].
Qed.

Lemma Points_Less_order_witness :
  Points_Less V6.ops mixed 1 3 = Returns false /\
  Points_Less V6.ops mixed 1 0 = Returns true /\
  Points_Less V6.ops mixed 0 1 = Returns false /\
  Points_Less V6.ops mixed 2 0 = Returns true.
Proof.
  refine (conj _ (conj _ (conj _ _))).
  - exact (proj1 (proj1 (Points_Less_order _ V6.ops) mixed 1 3 _ _
                    eq_refl eq_refl eq_refl eq_refl)%Z
             _ _ eq_refl eq_refl eq_refl eq_refl).
  - exact (proj1 (proj2 (proj1 (Points_Less_order _ V6.ops) mixed 1 0 _ _
                           eq_refl eq_refl eq_refl eq_refl)%Z)
             eq_refl eq_refl).
  - exact (proj1 (proj2 (proj2 (proj1 (Points_Less_order _ V6.ops) mixed 0 1 _ _
                                  eq_refl eq_refl eq_refl eq_refl)%Z))
             eq_refl eq_refl).
  - exact (proj2 (proj2 (proj2 (proj1 (Points_Less_order _ V6.ops) mixed 2 0 _ _
                                  eq_refl eq_refl eq_refl eq_refl)%Z))
             eq_refl eq_refl).
Defined.

(** C6 as stated fails.  The order is not total: two different struct
    points of one slot are ordered neither way.  And two markers are not
    put in the order of their texts: ["a"] is before ["b"] as a text, but
    [Less] puts ["b"] first, as [TestPoints_Sort] expects. *)
Lemma Points_Less_not_total :
  PointStruct_Point (V6.mkPointStruct None "aa" 10) <>
  PointStruct_Point (V6.mkPointStruct None "bb" 10) /\
  Points_Less V6.ops
    [ PointStruct_Point (V6.mkPointStruct None "aa" 10);
      PointStruct_Point (V6.mkPointStruct None "bb" 10) ] 0 1 = Returns false /\
  Points_Less V6.ops
    [ PointStruct_Point (V6.mkPointStruct None "aa" 10);
      PointStruct_Point (V6.mkPointStruct None "bb" 10) ] 1 0 = Returns false /\
  String.ltb "a" "b" = true /\
  Points_Less V6.ops [PointString_Point "a"; PointString_Point "b"] 0 1 = Returns false /\
  Points_Less V6.ops [PointString_Point "a"; PointString_Point "b"] 1 0 = Returns true.
Proof. repeat split; try reflexivity. discriminate. Qed.

(** ** C7 and C8: the first request *)

(** C7.  From the single point {slot 456, hash "hash"} and an empty Store
    (one that loads no point, as the test's [mockStore] does), [getInit]
    gives exactly the bytes of the test's literal. *)
Theorem getInit_from_points (store : Ogmigo.Store) :
  Ogmigo.Load store = ([], None) ->
  Ogmigo.getInit store [p1] = (want, None).
Proof.
  intros HL. unfold Ogmigo.getInit. rewrite HL. reflexivity.
Qed.

Lemma getInit_from_points_witness :
  Ogmigo.getInit (Ogmigo.mockStore []) [p1] = (want, None).
Proof.
  apply (getInit_from_points (Ogmigo.mockStore [])). reflexivity.
Defined.

(** C8.  A Store that loads one checkpoint (slot 456) takes precedence over
    the caller's point (slot 654): the request is built from the Store's
    point.  In general, whenever the Store loads a non-empty sequence, the
    caller's points do not matter. *)
Theorem getInit_from_store :
  Ogmigo.getInit (Ogmigo.mockStore [p1]) [p2] = (want, None) /\
  forall store pts pp pp',
    Ogmigo.Load store = (pts, None) -> pts <> [] ->
    Ogmigo.getInit store pp = Ogmigo.getInit store pp'.
Proof.
  split; [reflexivity|].
  intros store pts pp pp' HL Hne. unfold Ogmigo.getInit. rewrite HL.
  destruct pts; [contradiction | reflexivity].
Qed.

Lemma getInit_from_store_witness :
  Ogmigo.getInit (Ogmigo.mockStore [p1]) [p2] = Ogmigo.getInit (Ogmigo.mockStore [p1]) [].
Proof.
  apply (proj2 getInit_from_store (Ogmigo.mockStore [p1]) [p1] [p2] []).
  - reflexivity.
  - discriminate.
Defined.

(** ** C9: the width of numbers *)

(** C9, amended.  Fees and coin amounts are [num.Int]: [TxBody.fee],
    [Value.coins] and the amounts of [Value.assets] are read by that type's
    decoder alone, whatever it does, and what it gives is what is stored.
    The other numbers have a fixed width.  [ExUnitsBudget.memory] and [cpu]
    are [uint64]: [readEvaluateTx] returns them when both are written as
    decimal integers below [2^64], and fails when one is [2^64] or more or
    is no decimal integer of a natural number (negative, or written with a
    fraction or an exponent).  [TxBody.withdrawals] holds [int64]: an
    amount written as a decimal integer from [-2^63] to [2^63 - 1] is stored
    under its account, beside the entries the receiver's map held; for any
    other number the entry holds zero and an error is reported. *)
Theorem numbers_decode_within_their_width :
  (forall validator memory cpu,
     ascii_text validator = true ->
     ((memory < 2 ^ 64)%N -> (cpu < 2 ^ 64)%N ->
      Ogmigo.readEvaluateTx (evaluate_response validator memory cpu) =
      ([Ogmigo.mkExUnits validator (Ogmigo.mkExUnitsBudget memory cpu)], None)) /\
     ((2 ^ 64 <= memory)%N \/ (2 ^ 64 <= cpu)%N ->
      exists e, Ogmigo.readEvaluateTx (evaluate_response validator memory cpu) = ([], Some e))) /\
  (forall validator lm lc,
     ascii_text validator = true -> Json.number_literal lm -> Json.number_literal lc ->
     ~ decimal lm \/ ~ decimal lc ->
     exists e, Ogmigo.readEvaluateTx (evaluate_response_of validator lm lc) = ([], Some e)) /\
  (forall (num_Int : Type) (dec_num_Int : Json.decoder num_Int) (body : V5.TxBody num_Int)
          (account : string),
     (forall amount : N,
        ((amount < 2 ^ 63)%N ->
         V5.dec_TxBody dec_num_Int (withdrawal_body account amount) body None =
         Json.Go (with_withdrawal body account (Z.of_N amount)) None) /\
        ((2 ^ 63 <= amount)%N ->
         V5.dec_TxBody dec_num_Int (withdrawal_body account amount) body None =
         Json.Go (with_withdrawal body account 0%Z)
           (Some (UnmarshalTypeError ("number " ++ FormatUint amount) "int64"))) /\
        ((amount <= 2 ^ 63)%N ->
         V5.dec_TxBody dec_num_Int (withdrawal_of account (String "-" (FormatUint amount)))
           body None =
         Json.Go (with_withdrawal body account (- Z.of_N amount)%Z) None) /\
        ((2 ^ 63 < amount)%N ->
         V5.dec_TxBody dec_num_Int (withdrawal_of account (String "-" (FormatUint amount)))
           body None =
         Json.Go (with_withdrawal body account 0%Z)
           (Some (UnmarshalTypeError ("number -" ++ FormatUint amount) "int64")))) /\
     (forall lit,
        Json.number_literal lit -> ~ decimal lit ->
        (forall r, lit = String "-" r -> ~ decimal r) ->
        V5.dec_TxBody dec_num_Int (withdrawal_of account lit) body None =
        Json.Go (with_withdrawal body account 0%Z)
          (Some (UnmarshalTypeError ("number " ++ lit) "int64")))) /\
  (forall (num_Int : Type) (dec_num_Int : Json.decoder num_Int) (body : V5.TxBody num_Int)
          (x : Json.value),
     V5.dec_TxBody dec_num_Int (Json.Object [("fee", x)]) body None =
     match dec_num_Int x (V5.Fee body) None with
     | Json.Go fee saved =>
         Json.Go (V5.mkTxBody fee (V5.TimeToLive body) (V5.Validity body)
                    (V5.Withdrawals body) (V5.TotalCollateral body)) saved
     | Json.Stop fee e =>
         Json.Stop (V5.mkTxBody fee (V5.TimeToLive body) (V5.Validity body)
                      (V5.Withdrawals body) (V5.TotalCollateral body)) e
     end) /\
  (forall (num_Int : Type) (zero_Int : num_Int) (dec_num_Int : Json.decoder num_Int)
          (v : V5.Value num_Int) (x : Json.value),
     V5.dec_Value zero_Int dec_num_Int (Json.Object [("coins", x)]) v None =
     match dec_num_Int x (V5.Value_Coins num_Int v) None with
     | Json.Go coins saved => Json.Go (V5.mkValue num_Int coins (V5.Value_Assets num_Int v)) saved
     | Json.Stop coins e => Json.Stop (V5.mkValue num_Int coins (V5.Value_Assets num_Int v)) e
     end) /\
  (forall (num_Int : Type) (zero_Int : num_Int) (dec_num_Int : Json.decoder num_Int)
          (v : V5.Value num_Int) (asset : string) (x : Json.value),
     V5.dec_Value zero_Int dec_num_Int (Json.Object [("assets", Json.Object [(asset, x)])])
       v None =
     match dec_num_Int x zero_Int None with
     | Json.Go amount saved =>
         Json.Go (V5.mkValue num_Int (V5.Value_Coins num_Int v)
                    (map_set (V5.Value_Assets num_Int v) asset amount)) saved
     | Json.Stop _ e => Json.Stop v e
     end).
Proof.
  split; [|split; [|split; [|split; [|split]]]].
  - intros validator memory cpu Hv. rewrite (readEvaluateTx_decodes _ _ _ Hv). split.
    + intros Hm Hc. now rewrite !ParseUint_FormatUint.
    + intros [Hm | Hc].
      * rewrite (ParseUint_FormatUint_overflow _ memory) by exact Hm. eauto.
      * rewrite (ParseUint_FormatUint_overflow _ cpu) by exact Hc.
        destruct (ParseUint uint64_bound (FormatUint memory)); eauto.
  - intros validator lm lc Hv Hm Hc Hn.
    rewrite (readEvaluateTx_literals _ _ _ Hv Hm Hc).
    destruct Hn as [Hn | Hn].
    + rewrite (ParseUint_not_decimal _ lm Hm Hn). eauto.
    + rewrite (ParseUint_not_decimal _ lc Hc Hn).
      destruct (ParseUint uint64_bound lm); eauto.
  - intros num_Int dec_num_Int body account. split.
    + intros amount.
      unfold V5.dec_TxBody, withdrawal_body, withdrawal_of, with_withdrawal.
      cbn -[ParseInt FormatUint map_set].
      rewrite ParseInt_FormatUint, ParseInt_minus_FormatUint.
      repeat split; intros Ha.
      * destruct (N.ltb_spec amount (2 ^ 63)); [reflexivity | lia].
      * destruct (N.ltb_spec amount (2 ^ 63)); [lia | reflexivity].
      * destruct (N.leb_spec amount (2 ^ 63)); [reflexivity | lia].
      * destruct (N.leb_spec amount (2 ^ 63)); [lia | reflexivity].
    + intros lit Hl Hn Hm.
      unfold V5.dec_TxBody, withdrawal_of, with_withdrawal.
      cbn -[ParseInt map_set].
      rewrite (ParseInt_not_decimal lit Hl Hn Hm). reflexivity.
  - intros num_Int dec_num_Int body x. unfold V5.dec_TxBody. cbn.
    destruct (dec_num_Int x (V5.Fee body) None); reflexivity.
  - intros num_Int zero_Int dec_num_Int v x. unfold V5.dec_Value. cbn.
    destruct (dec_num_Int x (V5.Value_Coins num_Int v) None); reflexivity.
  - intros num_Int zero_Int dec_num_Int v asset x. unfold V5.dec_Value. cbn -[map_set].
    destruct (dec_num_Int x zero_Int None); [reflexivity|].
    destruct v; reflexivity.
Qed.

Lemma numbers_decode_within_their_width_witness :
  Ogmigo.readEvaluateTx (evaluate_response "spend:0" 14000000 10000000000) =
  ([Ogmigo.mkExUnits "spend:0" (Ogmigo.mkExUnitsBudget 14000000 10000000000)], None) /\
  (exists e, Ogmigo.readEvaluateTx (evaluate_response_of "spend:0" "1e3" "1") = ([], Some e)) /\
  V5.dec_TxBody Json.dec_int64 (withdrawal_body "stake1u9" 7)
    (V5.mkTxBody 0%Z 0%Z (V5.mkValidityInterval 0 0) [("stake1u8", 5%Z)] None) None =
  Json.Go (V5.mkTxBody 0%Z 0%Z (V5.mkValidityInterval 0 0)
             [("stake1u8", 5%Z); ("stake1u9", 7%Z)] None) None.
Proof.
  refine (conj _ (conj _ _)).
  - apply (proj1 (proj1 numbers_decode_within_their_width "spend:0" 14000000%N 10000000000%N
                    eq_refl)); reflexivity.
  - apply (proj1 (proj2 numbers_decode_within_their_width) "spend:0" "1e3" "1" eq_refl
             (proj1 exponent_literal) (JsonFacts.FormatUint_literal 1)).
    left. exact (proj2 exponent_literal).
  - apply (proj1 (proj1 (proj1 (proj2 (proj2 numbers_decode_within_their_width))
                           Z Json.dec_int64
                           (V5.mkTxBody 0%Z 0%Z (V5.mkValidityInterval 0 0)
                              [("stake1u8", 5%Z)] None) "stake1u9") 7%N)).
    reflexivity.
Defined.

(** C9 as stated fails: a memory budget of [2^64] is not decoded. *)
Lemma execution_units_overflow :
  Ogmigo.readEvaluateTx
    (q "{'result':[{'validator':'spend:0','budget':{'memory':18446744073709551616,'cpu':1}}]}")
  = ([], Some (Errorf "failed to parse EvaluateTx response"
                 (Some (UnmarshalTypeError "number 18446744073709551616" "uint64")))).
Proof. reflexivity. Qed.

(** ** C10: [Point.UnmarshalJSON] on the empty input *)

(** C10.  [Point.UnmarshalJSON] is not total: on the empty byte slice it
    indexes [data[0]] and panics.  On every other input it returns: either
    [nil], and then the receiver is a string point or a struct point read
    from the input, or an error, and then the receiver is as it was.  This
    holds in both generations. *)
Theorem Point_UnmarshalJSON_empty_panics (PS : Type) (O : PointStructOps PS)
  (p : Point PS) :
  (exists msg, Point_UnmarshalJSON O p "" = Panics msg) /\
  (forall data, data <> "" ->
     (exists p', Point_UnmarshalJSON O p data = Returns (p', None) /\
                 ((exists s, p' = PointString_Point s) \/
                  (exists ps, p' = PointStruct_Point ps))) \/
     (exists e, Point_UnmarshalJSON O p data = Returns (p, Some e))).
Proof.
  split; [eexists; reflexivity|].
  intros [|c r] Hd; [contradiction|]. unfold Point_UnmarshalJSON.
  destruct (Ascii.eqb c dquote).
  - destruct (Json.Unmarshal Json.dec_string (String c r) "") as [s [e|]].
    + right. eexists. reflexivity.
    + left. eexists. split; [reflexivity|]. left. now exists s.
  - destruct (Json.Unmarshal (ps_json_dec O) (String c r) (ps_zero O)) as [ps [e|]].
    + right. eexists. reflexivity.
    + left. eexists. split; [reflexivity|]. right. now exists ps.
Qed.

Lemma Point_UnmarshalJSON_empty_panics_witness :
  (exists p', Point_UnmarshalJSON V6.ops zero_Point (q "'origin'") = Returns (p', None) /\
              ((exists s, p' = PointString_Point s) \/
               (exists ps, p' = PointStruct_Point ps))) \/
  (exists e, Point_UnmarshalJSON V6.ops zero_Point (q "'origin'") = Returns (zero_Point, Some e)).
Proof.
  apply (proj2 (Point_UnmarshalJSON_empty_panics V6.PointStruct V6.ops zero_Point)).
  discriminate.
Defined.

(** * Further properties of the code *)

(** ** Transaction ids *)

(** X2.  A transaction id is read back.  For a hash that is not empty and
    holds no [#], and an index in the range of [int], [TxHash] and [Index]
    of [NewTxID(hash, index)] are the hash and the index; so they are for
    the id of a [TxIn] of either generation.  With the empty hash the id
    starts with [#] and is not read back: [TxHash] gives the empty text
    and [Index] gives -1, whatever the index was. *)
Theorem TxID_roundtrip :
  (forall (h : string) (i : Z),
     h <> "" -> Index h "#" = (-1)%Z -> (- 2 ^ 63 <= i < 2 ^ 63)%Z ->
     TxID_TxHash (NewTxID h i) = h /\ TxID_Index (NewTxID h i) = i) /\
  (forall t : V5.TxIn,
     V5.TxIn_TxHash t <> "" -> Index (V5.TxIn_TxHash t) "#" = (-1)%Z ->
     (- 2 ^ 63 <= V5.TxIn_Index t < 2 ^ 63)%Z ->
     TxID_TxHash (V5.TxIn_TxID t) = V5.TxIn_TxHash t /\
     TxID_Index (V5.TxIn_TxID t) = V5.TxIn_Index t) /\
  (forall t : V6.TxIn,
     V6.TxInID_ID (V6.TxIn_Transaction t) <> "" ->
     Index (V6.TxInID_ID (V6.TxIn_Transaction t)) "#" = (-1)%Z ->
     (- 2 ^ 63 <= V6.TxIn_Index t < 2 ^ 63)%Z ->
     TxID_TxHash (V6.TxIn_TxID t) = V6.TxInID_ID (V6.TxIn_Transaction t) /\
     TxID_Index (V6.TxIn_TxID t) = V6.TxIn_Index t) /\
  (forall i : Z,
     TxID_TxHash (NewTxID "" i) = "" /\ TxID_Index (NewTxID "" i) = (-1)%Z).
Proof.
  assert (R : forall (h : string) (i : Z),
             h <> "" -> Index h "#" = (-1)%Z -> (- 2 ^ 63 <= i < 2 ^ 63)%Z ->
             TxID_TxHash (NewTxID h i) = h /\ TxID_Index (NewTxID h i) = i).
  { intros h i Hh Hn Hi. unfold TxID_TxHash, TxID_Index, NewTxID.
    change ("#" ++ Itoa i) with (String "#" (Itoa i)).
    rewrite (Index_append_first h "#" (Itoa i) Hn).
    assert (L : (0 < Z.of_nat (String.length h))%Z) by (destruct h; [congruence | simpl; lia]).
    apply Z.ltb_lt in L. rewrite L. split.
    - rewrite Nat2Z.id. apply slice_to_append.
    - replace (Z.to_nat (Z.of_nat (String.length h) + 1)) with (String.length (h ++ "#"))
        by (rewrite length_append; simpl; lia).
      change (String "#" (Itoa i)) with ("#" ++ Itoa i).
      rewrite <- append_assoc, slice_from_append.
      now rewrite Atoi_Itoa. }
  split; [exact R|]. split; [|split].
  - intros [h i]. apply R.
  - intros [[h] i]. apply R.
  - intros i. split; reflexivity.
Qed.

Lemma TxID_roundtrip_witness :
  TxID_TxHash (NewTxID "a" 3) = "a" /\ TxID_Index (NewTxID "a" 3) = 3%Z.
Proof.
  apply (proj1 TxID_roundtrip "a" 3%Z); [discriminate | reflexivity | lia].
Defined.

(** ** Asset ids *)

(** X3.  An asset id splits at its first dot.  When the dot is there and
    not in front, the id is its policy id, a dot and its asset name, put
    together again; otherwise the policy id is the whole id and the asset
    name is empty.  So the parts of an id built from a policy id (not
    empty, with no dot) and a name are that policy id and that name. *)
Theorem AssetID_split :
  (forall a : V5.AssetID,
     (0 < Index a ".")%Z ->
     a = V5.AssetID_PolicyID a ++ "." ++ V5.AssetID_AssetName a) /\
  (forall a : V5.AssetID,
     (Index a "." <= 0)%Z -> V5.AssetID_PolicyID a = a /\ V5.AssetID_AssetName a = "") /\
  (forall policy name : string,
     policy <> "" -> Index policy "." = (-1)%Z ->
     V5.AssetID_PolicyID (policy ++ "." ++ name) = policy /\
     V5.AssetID_AssetName (policy ++ "." ++ name) = name).
Proof.
  split; [|split].
  - intros a H. unfold V5.AssetID_PolicyID, V5.AssetID_AssetName.
    pose proof H as H'. apply Z.ltb_lt in H'. rewrite H'.
    rewrite (Index_split a ".") at 1 by lia.
    replace (Z.to_nat (Index a "." + 1)) with (Z.to_nat (Index a ".") + 1) by lia.
    reflexivity.
  - intros a H. unfold V5.AssetID_PolicyID, V5.AssetID_AssetName.
    destruct (Z.ltb_spec 0 (Index a ".")); [lia | now split].
  - intros policy name Hp Hn. unfold V5.AssetID_PolicyID, V5.AssetID_AssetName.
    change ("." ++ name) with (String "." name).
    rewrite (Index_append_first policy "." name Hn).
    assert (L : (0 < Z.of_nat (String.length policy))%Z)
      by (destruct policy; [congruence | simpl; lia]).
    apply Z.ltb_lt in L. rewrite L. split.
    + rewrite Nat2Z.id. apply slice_to_append.
    + replace (Z.to_nat (Z.of_nat (String.length policy) + 1))
        with (String.length (policy ++ ".")) by (rewrite length_append; simpl; lia).
      change (String "." name) with ("." ++ name).
      now rewrite <- append_assoc, slice_from_append.
Qed.

Lemma AssetID_split_witness :
  test_asset = V5.AssetID_PolicyID test_asset ++ "." ++ V5.AssetID_AssetName test_asset.
Proof.
  apply (proj1 AssetID_split test_asset). reflexivity.
Defined.

(** X4.  For an asset id whose policy id has the 56 characters of a policy
    id, [HasPolicyID] holds of that policy id and of no other text. *)
Theorem AssetID_HasPolicyID_iff (a : V5.AssetID) (s : string) :
  String.length (V5.AssetID_PolicyID a) = 56 ->
  (V5.AssetID_HasPolicyID a s = true <-> s = V5.AssetID_PolicyID a).
Proof.
  intros L.
  assert (P : HasPrefix a (V5.AssetID_PolicyID a) = true).
  { unfold V5.AssetID_PolicyID. destruct (0 <? Index a ".")%Z.
    - apply HasPrefix_slice_to.
    - rewrite <- (append_nil_r a) at 1. apply HasPrefix_append. }
  unfold V5.AssetID_HasPolicyID. split.
  - intros H. apply andb_prop in H as [H1 H2]. apply Nat.eqb_eq in H1.
    apply (HasPrefix_same a); auto. congruence.
  - intros ->. rewrite L, P. reflexivity.
Qed.

Lemma AssetID_HasPolicyID_iff_witness :
  V5.AssetID_HasPolicyID test_asset
    "0123456789abcdef0123456789abcdef0123456789abcdef01234567" = true.
Proof.
  apply (proj2 (AssetID_HasPolicyID_iff test_asset _ eq_refl)). reflexivity.
Defined.

(** ** Elapsed time *)

(** X5.  When every era ends no earlier than it starts, and the elapsed
    time fits 64 bits, [SlotToElapsedMilliseconds] returns the elapsed time
    exactly: the sum, over the eras, of the era's slots before [slot] times
    the era's slot length.  Eras that start at [slot] or later add
    nothing. *)
Theorem SlotToElapsedMilliseconds_exact (ES EM : Type) (ms : EM -> N)
  (h : Ogmigo.EraHistory ES EM) (slot : N) :
  Forall era_ok (Ogmigo.Summaries h) -> (slot < 2 ^ 64)%N ->
  (history_milliseconds ms slot (Ogmigo.Summaries h) < 2 ^ 64)%N ->
  Ogmigo.SlotToElapsedMilliseconds ES EM ms (Some h) slot =
  Returns (history_milliseconds ms slot (Ogmigo.Summaries h)).
Proof.
  intros Hok Hs Hb. unfold Ogmigo.SlotToElapsedMilliseconds.
  now rewrite (elapsed_fold_exact ms slot _ 0%N Hok Hs Hb).
Qed.

Lemma SlotToElapsedMilliseconds_exact_witness :
  Ogmigo.SlotToElapsedMilliseconds N N (fun x => x) (Some test_history) 5000000 =
  Returns (4492800 * 20000 + (5000000 - 4492800) * 1000)%N.
Proof.
  apply (SlotToElapsedMilliseconds_exact N N (fun x => x) test_history 5000000%N).
  - repeat constructor; unfold era_ok; simpl; lia.
  - reflexivity.
  - reflexivity.
Defined.

(** X6.  Under the same conditions the elapsed time does not go down
    when the slot goes up. *)
Theorem SlotToElapsedMilliseconds_monotone (ES EM : Type) (ms : EM -> N)
  (h : Ogmigo.EraHistory ES EM) (slot slot' : N) :
  Forall era_ok (Ogmigo.Summaries h) -> (slot <= slot')%N -> (slot' < 2 ^ 64)%N ->
  (history_milliseconds ms slot' (Ogmigo.Summaries h) < 2 ^ 64)%N ->
  exists t t',
    Ogmigo.SlotToElapsedMilliseconds ES EM ms (Some h) slot = Returns t /\
    Ogmigo.SlotToElapsedMilliseconds ES EM ms (Some h) slot' = Returns t' /\
    (t <= t')%N.
Proof.
  intros Hok Hs Hs' Hb.
  pose proof (history_milliseconds_mono ms (Ogmigo.Summaries h) slot slot' Hok Hs) as Hm.
  exists (history_milliseconds ms slot (Ogmigo.Summaries h)),
         (history_milliseconds ms slot' (Ogmigo.Summaries h)).
  split; [|split; [|exact Hm]].
  - unfold Ogmigo.SlotToElapsedMilliseconds.
    rewrite (elapsed_fold_exact ms slot _ 0%N Hok) by lia. reflexivity.
  - unfold Ogmigo.SlotToElapsedMilliseconds.
    rewrite (elapsed_fold_exact ms slot' _ 0%N Hok) by lia. reflexivity.
Qed.

Lemma SlotToElapsedMilliseconds_monotone_witness :
  exists t t',
    Ogmigo.SlotToElapsedMilliseconds N N (fun x => x) (Some test_history) 4000000 = Returns t /\
    Ogmigo.SlotToElapsedMilliseconds N N (fun x => x) (Some test_history) 5000000 = Returns t' /\
    (t <= t')%N.
Proof.
  apply (SlotToElapsedMilliseconds_monotone N N (fun x => x) test_history 4000000 5000000).
  - repeat constructor; unfold era_ok; simpl; lia.
  - lia.
  - reflexivity.
  - reflexivity.
Defined.

(** ** Points *)

(** X7.  The point of a block is always read back from its attribute form:
    [Block.PointStruct] sets the height, so the attribute map is never
    empty, also for a block at height 0 and slot 0. *)
Theorem Block_point_attribute_roundtrip (Tx : Type) (b : V6.Block Tx)
  (p0 : Point V6.PointStruct) :
  valid_text (V6.Block_ID b) = true ->
  is_uint64 (V6.Block_Height b) = true -> is_uint64 (V6.Block_Slot b) = true ->
  attribute_roundtrip V6.ops (PointStruct_Point (V6.Block_PointStruct b)) p0.
Proof.
  intros Hid Hh Hs.
  pose proof (Point_av_roundtrip V6.ops valid_V6 populated_V6
                StructFacts.V6_av_dec StructFacts.V6_av_populated
                (PointStruct_Point (V6.Block_PointStruct b)) p0) as H.
  unfold attribute_roundtrip. apply H.
  unfold valid_Point, valid_V6. simpl. now rewrite Hid, Hh, Hs.
Qed.

Lemma Block_point_attribute_roundtrip_witness :
  attribute_roundtrip V6.ops
    (PointStruct_Point
       (V6.Block_PointStruct
          (V6.mkBlock "praos" "babbage" "" "" None 0 (V6.mkBlockSize 0) 0 (@nil unit)
             (V6.mkProtocol (V6.mkProtocolVersion 8 0 0))
             (V6.mkBlockIssuer "" "" (V6.mkOpCert 0 (V6.mkKes 0 "")) None))))
    zero_Point.
Proof.
  apply Block_point_attribute_roundtrip; reflexivity.
Defined.

(** X8.  The three deserializers keep a point well formed (the struct
    variant holds a struct): whatever the input, and whether they store a
    point, leave the receiver as it was or fail, the receiver is well
    formed after the call if it was before.  The points that
    [PointString.Point] and [PointStruct.Point] build are well formed. *)
Theorem deserializers_keep_well_formed (PS : Type) (O : PointStructOps PS) :
  (forall s, well_formed (PointString_Point (PS := PS) s) = true) /\
  (forall ps : PS, well_formed (PointStruct_Point ps) = true) /\
  (forall (p : Point PS) data p' e,
     well_formed p = true ->
     Point_UnmarshalJSON O p data = Returns (p', e) -> well_formed p' = true) /\
  (forall (p : Point PS) data,
     well_formed p = true -> well_formed (fst (Point_UnmarshalCBOR O p data)) = true) /\
  (forall (p : Point PS) item,
     well_formed p = true ->
     well_formed (fst (Point_UnmarshalDynamoDBAttributeValue O p item)) = true).
Proof.
  split; [reflexivity|]. split; [reflexivity|]. split; [|split].
  - intros p [|c r] p' e W; unfold Point_UnmarshalJSON; [discriminate|].
    destruct (Ascii.eqb c dquote).
    + destruct (Json.Unmarshal Json.dec_string (String c r) "") as [s [err|]];
        intros [= <- <-]; [exact W | reflexivity].
    + destruct (Json.Unmarshal (ps_json_dec O) (String c r) (ps_zero O)) as [ps [err|]];
        intros [= <- <-]; [exact W | reflexivity].
  - intros p data W. unfold Point_UnmarshalCBOR.
    destruct ((String.length data =? 0)%nat || String.eqb data bNil); [exact W|].
    destruct (Cbor.Unmarshal (dec_pointCBOR O) data (mkPointCBOR "" None)) as [v [err|]];
      [exact W|].
    simpl. destruct (cbor_Struct v); reflexivity.
  - intros p [it|] W; unfold Point_UnmarshalDynamoDBAttributeValue; [|exact W].
    destruct (Dynamo.av_S it); [reflexivity|].
    destruct (0 <? Dynamo.len (Dynamo.av_M it))%nat; [|exact W].
    destruct (Dynamo.UnmarshalMap (ps_av_fields O) _ (ps_zero O)) as [ps [err|]];
      [exact W | reflexivity].
Qed.

Lemma deserializers_keep_well_formed_witness :
  well_formed (fst (Point_UnmarshalCBOR V6.ops zero_Point "nil")) = true.
Proof.
  apply (proj1 (proj2 (proj2 (proj2 (deserializers_keep_well_formed _ V6.ops))))).
  reflexivity.
Defined.

(** X9.  On a slice of well-formed points [Points.Less] returns when both
    indexes are in range and panics when one is not; it never panics on a
    point. *)
Theorem Points_Less_returns (PS : Type) (O : PointStructOps PS)
  (pp : list (Point PS)) (i j : Z) :
  Forall (fun p => well_formed p = true) pp ->
  ((0 <= i < Points_Len pp)%Z /\ (0 <= j < Points_Len pp)%Z ->
   exists b, Points_Less O pp i j = Returns b) /\
  (~ ((0 <= i < Points_Len pp)%Z /\ (0 <= j < Points_Len pp)%Z) ->
   exists msg, Points_Less O pp i j = Panics msg).
Proof.
  intros W. unfold Points_Len. split.
  - intros [Hi Hj].
    destruct (index_in_range pp i Hi) as (pi & Ei & Ii).
    destruct (index_in_range pp j Hj) as (pj & Ej & Ij).
    rewrite Forall_forall in W.
    rewrite (Less_index O pp i j pi pj Ei Ej), (Less_key O pi pj (W _ Ii) (W _ Ij)).
    eauto.
  - intros H. unfold Points_Less.
    destruct (index pp i) as [pi|] eqn:Ei; [|eauto].
    destruct (index pp j) as [pj|] eqn:Ej; [|eauto].
    apply index_Some in Ei, Ej. tauto.
Qed.

Lemma Points_Less_returns_witness :
  exists b, Points_Less V6.ops mixed 1 3 = Returns b.
Proof.
  apply (proj1 (Points_Less_returns _ V6.ops mixed 1 3
                  ltac:(repeat constructor))).
  unfold Points_Len. simpl. lia.
Defined.

(** X10.  [Points.Swap] exchanges two elements and nothing else: with both
    indexes in range the slice keeps its length, holds at each of the two
    indexes what the other held, and is unchanged elsewhere, so that
    [Less(i, j)] after the swap is [Less(j, i)] before it. *)
Theorem Points_Swap_exchanges (PS : Type) (O : PointStructOps PS)
  (pp : list (Point PS)) (i j : Z) :
  (0 <= i < Points_Len pp)%Z -> (0 <= j < Points_Len pp)%Z ->
  exists pp',
    Points_Swap pp i j = Returns pp' /\
    Points_Len pp' = Points_Len pp /\
    index pp' i = index pp j /\ index pp' j = index pp i /\
    (forall k, k <> i -> k <> j -> index pp' k = index pp k) /\
    Points_Less O pp' i j = Points_Less O pp j i.
Proof.
  unfold Points_Len. intros Hi Hj.
  destruct (index_in_range pp i Hi) as (pi & Ei & _).
  destruct (index_in_range pp j Hj) as (pj & Ej & _).
  unfold Points_Swap. rewrite Ei, Ej. eexists. split; [reflexivity|].
  set (pp' := set_index (set_index pp (Z.to_nat i) pj) (Z.to_nat j) pi).
  assert (L : List.length pp' = List.length pp)
    by (unfold pp'; now rewrite !set_index_length).
  assert (Aj : index pp' j = Some pi).
  { unfold index, pp'. destruct (Z.ltb_spec j 0); [lia|].
    apply nth_error_set_index_same. rewrite set_index_length. lia. }
  assert (Ai : index pp' i = Some pj).
  { destruct (Z.eq_dec i j) as [->|Hne].
    - rewrite Aj. congruence.
    - unfold index, pp'. destruct (Z.ltb_spec i 0); [lia|].
      rewrite nth_error_set_index_other by lia.
      apply nth_error_set_index_same. lia. }
  split; [now rewrite L|]. split; [congruence|]. split; [congruence|]. split.
  - intros k Hki Hkj. unfold index, pp'. destruct (Z.ltb_spec k 0); [reflexivity|].
    rewrite !nth_error_set_index_other by lia. reflexivity.
  - unfold Points_Less. now rewrite Ai, Aj, Ei, Ej.
Qed.

Lemma Points_Swap_exchanges_witness :
  exists pp',
    Points_Swap mixed 0 1 = Returns pp' /\
    Points_Len pp' = Points_Len mixed /\
    index pp' 0 = index mixed 1 /\ index pp' 1 = index mixed 0 /\
    (forall k, k <> 0%Z -> k <> 1%Z -> index pp' k = index mixed k) /\
    Points_Less V6.ops pp' 0 1 = Points_Less V6.ops mixed 1 0.
Proof.
  apply (Points_Swap_exchanges _ V6.ops mixed 0 1); unfold Points_Len; simpl; lia.
Defined.

(** X11.  [UnmarshalCBOR] accepts a payload that holds both a marker and a
    struct, and stores a struct point that keeps the marker.
    [MarshalCBOR] writes such a point back whole, and it is read back;
    [MarshalJSON] and [MarshalDynamoDBAttributeValue] write its struct
    only, as they do for the struct point without the marker. *)
Theorem Point_CBOR_keeps_both_variants (s : string) (ps : V6.PointStruct)
  (p0 : Point V6.PointStruct) :
  valid_text s = true -> s <> "" -> valid_V6 ps = true ->
  cbor_roundtrip V6.ops (mkPoint PointTypeStruct s (Some ps)) p0 /\
  Point_MarshalJSON V6.ops (mkPoint PointTypeStruct s (Some ps)) =
  Point_MarshalJSON V6.ops (PointStruct_Point ps) /\
  Point_MarshalDynamoDBAttributeValue V6.ops (mkPoint PointTypeStruct s (Some ps)) Dynamo.empty =
  Point_MarshalDynamoDBAttributeValue V6.ops (PointStruct_Point ps) Dynamo.empty /\
  mkPoint PointTypeStruct s (Some ps) <> PointStruct_Point ps.
Proof.
  intros Hs Hne Hps. split; [|split; [reflexivity|split; [reflexivity|]]].
  - unfold cbor_roundtrip. split; [reflexivity|].
    change (fst (Point_MarshalCBOR V6.ops (mkPoint PointTypeStruct s (Some ps))))
      with (Cbor.encode (enc_pointCBOR V6.ops (mkPointCBOR s (Some ps)))).
    rewrite Unmarshal_encoded_point; [reflexivity | |].
    + constructor.
      * cbn [cbor_String cbor_Struct Cbor.omit_ptr]. unfold Cbor.omit_string.
        destruct (String.eqb s ""); reflexivity.
      * rewrite Forall_app. split.
        -- apply StructFacts.wf_cbor_omit_string; [constructor; reflexivity | assumption].
        -- constructor; [|constructor].
           split; [constructor; reflexivity | now apply StructFacts.V6_cbor_wf].
    + unfold enc_pointCBOR, dec_pointCBOR, Cbor.omit_string.
      cbn [cbor_String cbor_Struct Cbor.omit_ptr].
      destruct s as [|c r]; [contradiction|].
      pose proof (StructFacts.V6_cbor_dec ps) as D.
      cbn -[V6.ops]. unfold Cbor.dec_ptr. rewrite D. reflexivity.
  - intros [= E]. contradiction.
Qed.

Lemma Point_CBOR_keeps_both_variants_witness :
  cbor_roundtrip V6.ops
    (mkPoint PointTypeStruct "origin" (Some (V6.mkPointStruct None "hash" 456))) zero_Point.
Proof.
  apply (Point_CBOR_keeps_both_variants "origin" (V6.mkPointStruct None "hash" 456) zero_Point);
    [reflexivity | discriminate | reflexivity].
Defined.

(** ** Responses *)

(** X12.  After [ResponsePraos.UnmarshalJSON] has decoded a response with
    no error field, the [Must] method of the response's kind returns the
    decoded result and the other one panics.  The legacy method names
    ([FindIntersect], [RequestNext]) are decoded as the current ones, so
    the same [Must] method serves both. *)
Theorem Must_after_UnmarshalJSON (Block : Type)
  (unmarshal_envelope : bytes -> V6.envelope * option error)
  (unmarshal_ResultError : bytes -> V6.ResultError * option error)
  (unmarshal_FindIntersection : bytes -> V6.ResultFindIntersectionPraos * option error)
  (unmarshal_NextBlock : bytes -> V6.ResultNextBlockPraos Block * option error)
  (r r' : V6.ResponsePraos Block) (b : bytes) (m : V6.envelope) :
  unmarshal_envelope b = (m, None) ->
  V6.m_Error m = None ->
  V6.ResponsePraos_UnmarshalJSON Block unmarshal_envelope unmarshal_ResultError
    unmarshal_FindIntersection unmarshal_NextBlock r b = (r', None) ->
  (V6.MustFindIntersectResult r' =
     Returns (fst (unmarshal_FindIntersection (V6.raw (V6.m_Result m)))) /\
   panics (V6.MustNextBlockResult r') /\
   (V6.m_Method m = V6.FindIntersectionMethod \/ V6.m_Method m = V6.FindIntersectMethod)) \/
  (V6.MustNextBlockResult r' =
     Returns (fst (unmarshal_NextBlock (V6.raw (V6.m_Result m)))) /\
   panics (V6.MustFindIntersectResult r') /\
   (V6.m_Method m = V6.NextBlockMethod \/ V6.m_Method m = V6.RequestNextMethod)).
Proof.
  intros Hm He. unfold V6.ResponsePraos_UnmarshalJSON. rewrite Hm, He.
  destruct (String.eqb_spec (V6.m_Method m) V6.FindIntersectionMethod) as [E1|N1];
    [|destruct (String.eqb_spec (V6.m_Method m) V6.FindIntersectMethod) as [E2|N2]].
  - simpl. destruct (unmarshal_FindIntersection _) as [fi [e|]]; intros [= <-].
    left. split; [reflexivity|]. split; [eexists; reflexivity | auto].
  - simpl. destruct (unmarshal_FindIntersection _) as [fi [e|]]; intros [= <-].
    left. split; [reflexivity|]. split; [eexists; reflexivity | auto].
  - simpl.
    destruct (String.eqb_spec (V6.m_Method m) V6.NextBlockMethod) as [E3|N3];
      [|destruct (String.eqb_spec (V6.m_Method m) V6.RequestNextMethod) as [E4|N4]].
    + simpl. destruct (unmarshal_NextBlock _) as [nb [e|]]; intros [= <-].
      right. split; [reflexivity|]. split; [eexists; reflexivity | auto].
    + simpl. destruct (unmarshal_NextBlock _) as [nb [e|]]; intros [= <-].
      right. split; [reflexivity|]. split; [eexists; reflexivity | auto].
    + simpl. discriminate.
Qed.

Lemma Must_after_UnmarshalJSON_witness :
  V6.MustNextBlockResult
    (fst (V6.ResponsePraos_UnmarshalJSON Json.value example_envelope example_ResultError
            Compatibility.example_json_v6 example_NextBlock V6.zero_ResponsePraos
            (q "{'jsonrpc':'2.0','method':'RequestNext','result':{'direction':'forward'}}")))
  = Returns (V6.mkResultNextBlockPraos "forward" None None None).
Proof.
  destruct (Must_after_UnmarshalJSON Json.value example_envelope example_ResultError
              Compatibility.example_json_v6 example_NextBlock V6.zero_ResponsePraos
              (V6.mkResponsePraos "2.0" V6.NextBlockMethod
                 (V6.NextBlock (V6.mkResultNextBlockPraos "forward" None None None)) None None)
              (q "{'jsonrpc':'2.0','method':'RequestNext','result':{'direction':'forward'}}")
              (V6.mkEnvelope "2.0" "RequestNext" None (Some (q "{'direction':'forward'}")) None)
              eq_refl eq_refl eq_refl) as [(_ & _ & [H | H]) | (H & _)].
  - discriminate H.
  - discriminate H.
  - exact H.
Defined.

(** X13.  [ResponsePraos.UnmarshalJSON] sets the method only on the path
    without error.  A response with an error field that decodes leaves
    the receiver's method and result as they were and stores the error:
    decoded into the zero value, even a [findIntersection] response then
    has an empty method, and both [Must] methods panic. *)
Theorem error_response_keeps_method (Block : Type)
  (unmarshal_envelope : bytes -> V6.envelope * option error)
  (unmarshal_ResultError : bytes -> V6.ResultError * option error)
  (unmarshal_FindIntersection : bytes -> V6.ResultFindIntersectionPraos * option error)
  (unmarshal_NextBlock : bytes -> V6.ResultNextBlockPraos Block * option error)
  (r : V6.ResponsePraos Block) (b : bytes) (m : V6.envelope) (e : bytes)
  (resultError : V6.ResultError) :
  unmarshal_envelope b = (m, None) ->
  V6.m_Error m = Some e ->
  unmarshal_ResultError e = (resultError, None) ->
  V6.ResponsePraos_UnmarshalJSON Block unmarshal_envelope unmarshal_ResultError
    unmarshal_FindIntersection unmarshal_NextBlock r b =
  (V6.mkResponsePraos (V6.m_JsonRpc m) (V6.rp_Method r) (V6.rp_Result r) (Some resultError)
     (V6.m_ID m), None) /\
  (r = V6.zero_ResponsePraos ->
   forall r',
     V6.ResponsePraos_UnmarshalJSON Block unmarshal_envelope unmarshal_ResultError
       unmarshal_FindIntersection unmarshal_NextBlock r b = (r', None) ->
     panics (V6.MustFindIntersectResult r') /\ panics (V6.MustNextBlockResult r')).
Proof.
  intros Hm He Hr. unfold V6.ResponsePraos_UnmarshalJSON. rewrite Hm, He, Hr.
  split; [reflexivity|].
  intros -> r' [= <-]. split; eexists; reflexivity.
Qed.

Lemma error_response_keeps_method_witness :
  V6.ResponsePraos_UnmarshalJSON Json.value example_envelope example_ResultError
    Compatibility.example_json_v6 example_NextBlock V6.zero_ResponsePraos error_response =
  (V6.mkResponsePraos "2.0" "" V6.NoResult (Some (V6.mkResultError 1000 "x" None None))
     (Some "null"), None).
Proof.
  apply (proj1 (error_response_keeps_method Json.value example_envelope example_ResultError
                  Compatibility.example_json_v6 example_NextBlock V6.zero_ResponsePraos
                  error_response
                  (V6.mkEnvelope "2.0" "findIntersection" (Some "null") None
                     (Some (q "{'code':1000,'message':'x'}")))
                  (q "{'code':1000,'message':'x'}")
                  (V6.mkResultError 1000 "x" None None)
                  eq_refl eq_refl eq_refl)).
Defined.

(** ** The compatibility shim, continued *)

(** X14.  [CompatibleResponsePraos.UnmarshalJSON] keeps the current-schema
    decoding only when it holds a result.  [ResponsePraos.UnmarshalJSON]
    stores no result for a response with an error field, so such a
    response, although it decodes, is always decided by the legacy decode:
    its conversion is stored, or its error is returned as it is.  The
    attribute form has no such test: it keeps every current-schema value
    that decodes without error. *)
Theorem CompatibleResponsePraos_error_goes_legacy (Block ResponseV5 : Type)
  (unmarshal_envelope : bytes -> V6.envelope * option error)
  (unmarshal_ResultError : bytes -> V6.ResultError * option error)
  (unmarshal_FindIntersection : bytes -> V6.ResultFindIntersectionPraos * option error)
  (unmarshal_NextBlock : bytes -> V6.ResultNextBlockPraos Block * option error)
  (json_Response_v5 : bytes -> ResponseV5 * option error)
  (av_Response_v6 : option Dynamo.AttributeValue -> V6.ResponsePraos Block * option error)
  (av_Response_v5 : option Dynamo.AttributeValue -> ResponseV5 * option error)
  (Response_ConvertToV6 : ResponseV5 -> V6.ResponsePraos Block)
  (c : Compatibility.CompatibleResponsePraos Block) :
  (forall (data : bytes) (x : Json.value) (m : V6.envelope) (e : bytes)
          (resultError : V6.ResultError),
     Json.parse data = Some x ->
     unmarshal_envelope (Json.render x) = (m, None) ->
     V6.m_Error m = Some e ->
     unmarshal_ResultError e = (resultError, None) ->
     Compatibility.CompatibleResponsePraos_UnmarshalJSON Block ResponseV5
       (V6.Unmarshal_ResponsePraos Block unmarshal_envelope unmarshal_ResultError
          unmarshal_FindIntersection unmarshal_NextBlock)
       json_Response_v5 Response_ConvertToV6 c data =
     match json_Response_v5 data with
     | (r5, None) => (Response_ConvertToV6 r5, None)
     | (_, Some e5) => (c, Some e5)
     end) /\
  (forall (item : option Dynamo.AttributeValue) (s : V6.ResponsePraos Block),
     av_Response_v6 item = (s, None) ->
     Compatibility.CompatibleResponsePraos_UnmarshalDynamoDBAttributeValue Block ResponseV5
       av_Response_v6 av_Response_v5 Response_ConvertToV6 c item = (s, None)).
Proof.
  split.
  - intros data x m e re Hp Hm He Hr.
    unfold Compatibility.CompatibleResponsePraos_UnmarshalJSON, V6.Unmarshal_ResponsePraos.
    rewrite Hp.
    unfold V6.ResponsePraos_UnmarshalJSON. rewrite Hm, He, Hr. simpl.
    destruct (json_Response_v5 data) as [r5 [e5|]]; reflexivity.
  - intros item s Hs.
    unfold Compatibility.CompatibleResponsePraos_UnmarshalDynamoDBAttributeValue.
    now rewrite Hs.
Qed.

Lemma CompatibleResponsePraos_error_goes_legacy_witness :
  Compatibility.CompatibleResponsePraos_UnmarshalJSON Json.value unit
    (V6.Unmarshal_ResponsePraos Json.value example_envelope example_ResultError
       Compatibility.example_json_v6 example_NextBlock)
    (fun _ => (tt, None)) (fun _ => V6.zero_ResponsePraos) V6.zero_ResponsePraos error_response
  = (V6.zero_ResponsePraos, None).
Proof.
  apply (proj1 (CompatibleResponsePraos_error_goes_legacy Json.value unit
                  example_envelope example_ResultError
                  Compatibility.example_json_v6 example_NextBlock
                  (fun _ => (tt, None))
                  (fun _ => (V6.zero_ResponsePraos, None)) (fun _ => (tt, None))
                  (fun _ => V6.zero_ResponsePraos) V6.zero_ResponsePraos)
           error_response
           (Json.Object
              [ ("jsonrpc", Json.Str "2.0"); ("method", Json.Str "findIntersection");
                ("error", Json.Object [("code", Json.Number "1000"); ("message", Json.Str "x")]);
                ("id", Json.Null) ])
           (V6.mkEnvelope "2.0" "findIntersection" (Some "null") None
              (Some (q "{'code':1000,'message':'x'}")))
           (q "{'code':1000,'message':'x'}")
           (V6.mkResultError 1000 "x" None None)
           eq_refl eq_refl eq_refl eq_refl).
Defined.

Section ResultFacts.
Import Compatibility.
Variable Block : Type.
Variable json_FindIntersection : bytes -> CompatibleResultFindIntersection * option error.
Variable json_NextBlock : bytes -> CompatibleResultNextBlock Block * option error.
Variable marshal_FindIntersection : CompatibleResultFindIntersection -> bytes * option error.
Variable marshal_NextBlock : CompatibleResultNextBlock Block -> bytes * option error.

(** X15.  [CompatibleResult.UnmarshalJSON] stores exactly one result, a
    FindIntersection result whenever its decoder accepts the payload and a
    NextBlock result only when that decoder fails, and [MarshalJSON] then
    writes the result that was stored: it never fails for want of one.
    When both decoders fail the receiver is left as it was and the error
    is "unable to find an appropriate result", which carries neither of
    their errors. *)
Theorem CompatibleResult_JSON (c : CompatibleResult Block) (data : bytes) :
  let r := CompatibleResult_UnmarshalJSON Block json_FindIntersection json_NextBlock c data in
  (exists rfi,
     json_FindIntersection data = (rfi, None) /\
     r = (mkCompatibleResult None (Some rfi), None) /\
     CompatibleResult_MarshalJSON Block marshal_FindIntersection marshal_NextBlock (fst r) =
     marshal_FindIntersection rfi) \/
  (exists rnb,
     snd (json_FindIntersection data) <> None /\
     json_NextBlock data = (rnb, None) /\
     r = (mkCompatibleResult (Some rnb) None, None) /\
     CompatibleResult_MarshalJSON Block marshal_FindIntersection marshal_NextBlock (fst r) =
     marshal_NextBlock rnb) \/
  (snd (json_FindIntersection data) <> None /\ snd (json_NextBlock data) <> None /\
   r = (c, Some (New "unable to find an appropriate result"))).
Proof.
  unfold CompatibleResult_UnmarshalJSON.
  destruct (json_FindIntersection data) as [rfi [e1|]]; simpl.
  - destruct (json_NextBlock data) as [rnb [e2|]]; simpl.
    + right. right. repeat split; discriminate.
    + right. left. exists rnb. repeat split. discriminate.
  - left. exists rfi. repeat split.
Qed.

End ResultFacts.

Section AttributeResultFacts.
Import Compatibility.
Variables Block Found NotFound Forward Backward : Type.
Variable av_FindIntersection_v6 :
  option Dynamo.AttributeValue -> V6.ResultFindIntersectionPraos * option error.
Variable av_FindIntersection_v5 :
  option Dynamo.AttributeValue -> ResultFindIntersectionV5 Found NotFound * option error.
Variable FindIntersection_ConvertToV6 :
  ResultFindIntersectionV5 Found NotFound -> V6.ResultFindIntersectionPraos.
Variable av_NextBlock_v6 :
  option Dynamo.AttributeValue -> V6.ResultNextBlockPraos Block * option error.
Variable av_NextBlock_v5 :
  option Dynamo.AttributeValue -> ResultNextBlockV5 Forward Backward * option error.
Variable NextBlock_ConvertToV6 :
  ResultNextBlockV5 Forward Backward -> V6.ResultNextBlockPraos Block.

(** [dynamodbattribute.Unmarshal(item, &rfi)] and [(item, &rnb)]: the
    methods of the two result types, on fresh variables. *)
Local Abbreviation FI_item :=
  (CompatibleResultFindIntersection_UnmarshalDynamoDBAttributeValue Found NotFound
     av_FindIntersection_v6 av_FindIntersection_v5 FindIntersection_ConvertToV6
     V6.zero_ResultFindIntersectionPraos).
Local Abbreviation NB_item :=
  (CompatibleResultNextBlock_UnmarshalDynamoDBAttributeValue Block Forward Backward
     av_NextBlock_v6 av_NextBlock_v5 NextBlock_ConvertToV6 V6.zero_ResultNextBlockPraos).

(** X16.  In the attribute form [CompatibleResult] decodes an item as a
    FindIntersection result exactly when the decoder of that type returns
    no error, and otherwise as a NextBlock result.  An item that decodes
    as the current FindIntersection schema with no intersection (a legacy
    FindIntersection item does, its keys being unknown to that schema) is
    therefore never stored as a FindIntersection result: it is handed to
    the NextBlock decoder, and when that fails too, the error returned is
    the NextBlock decoder's. *)
Theorem CompatibleResult_attribute_legacy_FindIntersection
  (c : CompatibleResult Block) (item : option Dynamo.AttributeValue) :
  snd (av_FindIntersection_v6 item) = None ->
  has_intersection (fst (av_FindIntersection_v6 item)) = false ->
  CompatibleResult_UnmarshalDynamoDBAttributeValue Block FI_item NB_item c item =
  match NB_item item with
  | (rnb, None) => (mkCompatibleResult (Some rnb) None, None)
  | (_, Some e) => (c, Some e)
  end /\
  (accepted (NB_item item) = None ->
   snd (CompatibleResult_UnmarshalDynamoDBAttributeValue Block FI_item NB_item c item) =
   Some (Errorf "unable to parse as either v5 or v6 NextBlock" (snd (av_NextBlock_v5 item)))).
Proof.
  intros He Hi.
  assert (F : exists e, FI_item item = (V6.zero_ResultFindIntersectionPraos, Some e)).
  { unfold CompatibleResultFindIntersection_UnmarshalDynamoDBAttributeValue.
    unfold has_intersection in Hi.
    destruct (av_FindIntersection_v6 item) as [s e6]. simpl in He, Hi. subst e6.
    rewrite Hi. simpl.
    destruct (av_FindIntersection_v5 item) as [v e5].
    rewrite andb_false_r. eauto. }
  destruct F as [e F].
  unfold CompatibleResult_UnmarshalDynamoDBAttributeValue. rewrite F.
  split.
  - destruct (NB_item item) as [rnb [e'|]]; reflexivity.
  - unfold CompatibleResultNextBlock_UnmarshalDynamoDBAttributeValue.
    destruct (av_NextBlock_v6 item) as [s e6].
    destruct (is_nil e6 && _); [discriminate|].
    destruct (av_NextBlock_v5 item) as [v e5].
    destruct (is_nil e5 && _); [discriminate | reflexivity].
Qed.

End AttributeResultFacts.

Lemma CompatibleResult_attribute_legacy_FindIntersection_witness :
  snd (Compatibility.CompatibleResult_UnmarshalDynamoDBAttributeValue Dynamo.AttributeValue
         (Compatibility.CompatibleResultFindIntersection_UnmarshalDynamoDBAttributeValue
            Compatibility.IntersectionFound5 Compatibility.IntersectionNotFound5
            Compatibility.example_av_v6 Compatibility.example_av_v5
            Compatibility.example_convert V6.zero_ResultFindIntersectionPraos)
         (Compatibility.CompatibleResultNextBlock_UnmarshalDynamoDBAttributeValue
            Dynamo.AttributeValue Compatibility.RollForward5 Compatibility.RollBackward5
            Compatibility.example_av_NextBlock_v6 Compatibility.example_av_NextBlock_v5
            Compatibility.example_convert_NextBlock V6.zero_ResultNextBlockPraos)
         (Compatibility.mkCompatibleResult None None)
         (Some Compatibility.legacy_item)) =
  Some (Errorf "unable to parse as either v5 or v6 NextBlock" None).
Proof.
  apply (proj2 (CompatibleResult_attribute_legacy_FindIntersection Dynamo.AttributeValue
                  Compatibility.IntersectionFound5 Compatibility.IntersectionNotFound5
                  Compatibility.RollForward5 Compatibility.RollBackward5
                  Compatibility.example_av_v6 Compatibility.example_av_v5
                  Compatibility.example_convert
                  Compatibility.example_av_NextBlock_v6 Compatibility.example_av_NextBlock_v5
                  Compatibility.example_convert_NextBlock
                  (Compatibility.mkCompatibleResult None None)
                  (Some Compatibility.legacy_item) eq_refl eq_refl)).
  reflexivity.
Defined.

Section TxFacts.
Import Compatibility.
Variables Tx TxV5 : Type.
Variable Tx_Spends : Tx -> string.
Variable TxV5_Raw : TxV5 -> string.
Variable json_Tx_v6 : bytes -> Tx * option error.
Variable json_Tx_v5 : bytes -> TxV5 * option error.
Variable av_Tx_v6 : option Dynamo.AttributeValue -> Tx * option error.
Variable av_Tx_v5 : option Dynamo.AttributeValue -> TxV5 * option error.
Variable Tx_ConvertToV6 : TxV5 -> Tx.

(** X17.  [CompatibleTx] follows the two-step decode with [spends] as the
    field of the current schema.  In JSON a legacy transaction is accepted
    if and only if it decodes without error and its [raw] is not empty; in
    the attribute form every legacy transaction that decodes without error
    is accepted, [raw] or no [raw]. *)
Theorem CompatibleTx_detection (c : Tx) :
  (forall data,
     accepted (CompatibleTx_UnmarshalJSON Tx TxV5 Tx_Spends TxV5_Raw
                 json_Tx_v6 json_Tx_v5 Tx_ConvertToV6 c data) =
     decode_any (json_Tx_v6 data) (fun tx => negb (String.eqb (Tx_Spends tx) ""))
       (json_Tx_v5 data) (fun txV5 => negb (String.eqb (TxV5_Raw txV5) "")) Tx_ConvertToV6) /\
  (forall item,
     accepted (CompatibleTx_UnmarshalDynamoDBAttributeValue Tx TxV5 Tx_Spends
                 av_Tx_v6 av_Tx_v5 Tx_ConvertToV6 c item) =
     decode_any (av_Tx_v6 item) (fun tx => negb (String.eqb (Tx_Spends tx) ""))
       (av_Tx_v5 item) (fun _ => true) Tx_ConvertToV6).
Proof.
  split.
  - intros data. unfold CompatibleTx_UnmarshalJSON, decode_any.
    destruct (json_Tx_v6 data) as [tx e6]. destruct (json_Tx_v5 data) as [t5 e5]. simpl.
    destruct (is_nil e6 && _); [reflexivity|].
    destruct (is_nil e5 && _); reflexivity.
  - intros item. unfold CompatibleTx_UnmarshalDynamoDBAttributeValue, decode_any.
    destruct (av_Tx_v6 item) as [tx e6]. destruct (av_Tx_v5 item) as [t5 e5]. simpl.
    destruct (is_nil e6 && _); [reflexivity|].
    rewrite andb_true_r. destruct (is_nil e5); reflexivity.
Qed.

End TxFacts.

(** ** [readEvaluateTx] *)

Lemma units_json_wf u : valid_units u = true -> Json.wf (units_json u).
Proof.
  intros Hv. unfold valid_units in Hv.
  apply andb_prop in Hv as [Hv Hc]. apply andb_prop in Hv as [Hv Hm].
  unfold units_json.
  apply Json.wf_Object.
  constructor; [split; [reflexivity | now constructor]|].
  constructor; [split; [reflexivity|] | constructor].
  apply Json.wf_Object.
  constructor;
    [split; [reflexivity | constructor; apply JsonFacts.FormatUint_literal]|].
  constructor;
    [split; [reflexivity | constructor; apply JsonFacts.FormatUint_literal] | constructor].
Qed.

Lemma units_array_wf us :
  forallb valid_units us = true -> Json.wf (Json.Array (map units_json us)).
Proof.
  intros Hv. apply Json.wf_Array. apply Forall_forall. intros x Hx.
  apply in_map_iff in Hx as [u [<- Hu]]. apply units_json_wf.
  rewrite forallb_forall in Hv. now apply Hv.
Qed.

Lemma dec_items_units us saved :
  forallb valid_units us = true ->
  Json.dec_items (Ogmigo.mkExUnits "" (Ogmigo.mkExUnitsBudget 0 0)) Ogmigo.dec_ExUnits
    (map units_json us) saved = Json.Go us saved.
Proof.
  induction us as [|u us IH]; intros Hv; [reflexivity|].
  simpl in Hv. apply andb_prop in Hv as [Hu Hv].
  unfold valid_units in Hu.
  apply andb_prop in Hu as [Hu Hc]. apply andb_prop in Hu as [Hu Hm].
  destruct u as [validator [memory cpu]]. simpl in Hu, Hm, Hc.
  cbn [map Json.dec_items]. unfold units_json at 1.
  cbn -[ParseUint FormatUint Json.dec_items map].
  pose proof (StructFacts.ParseUint64_FormatUint _ Hm) as Em.
  pose proof (StructFacts.ParseUint64_FormatUint _ Hc) as Ec.
  change uint64_bound with 18446744073709551616%N in Em, Ec. rewrite Em. cbn -[ParseUint FormatUint Json.dec_items map]. rewrite Ec.
  cbn -[Json.dec_items map]. rewrite (IH Hv). reflexivity.
Qed.

(** X18.  [readEvaluateTx] reads back every list of execution units: the
    response whose [result] is the array of their JSON forms gives the
    list, in its order, and no error, the empty list included. *)
Theorem readEvaluateTx_roundtrip (us : list Ogmigo.ExUnits) :
  forallb valid_units us = true ->
  Ogmigo.readEvaluateTx (units_response us) = (us, None).
Proof.
  intros Hv. unfold Ogmigo.readEvaluateTx, Ogmigo.jsonparser_Get, units_response.
  rewrite JsonFacts.parse_render.
  2:{ constructor. constructor; [|constructor]. split; [reflexivity|].
      now apply units_array_wf. }
  cbn [find fst String.eqb Ascii.eqb Bool.eqb andb].
  unfold Json.Unmarshal.
  rewrite JsonFacts.parse_render by now apply units_array_wf.
  cbn [Json.dec_slice]. rewrite (dec_items_units _ _ Hv). reflexivity.
Qed.

Lemma readEvaluateTx_roundtrip_witness :
  Ogmigo.readEvaluateTx
    (units_response
       [ Ogmigo.mkExUnits "spend:0" (Ogmigo.mkExUnitsBudget 14000000 10000000000);
         Ogmigo.mkExUnits "mint:1" (Ogmigo.mkExUnitsBudget 5 18446744073709551615) ]) =
  ([ Ogmigo.mkExUnits "spend:0" (Ogmigo.mkExUnitsBudget 14000000 10000000000);
     Ogmigo.mkExUnits "mint:1" (Ogmigo.mkExUnitsBudget 5 18446744073709551615) ], None).
Proof.
  apply (readEvaluateTx_roundtrip
           [ Ogmigo.mkExUnits "spend:0" (Ogmigo.mkExUnitsBudget 14000000 10000000000);
             Ogmigo.mkExUnits "mint:1" (Ogmigo.mkExUnitsBudget 5 18446744073709551615) ]).
  reflexivity.
Defined.

(** X19.  [readEvaluateTx] answers with an error and no units whenever the
    [result] of a response is missing or is not an array.  A missing
    [result] wraps the parser's error; a [result] of another kind gives
    the message [failed to parser EvaluateTx response] around no error at
    all. *)
Theorem readEvaluateTx_rejects (ms : list (string * Json.value)) :
  Json.wf (Json.Object ms) ->
  (member ms "result" = None ->
   Ogmigo.readEvaluateTx (Json.render (Json.Object ms)) =
   ([], Some (Errorf "failed to parse EvaluateTx response"
                (Some (New "Key path not found"))))) /\
  (forall x,
     member ms "result" = Some x -> is_array x = false ->
     Ogmigo.readEvaluateTx (Json.render (Json.Object ms)) =
     ([], Some (Errorf "failed to parser EvaluateTx response" None))).
Proof.
  intros Hwf. unfold Ogmigo.readEvaluateTx, Ogmigo.jsonparser_Get, member.
  rewrite (JsonFacts.parse_render _ Hwf).
  destruct (find _ ms) as [[k x]|].
  - split; [discriminate|]. intros y Hy Ha. injection Hy as ->.
    destruct y; try reflexivity. discriminate Ha.
  - split; [reflexivity | discriminate].
Qed.

Lemma readEvaluateTx_rejects_witness :
  Ogmigo.readEvaluateTx
    (Json.render (Json.Object [("error", Json.Object [("message", Json.Str "failed")])])) =
  ([], Some (Errorf "failed to parse EvaluateTx response" (Some (New "Key path not found")))) /\
  Ogmigo.readEvaluateTx
    (Json.render (Json.Object [("result", Json.Object [("validator", Json.Str "spend:0")])])) =
  ([], Some (Errorf "failed to parser EvaluateTx response" None)).
Proof.
  split.
  - refine (proj1 (readEvaluateTx_rejects
                     [("error", Json.Object [("message", Json.Str "failed")])] _) eq_refl).
    apply Json.wf_Object. constructor; [split; [reflexivity|] | constructor].
    apply Json.wf_Object. constructor; [split; [reflexivity|] | constructor].
    now constructor.
  - refine (proj2 (readEvaluateTx_rejects
                     [("result", Json.Object [("validator", Json.Str "spend:0")])] _)
              _ eq_refl eq_refl).
    apply Json.wf_Object. constructor; [split; [reflexivity|] | constructor].
    apply Json.wf_Object. constructor; [split; [reflexivity|] | constructor].
    now constructor.
Defined.

(** ** Values and transaction outputs of the legacy generation *)

Section ValueFacts.
Variable Int : Type.
Variable zero_Int : Int.
Variables Int_Add Int_Sub : Int -> Int -> Int.
Variable Int_Int64 : Int -> Z.
Variable Int_Uint64 : Int -> N.
Variable Int_String : Int -> string.

Lemma copy_assets_get (assets : list (V5.AssetID * Int)) k :
  unique_keys assets ->
  map_get zero_Int (V5.copy_assets Int assets) k = map_get zero_Int assets k.
Proof.
  intros Hu. unfold V5.copy_assets.
  rewrite (map_fold_get zero_Int (fun _ v => v) assets Hu [] k).
  rewrite (map_get_find zero_Int assets k). destruct (map_find assets k); reflexivity.
Qed.

(** X20.  [Add] and [Subtract] work asset by asset.  Under a key of [b]
    the result holds the amount of [a], or the zero amount if [a] has
    none, plus or minus the amount of [b]; under any other key it holds
    what [a] holds.  The coins are added or subtracted. *)
Theorem Value_Add_amounts (a b : V5.Value Int) :
  unique_keys (V5.Value_Assets Int a) -> unique_keys (V5.Value_Assets Int b) ->
  (V5.Value_Coins Int (V5.Add Int zero_Int Int_Add a b) =
   Int_Add (V5.Value_Coins Int a) (V5.Value_Coins Int b) /\
   forall k,
     map_get zero_Int (V5.Value_Assets Int (V5.Add Int zero_Int Int_Add a b)) k =
     match map_find (V5.Value_Assets Int b) k with
     | Some amt => Int_Add (map_get zero_Int (V5.Value_Assets Int a) k) amt
     | None => map_get zero_Int (V5.Value_Assets Int a) k
     end) /\
  (V5.Value_Coins Int (V5.Subtract Int zero_Int Int_Sub a b) =
   Int_Sub (V5.Value_Coins Int a) (V5.Value_Coins Int b) /\
   forall k,
     map_get zero_Int (V5.Value_Assets Int (V5.Subtract Int zero_Int Int_Sub a b)) k =
     match map_find (V5.Value_Assets Int b) k with
     | Some amt => Int_Sub (map_get zero_Int (V5.Value_Assets Int a) k) amt
     | None => map_get zero_Int (V5.Value_Assets Int a) k
     end).
Proof.
  intros Ha Hb. split; (split; [reflexivity|]); intros k.
  - unfold V5.Add. cbn [V5.Value_Assets].
    rewrite (map_fold_get zero_Int Int_Add _ Hb).
    rewrite (copy_assets_get _ k Ha). reflexivity.
  - unfold V5.Subtract. cbn [V5.Value_Assets].
    rewrite (map_fold_get zero_Int Int_Sub _ Hb).
    rewrite (copy_assets_get _ k Ha). reflexivity.
Qed.

Lemma equal_amounts_iff (xs other : list (V5.AssetID * Int)) :
  V5.equal_amounts Int zero_Int Int_Uint64 xs other = true <->
  forall k v, In (k, v) xs ->
    Int_Uint64 v = 0%N \/ Int_Uint64 (map_get zero_Int other k) = Int_Uint64 v.
Proof.
  induction xs as [|[k v] xs IH]; simpl.
  - split; [intros _ ? ? [] | reflexivity].
  - destruct (N.eqb_spec (Int_Uint64 v) 0) as [Hz|Hz]; simpl.
    + rewrite IH. split.
      * intros H k' v' [E|Hin]; [injection E as <- <-; now left | now apply H].
      * intros H k' v' Hin. apply H. now right.
    + destruct (N.eqb_spec (Int_Uint64 (map_get zero_Int other k)) (Int_Uint64 v)) as [He|He];
        simpl.
      * rewrite IH. split.
        -- intros H k' v' [E|Hin]; [injection E as <- <-; now right | now apply H].
        -- intros H k' v' Hin. apply H. now right.
      * split; [discriminate|]. intros H.
        destruct (H k v (or_introl eq_refl)); contradiction.
Qed.

(** X21.  [Equals] compares the coins by their text and the assets by
    their [Uint64] amounts, key by key, a missing asset counting as the
    zero amount: two values are equal exactly when the coins print the same
    and every key has the same amount on both sides.  So an asset held with
    amount 0 makes no difference.  The zero [num.Int] is taken to read as 0. *)
Theorem Value_Equals_iff (left right : V5.Value Int) :
  Int_Uint64 zero_Int = 0%N ->
  unique_keys (V5.Value_Assets Int left) -> unique_keys (V5.Value_Assets Int right) ->
  (V5.Equals Int zero_Int Int_Uint64 Int_String left right = true <->
   Int_String (V5.Value_Coins Int left) = Int_String (V5.Value_Coins Int right) /\
   forall k,
     Int_Uint64 (map_get zero_Int (V5.Value_Assets Int left) k) =
     Int_Uint64 (map_get zero_Int (V5.Value_Assets Int right) k)).
Proof.
  intros Hz Hl Hr. unfold V5.Equals.
  destruct left as [lc la], right as [rc ra]. cbn [V5.Value_Coins V5.Value_Assets] in *.
  destruct (String.eqb_spec (Int_String lc) (Int_String rc)) as [Hc|Hc]; simpl.
  2:{ split; [discriminate | intros [H _]; contradiction]. }
  assert (Hboth :
    V5.equal_amounts Int zero_Int Int_Uint64 la ra = true /\
    V5.equal_amounts Int zero_Int Int_Uint64 ra la = true <->
    forall k, Int_Uint64 (map_get zero_Int la k) = Int_Uint64 (map_get zero_Int ra k)).
  { rewrite !equal_amounts_iff. split.
    - intros [H1 H2] k.
      rewrite (map_get_find zero_Int la k), (map_get_find zero_Int ra k).
      destruct (map_find la k) as [v|] eqn:El; destruct (map_find ra k) as [w|] eqn:Er.
      + apply (map_find_Some la k v Hl) in El. apply (map_find_Some ra k w Hr) in Er.
        pose proof (H1 k v El) as A. pose proof (H2 k w Er) as B.
        rewrite (map_get_find zero_Int ra k) in A.
        rewrite (map_get_find zero_Int la k) in B.
        apply (map_find_Some la k v Hl) in El. apply (map_find_Some ra k w Hr) in Er.
        rewrite Er in A. rewrite El in B.
        destruct A as [A|A]; destruct B as [B|B]; congruence.
      + apply (map_find_Some la k v Hl) in El.
        pose proof (H1 k v El) as A. rewrite (map_get_find zero_Int ra k), Er in A.
        destruct A as [A|A]; congruence.
      + apply (map_find_Some ra k w Hr) in Er.
        pose proof (H2 k w Er) as B. rewrite (map_get_find zero_Int la k), El in B.
        destruct B as [B|B]; congruence.
      + reflexivity.
    - intros H. split; intros k v Hin; right.
      + apply (map_find_Some la k v Hl) in Hin.
        rewrite <- H, (map_get_find zero_Int la k), Hin. reflexivity.
      + apply (map_find_Some ra k v Hr) in Hin.
        rewrite H, (map_get_find zero_Int ra k), Hin. reflexivity. }
  rewrite <- Hboth.
  destruct (V5.equal_amounts Int zero_Int Int_Uint64 la ra); simpl.
  - split; [intros H; repeat split; auto | intros [_ [_ H]]; exact H].
  - split; [discriminate | intros [_ [H _]]; discriminate H].
Qed.

Lemma enough_assets_iff (have want : list (V5.AssetID * Int)) :
  (fst (V5.enough_assets Int zero_Int Int_Int64 have want) = true <->
   forall asset amt, In (asset, amt) want ->
     (Int_Int64 amt <= Int_Int64 (map_get zero_Int have asset))%Z) /\
  (snd (V5.enough_assets Int zero_Int Int_Int64 have want) = None <->
   fst (V5.enough_assets Int zero_Int Int_Int64 have want) = true).
Proof.
  induction want as [|[asset amt] want [IH1 IH2]]; simpl.
  - split; split; auto. intros _ ? ? [].
  - destruct (Z.ltb_spec (Int_Int64 (map_get zero_Int have asset)) (Int_Int64 amt)) as [Hlt|Hge];
      simpl.
    + split; split; try discriminate.
      intros H. specialize (H asset amt (or_introl eq_refl)). lia.
    + split; [|exact IH2]. rewrite IH1. split.
      * intros H a' m' [E|Hin]; [injection E as <- <-; exact Hge | now apply H].
      * intros H a' m' Hin. apply H. now right.
Qed.

(** X22.  [Enough] answers [true] exactly when the coins of [have] are no
    fewer than the coins of [want] and, for every asset of [want], [have]
    holds no less of it, amounts read as [int64] and a missing asset as the
    zero amount.  It answers [true] without an error and [false] with
    one. *)
Theorem Value_Enough_iff (have want : V5.Value Int) :
  (fst (V5.Enough Int zero_Int Int_Int64 have want) = true <->
   (Int_Int64 (V5.Value_Coins Int want) <= Int_Int64 (V5.Value_Coins Int have))%Z /\
   forall asset amt, In (asset, amt) (V5.Value_Assets Int want) ->
     (Int_Int64 amt <= Int_Int64 (map_get zero_Int (V5.Value_Assets Int have) asset))%Z) /\
  (snd (V5.Enough Int zero_Int Int_Int64 have want) = None <->
   fst (V5.Enough Int zero_Int Int_Int64 have want) = true).
Proof.
  unfold V5.Enough.
  destruct (Z.ltb_spec (Int_Int64 (V5.Value_Coins Int have))
              (Int_Int64 (V5.Value_Coins Int want))) as [Hlt|Hge]; simpl.
  - split; split; try discriminate. intros [H _]. lia.
  - destruct (enough_assets_iff (V5.Value_Assets Int have) (V5.Value_Assets Int want))
      as [H1 H2].
    split; [|exact H2]. rewrite H1. tauto.
Qed.

Lemma holds_asset_iff (assets : list (V5.AssetID * Int)) assetID :
  V5.holds_asset Int assets assetID = true <-> In assetID (map fst assets).
Proof.
  induction assets as [|[k v] assets IH]; simpl.
  - split; [discriminate | tauto].
  - destruct (String.eqb_spec k assetID) as [E|E].
    + split; auto.
    + rewrite IH. split; [auto | intros [H|H]; [contradiction | exact H]].
Qed.

(** X23.  [FindByAssetID] returns the first output that holds the asset:
    when it answers [true] the output is one of the list, the asset is a
    key of its value, and no output before it holds the asset; when it
    answers [false] no output of the list holds the asset and the output
    returned is the zero value. *)
Theorem FindByAssetID_first (tt : list (V5.TxOut Int)) (assetID : V5.AssetID) :
  let r := V5.TxOuts_FindByAssetID Int zero_Int tt assetID in
  (snd r = true <->
   exists before after,
     tt = (before ++ fst r :: after)%list /\
     In assetID (map fst (V5.Value_Assets Int (V5.TxOut_Value Int (fst r)))) /\
     forall t, In t before ->
       ~ In assetID (map fst (V5.Value_Assets Int (V5.TxOut_Value Int t)))) /\
  (snd r = false <->
   fst r = V5.zero_TxOut Int zero_Int /\
   forall t, In t tt -> ~ In assetID (map fst (V5.Value_Assets Int (V5.TxOut_Value Int t)))).
Proof.
  cbv zeta.
  assert (Hcase :
    (snd (V5.TxOuts_FindByAssetID Int zero_Int tt assetID) = true /\
     exists before after,
       tt = (before ++ fst (V5.TxOuts_FindByAssetID Int zero_Int tt assetID) :: after)%list /\
       In assetID (map fst (V5.Value_Assets Int
                              (V5.TxOut_Value Int
                                 (fst (V5.TxOuts_FindByAssetID Int zero_Int tt assetID))))) /\
       forall t, In t before ->
         ~ In assetID (map fst (V5.Value_Assets Int (V5.TxOut_Value Int t)))) \/
    (snd (V5.TxOuts_FindByAssetID Int zero_Int tt assetID) = false /\
     fst (V5.TxOuts_FindByAssetID Int zero_Int tt assetID) = V5.zero_TxOut Int zero_Int /\
     forall t, In t tt ->
       ~ In assetID (map fst (V5.Value_Assets Int (V5.TxOut_Value Int t))))).
  { induction tt as [|t tt IH]; simpl.
    - right. repeat split. intros ? [].
    - destruct (V5.holds_asset Int (V5.Value_Assets Int (V5.TxOut_Value Int t)) assetID) eqn:E.
      + left. split; [reflexivity|]. exists [], tt. simpl.
        repeat split; [now apply holds_asset_iff | intros ? []].
      + assert (Hn : ~ In assetID (map fst (V5.Value_Assets Int (V5.TxOut_Value Int t)))).
        { intros H. apply holds_asset_iff in H. congruence. }
        destruct IH as [[Hs [before [after [Ht [Hin Hb]]]]]|[Hs [Hz Hall]]].
        * left. split; [exact Hs|]. exists (t :: before), after. simpl.
          split; [now f_equal|]. split; [exact Hin|].
          intros t' [<-|Ht']; [exact Hn | now apply Hb].
        * right. split; [exact Hs|]. split; [exact Hz|].
          intros t' [<-|Ht']; [exact Hn | now apply Hall]. }
  destruct Hcase as [[Hs He]|[Hs Hf]]; rewrite Hs.
  - split; [split; auto|]. split; [discriminate|].
    intros [_ Hall]. exfalso.
    destruct He as [before [after [Ht [Hin _]]]].
    apply (Hall (fst (V5.TxOuts_FindByAssetID Int zero_Int tt assetID))); [|exact Hin].
    rewrite Ht at 2. apply in_or_app. right. now left.
  - split; [|split; auto]. split; [discriminate|].
    intros [before [after [Ht [Hin _]]]]. exfalso.
    destruct Hf as [_ Hall].
    apply (Hall (fst (V5.TxOuts_FindByAssetID Int zero_Int tt assetID))); [|exact Hin].
    rewrite Ht at 2. apply in_or_app. right. now left.
Qed.

End ValueFacts.

Lemma value_a_unique : unique_keys (V5.Value_Assets Z value_a).
Proof. repeat constructor; simpl; intuition discriminate. Qed.

Lemma value_b_unique : unique_keys (V5.Value_Assets Z value_b).
Proof. repeat constructor; simpl; intuition discriminate. Qed.

Lemma value_c_unique : unique_keys (V5.Value_Assets Z value_c).
Proof. repeat constructor; simpl; intuition discriminate. Qed.

Lemma Value_Add_amounts_witness :
  map_get 0%Z (V5.Value_Assets Z (V5.Add Z 0%Z Z.add value_a value_b)) "bb.02" = 12%Z /\
  map_get 0%Z (V5.Value_Assets Z (V5.Subtract Z 0%Z Z.sub value_a value_b)) "cc.03" = (-3)%Z.
Proof.
  split.
  - exact (proj2 (proj1 (Value_Add_amounts Z 0%Z Z.add Z.sub value_a value_b
                           value_a_unique value_b_unique)) "bb.02").
  - exact (proj2 (proj2 (Value_Add_amounts Z 0%Z Z.add Z.sub value_a value_b
                           value_a_unique value_b_unique)) "cc.03").
Defined.

Lemma Value_Equals_iff_witness :
  FormatInt (V5.Value_Coins Z value_a) = FormatInt (V5.Value_Coins Z value_c) /\
  forall k,
    Z.to_N (map_get 0%Z (V5.Value_Assets Z value_a) k) =
    Z.to_N (map_get 0%Z (V5.Value_Assets Z value_c) k).
Proof.
  apply (proj1 (Value_Equals_iff Z 0%Z Z.to_N FormatInt value_a value_c
                  eq_refl value_a_unique value_c_unique)).
  reflexivity.
Defined.

(** ** Datums *)

Section DatumsFacts.
Variable base64_DecodeString : string -> bytes * option error.
Variable Sprint : Json.value -> string.




Lemma datums_loop_all_hex (ms : list (string * string)) :
  Forall (fun kv => is_hex (snd kv) = true) ms ->
  forall results,
    datums_loop base64_DecodeString Sprint
      (map (fun kv => (fst kv, Json.Str (snd kv))) ms) results =
    (fold_left (fun m kv => map_set m (fst kv) (snd kv)) ms results, None).
Proof.
  induction 1 as [|[k s] ms Hs _ IH]; intros results; [reflexivity|].
  simpl in *. unfold is_hex in Hs.
  destruct (hex_DecodeString s); [apply IH | discriminate Hs].
Qed.

Lemma datums_document_wf (ms : list (string * string)) :
  Forall (fun kv => ascii_text (fst kv) = true /\ is_hex (snd kv) = true) ms ->
  Json.wf (Json.Object (map (fun kv => (fst kv, Json.Str (snd kv))) ms)).
Proof.
  intros H. apply Json.wf_Object. apply Forall_forall. intros kx Hin.
  apply in_map_iff in Hin as [[k s] [<- Hin]]. simpl.
  rewrite Forall_forall in H. destruct (H _ Hin) as [Hk Hs]. simpl in Hk, Hs.
  split; [exact Hk|]. constructor. unfold is_hex in Hs.
  destruct (hex_DecodeString s) as [b|] eqn:E; [|discriminate Hs].
  exact (hex_ascii_text s b E).
Qed.

(** X25.  Hexadecimal datums pass [Datums.UnmarshalJSON] unchanged: from
    the document of a map whose values are all hexadecimal texts, the
    receiver becomes that map, and the base64 decoder has no say, also for
    a value that is a base64 text as well. *)
Theorem Datums_hex_unchanged (d : Datums) (ms : list (string * string)) :
  unique_keys ms ->
  Forall (fun kv => ascii_text (fst kv) = true /\ is_hex (snd kv) = true) ms ->
  Datums_UnmarshalJSON base64_DecodeString Sprint d (Some (datums_json ms)) = (ms, None).
Proof.
  intros Hu Hv. unfold Datums_UnmarshalJSON, datums_json, Json.Unmarshal.
  rewrite (JsonFacts.parse_render _ (datums_document_wf ms Hv)).
  cbn [Json.dec_generic_map].
  assert (Hk : unique_keys (map (fun kv : string * string => (fst kv, Json.Str (snd kv))) ms)).
  { unfold unique_keys in *. rewrite List.map_map. exact Hu. }
  rewrite (fold_map_set_unique _ [] Hk). cbn [List.app].
  rewrite datums_loop_all_hex.
  - rewrite (fold_map_set_unique ms [] Hu). reflexivity.
  - eapply Forall_impl; [|exact Hv]. intros kv [_ H]. exact H.
Qed.

Lemma datums_loop_rejects raw :
  Exists (fun kx : string * Json.value => is_string (snd kx) = false) raw ->
  forall results, snd (datums_loop base64_DecodeString Sprint raw results) <> None.
Proof.
  induction raw as [|[k x] raw IH]; intros He results; [inversion He|].
  simpl. destruct x; try discriminate.
  assert (Ht : Exists (fun kx : string * Json.value => is_string (snd kx) = false) raw).
  { inversion He as [? ? H|? ? H]; subst; [discriminate H | exact H]. }
  destruct (hex_DecodeString s); [now apply IH|].
  destruct (base64_DecodeString s) as [rawDatum [err|]]; [discriminate | now apply IH].
Qed.

(** X26.  [Datums.UnmarshalJSON] takes no value that is not a string: for
    the document of an object with such a member it returns an error and
    leaves the receiver as it was. *)
Theorem Datums_rejects (d : Datums) (ms : list (string * Json.value)) :
  Json.wf (Json.Object ms) -> unique_keys ms ->
  Exists (fun kx => is_string (snd kx) = false) ms ->
  fst (Datums_UnmarshalJSON base64_DecodeString Sprint d
         (Some (Json.render (Json.Object ms)))) = d /\
  snd (Datums_UnmarshalJSON base64_DecodeString Sprint d
         (Some (Json.render (Json.Object ms)))) <> None.
Proof.
  intros Hwf Hu He. unfold Datums_UnmarshalJSON, Json.Unmarshal.
  rewrite (JsonFacts.parse_render _ Hwf). cbn [Json.dec_generic_map].
  rewrite (fold_map_set_unique ms [] Hu). cbn [List.app].
  pose proof (datums_loop_rejects ms He []) as Hr.
  destruct (datums_loop base64_DecodeString Sprint ms []) as [results [err|]].
  - split; [reflexivity | discriminate].
  - now contradiction Hr.
Qed.

End DatumsFacts.


Lemma Datums_hex_unchanged_witness :
  Datums_UnmarshalJSON test_base64_DecodeString test_Sprint [("old", "00")]
    (Some (datums_json [("a", test_datum_hex); ("b", "abcd")])) =
  ([("a", test_datum_hex); ("b", "abcd")], None).
Proof.
  apply (Datums_hex_unchanged test_base64_DecodeString test_Sprint [("old", "00")]
           [("a", test_datum_hex); ("b", "abcd")]).
  - repeat constructor; simpl; intuition discriminate.
  - repeat constructor.
Defined.

Lemma Datums_rejects_witness :
  fst (Datums_UnmarshalJSON test_base64_DecodeString test_Sprint [("old", "00")]
         (Some (Json.render (Json.Object [("a", Json.Str "abcd"); ("b", Json.Bool true)])))) =
  [("old", "00")] /\
  snd (Datums_UnmarshalJSON test_base64_DecodeString test_Sprint [("old", "00")]
         (Some (Json.render (Json.Object [("a", Json.Str "abcd"); ("b", Json.Bool true)])))) <>
  None.
Proof.
  apply (Datums_rejects test_base64_DecodeString test_Sprint [("old", "00")]
           [("a", Json.Str "abcd"); ("b", Json.Bool true)]).
  - apply Json.wf_Object.
    constructor; [split; [reflexivity | now constructor]|].
    constructor; [split; [reflexivity | constructor] | constructor].
  - repeat constructor; simpl; intuition discriminate.
  - apply Exists_cons_tl. apply Exists_cons_hd. reflexivity.
Defined.
